(** * The chat widget of the UAV log viewer: connection, upload and routing

    A shallow embedding of the script part of
    [src/components/FloatingButton.vue]: the component's reactive data,
    the WebSocket handlers installed by [connectWebSocket], the message
    router [onMessageReceived], the chat sender [sendMessage] and the
    chunked uploader [sendFileChunks].

    The component is event driven.  Every handler body runs to completion
    on the single JavaScript thread, so each one is a function from worlds
    to worlds; the [async] methods are cut at their [await]s into the
    segments that run between two suspension points.  What the browser
    decides (socket life cycle, timers, file reads, the clock, the random
    client id) enters as the label of a step. *)

From stdpp Require Import base list list_numbers strings.
From Stdlib Require Import ZArith Lia.

Local Open Scope string_scope.
Local Open Scope list_scope.
Local Open Scope Z_scope.

(** ** Data *)

(** An entry of the [messages] array, and also a parsed inbound message:
    the envelope [{ type, content, timestamp }] with textual payload. *)
Record Message := { type : string; content : string; timestamp : string }.

(** The [File] held in [currentFile].  The component only ever looks at
    [name] and [size] and hands slices to a [FileReader]; the bytes are
    never inspected by the script. *)
Record File := { name : string; size : Z }.

(** The [Blob] returned by [File.slice]: the bytes of [blob_file] from
    [blob_start] (inclusive) to [blob_end] (exclusive).  As the [data] of a
    [file_chunk] it stands for the base64 text that [readAsDataURL]
    produces for exactly these bytes. *)
Record Blob := { blob_file : File; blob_start : Z; blob_end : Z }.

Definition blob_size (b : Blob) : Z := blob_end b - blob_start b.

(** [Blob.slice(start, end)] of the File API: both bounds are clamped to
    the blob and an inverted range is empty. *)
Definition clamp_bound (sz x : Z) : Z :=
  if x <? 0 then Z.max (sz + x) 0 else Z.min x sz.

Definition slice (f : File) (start end_ : Z) : Blob :=
  let s := clamp_bound (size f) start in
  let e := clamp_bound (size f) end_ in
  {| blob_file := f; blob_start := s; blob_end := s + Z.max (e - s) 0 |}.

(** What [JSON.stringify] is applied to before [ws.send]. *)
Inductive Outbound :=
| chat (content timestamp : string)
| data (kind payload timestamp : string)
| file_chunk (chunkIndex totalChunks : Z) (fileName : string) (data : Blob)
| file_complete (fileName : string) (totalChunks : Z).

(** [WebSocket.readyState]. *)
Inductive ReadyState := CONNECTING | OPEN | CLOSING | CLOSED.

Definition ReadyState_eqb (a b : ReadyState) : bool :=
  match a, b with
  | CONNECTING, CONNECTING | OPEN, OPEN | CLOSING, CLOSING | CLOSED, CLOSED => true
  | _, _ => false
  end.

(** The promise made by the [connectWebSocket] call that created a socket. *)
Inductive Promise := Pending | Resolved | Rejected.

(** A socket object.  [sent] is what really went out on the wire;
    [awaited] says that an [onFileLoaded] call is suspended on [promise]. *)
Record WebSocket := {
  url : string;
  readyState : ReadyState;
  sent : list Outbound;
  promise : Promise;
  awaited : bool
}.

(** The object returned by [data ()]. *)
Record Component := {
  isOpen : bool;
  newMessage : string;
  messages : list Message;
  hasFile : bool;
  isConnected : bool;
  parsedData : option string;
  ws : option nat;
  clientId : option string;
  reconnectAttempts : Z;
  maxReconnectAttempts : Z;
  reconnectDelay : Z;
  chunkSize : Z;
  currentFile : option File;
  isSendingFile : bool;
  isChatEnabled : bool;
  isProcessingQuestion : bool;
  isUploadingFile : bool;
  isProcessingFile : bool
}.

Definition data_ : Component :=
  {| isOpen := false; newMessage := ""; messages := []; hasFile := false;
     isConnected := false; parsedData := None; ws := None; clientId := None;
     reconnectAttempts := 0; maxReconnectAttempts := 5; reconnectDelay := 5000;
     chunkSize := 1024 * 1024; currentFile := None; isSendingFile := false;
     isChatEnabled := true; isProcessingQuestion := false;
     isUploadingFile := false; isProcessingFile := false |}.

(** Assignments [this.field = v]. *)
Definition set_isOpen (v : bool) (c : Component) : Component :=
  {| isOpen := v; newMessage := newMessage c; messages := messages c; hasFile := hasFile c;
     isConnected := isConnected c; parsedData := parsedData c; ws := ws c;
     clientId := clientId c; reconnectAttempts := reconnectAttempts c;
     maxReconnectAttempts := maxReconnectAttempts c; reconnectDelay := reconnectDelay c;
     chunkSize := chunkSize c; currentFile := currentFile c; isSendingFile := isSendingFile c;
     isChatEnabled := isChatEnabled c; isProcessingQuestion := isProcessingQuestion c;
     isUploadingFile := isUploadingFile c; isProcessingFile := isProcessingFile c |}.

Definition set_newMessage (v : string) (c : Component) : Component :=
  {| isOpen := isOpen c; newMessage := v; messages := messages c; hasFile := hasFile c;
     isConnected := isConnected c; parsedData := parsedData c; ws := ws c;
     clientId := clientId c; reconnectAttempts := reconnectAttempts c;
     maxReconnectAttempts := maxReconnectAttempts c; reconnectDelay := reconnectDelay c;
     chunkSize := chunkSize c; currentFile := currentFile c; isSendingFile := isSendingFile c;
     isChatEnabled := isChatEnabled c; isProcessingQuestion := isProcessingQuestion c;
     isUploadingFile := isUploadingFile c; isProcessingFile := isProcessingFile c |}.

Definition set_messages (v : list Message) (c : Component) : Component :=
  {| isOpen := isOpen c; newMessage := newMessage c; messages := v; hasFile := hasFile c;
     isConnected := isConnected c; parsedData := parsedData c; ws := ws c;
     clientId := clientId c; reconnectAttempts := reconnectAttempts c;
     maxReconnectAttempts := maxReconnectAttempts c; reconnectDelay := reconnectDelay c;
     chunkSize := chunkSize c; currentFile := currentFile c; isSendingFile := isSendingFile c;
     isChatEnabled := isChatEnabled c; isProcessingQuestion := isProcessingQuestion c;
     isUploadingFile := isUploadingFile c; isProcessingFile := isProcessingFile c |}.

Definition set_hasFile (v : bool) (c : Component) : Component :=
  {| isOpen := isOpen c; newMessage := newMessage c; messages := messages c; hasFile := v;
     isConnected := isConnected c; parsedData := parsedData c; ws := ws c;
     clientId := clientId c; reconnectAttempts := reconnectAttempts c;
     maxReconnectAttempts := maxReconnectAttempts c; reconnectDelay := reconnectDelay c;
     chunkSize := chunkSize c; currentFile := currentFile c; isSendingFile := isSendingFile c;
     isChatEnabled := isChatEnabled c; isProcessingQuestion := isProcessingQuestion c;
     isUploadingFile := isUploadingFile c; isProcessingFile := isProcessingFile c |}.

Definition set_isConnected (v : bool) (c : Component) : Component :=
  {| isOpen := isOpen c; newMessage := newMessage c; messages := messages c;
     hasFile := hasFile c; isConnected := v; parsedData := parsedData c; ws := ws c;
     clientId := clientId c; reconnectAttempts := reconnectAttempts c;
     maxReconnectAttempts := maxReconnectAttempts c; reconnectDelay := reconnectDelay c;
     chunkSize := chunkSize c; currentFile := currentFile c; isSendingFile := isSendingFile c;
     isChatEnabled := isChatEnabled c; isProcessingQuestion := isProcessingQuestion c;
     isUploadingFile := isUploadingFile c; isProcessingFile := isProcessingFile c |}.

Definition set_parsedData (v : option string) (c : Component) : Component :=
  {| isOpen := isOpen c; newMessage := newMessage c; messages := messages c;
     hasFile := hasFile c; isConnected := isConnected c; parsedData := v; ws := ws c;
     clientId := clientId c; reconnectAttempts := reconnectAttempts c;
     maxReconnectAttempts := maxReconnectAttempts c; reconnectDelay := reconnectDelay c;
     chunkSize := chunkSize c; currentFile := currentFile c; isSendingFile := isSendingFile c;
     isChatEnabled := isChatEnabled c; isProcessingQuestion := isProcessingQuestion c;
     isUploadingFile := isUploadingFile c; isProcessingFile := isProcessingFile c |}.

Definition set_ws (v : option nat) (c : Component) : Component :=
  {| isOpen := isOpen c; newMessage := newMessage c; messages := messages c;
     hasFile := hasFile c; isConnected := isConnected c; parsedData := parsedData c; ws := v;
     clientId := clientId c; reconnectAttempts := reconnectAttempts c;
     maxReconnectAttempts := maxReconnectAttempts c; reconnectDelay := reconnectDelay c;
     chunkSize := chunkSize c; currentFile := currentFile c; isSendingFile := isSendingFile c;
     isChatEnabled := isChatEnabled c; isProcessingQuestion := isProcessingQuestion c;
     isUploadingFile := isUploadingFile c; isProcessingFile := isProcessingFile c |}.

Definition set_clientId (v : option string) (c : Component) : Component :=
  {| isOpen := isOpen c; newMessage := newMessage c; messages := messages c;
     hasFile := hasFile c; isConnected := isConnected c; parsedData := parsedData c;
     ws := ws c; clientId := v; reconnectAttempts := reconnectAttempts c;
     maxReconnectAttempts := maxReconnectAttempts c; reconnectDelay := reconnectDelay c;
     chunkSize := chunkSize c; currentFile := currentFile c; isSendingFile := isSendingFile c;
     isChatEnabled := isChatEnabled c; isProcessingQuestion := isProcessingQuestion c;
     isUploadingFile := isUploadingFile c; isProcessingFile := isProcessingFile c |}.

Definition set_reconnectAttempts (v : Z) (c : Component) : Component :=
  {| isOpen := isOpen c; newMessage := newMessage c; messages := messages c;
     hasFile := hasFile c; isConnected := isConnected c; parsedData := parsedData c;
     ws := ws c; clientId := clientId c; reconnectAttempts := v;
     maxReconnectAttempts := maxReconnectAttempts c; reconnectDelay := reconnectDelay c;
     chunkSize := chunkSize c; currentFile := currentFile c; isSendingFile := isSendingFile c;
     isChatEnabled := isChatEnabled c; isProcessingQuestion := isProcessingQuestion c;
     isUploadingFile := isUploadingFile c; isProcessingFile := isProcessingFile c |}.

Definition set_currentFile (v : option File) (c : Component) : Component :=
  {| isOpen := isOpen c; newMessage := newMessage c; messages := messages c;
     hasFile := hasFile c; isConnected := isConnected c; parsedData := parsedData c;
     ws := ws c; clientId := clientId c; reconnectAttempts := reconnectAttempts c;
     maxReconnectAttempts := maxReconnectAttempts c; reconnectDelay := reconnectDelay c;
     chunkSize := chunkSize c; currentFile := v; isSendingFile := isSendingFile c;
     isChatEnabled := isChatEnabled c; isProcessingQuestion := isProcessingQuestion c;
     isUploadingFile := isUploadingFile c; isProcessingFile := isProcessingFile c |}.

Definition set_isSendingFile (v : bool) (c : Component) : Component :=
  {| isOpen := isOpen c; newMessage := newMessage c; messages := messages c;
     hasFile := hasFile c; isConnected := isConnected c; parsedData := parsedData c;
     ws := ws c; clientId := clientId c; reconnectAttempts := reconnectAttempts c;
     maxReconnectAttempts := maxReconnectAttempts c; reconnectDelay := reconnectDelay c;
     chunkSize := chunkSize c; currentFile := currentFile c; isSendingFile := v;
     isChatEnabled := isChatEnabled c; isProcessingQuestion := isProcessingQuestion c;
     isUploadingFile := isUploadingFile c; isProcessingFile := isProcessingFile c |}.

Definition set_isChatEnabled (v : bool) (c : Component) : Component :=
  {| isOpen := isOpen c; newMessage := newMessage c; messages := messages c;
     hasFile := hasFile c; isConnected := isConnected c; parsedData := parsedData c;
     ws := ws c; clientId := clientId c; reconnectAttempts := reconnectAttempts c;
     maxReconnectAttempts := maxReconnectAttempts c; reconnectDelay := reconnectDelay c;
     chunkSize := chunkSize c; currentFile := currentFile c; isSendingFile := isSendingFile c;
     isChatEnabled := v; isProcessingQuestion := isProcessingQuestion c;
     isUploadingFile := isUploadingFile c; isProcessingFile := isProcessingFile c |}.

Definition set_isProcessingQuestion (v : bool) (c : Component) : Component :=
  {| isOpen := isOpen c; newMessage := newMessage c; messages := messages c;
     hasFile := hasFile c; isConnected := isConnected c; parsedData := parsedData c;
     ws := ws c; clientId := clientId c; reconnectAttempts := reconnectAttempts c;
     maxReconnectAttempts := maxReconnectAttempts c; reconnectDelay := reconnectDelay c;
     chunkSize := chunkSize c; currentFile := currentFile c; isSendingFile := isSendingFile c;
     isChatEnabled := isChatEnabled c; isProcessingQuestion := v;
     isUploadingFile := isUploadingFile c; isProcessingFile := isProcessingFile c |}.

Definition set_isUploadingFile (v : bool) (c : Component) : Component :=
  {| isOpen := isOpen c; newMessage := newMessage c; messages := messages c;
     hasFile := hasFile c; isConnected := isConnected c; parsedData := parsedData c;
     ws := ws c; clientId := clientId c; reconnectAttempts := reconnectAttempts c;
     maxReconnectAttempts := maxReconnectAttempts c; reconnectDelay := reconnectDelay c;
     chunkSize := chunkSize c; currentFile := currentFile c; isSendingFile := isSendingFile c;
     isChatEnabled := isChatEnabled c; isProcessingQuestion := isProcessingQuestion c;
     isUploadingFile := v; isProcessingFile := isProcessingFile c |}.

Definition set_isProcessingFile (v : bool) (c : Component) : Component :=
  {| isOpen := isOpen c; newMessage := newMessage c; messages := messages c;
     hasFile := hasFile c; isConnected := isConnected c; parsedData := parsedData c;
     ws := ws c; clientId := clientId c; reconnectAttempts := reconnectAttempts c;
     maxReconnectAttempts := maxReconnectAttempts c; reconnectDelay := reconnectDelay c;
     chunkSize := chunkSize c; currentFile := currentFile c; isSendingFile := isSendingFile c;
     isChatEnabled := isChatEnabled c; isProcessingQuestion := isProcessingQuestion c;
     isUploadingFile := isUploadingFile c; isProcessingFile := v |}.

(** One suspended call of [sendFileChunks]: its locals [totalChunks] and
    [i], and the [await] it is parked on. *)
Inductive Upload :=
| Reading (totalChunks i : Z) (chunk : Blob)   (* await chunkPromise *)
| Waiting (totalChunks i : Z)                  (* await the 100 ms delay *)
| Finished.

(** The component together with the browser objects it talks to.  A socket
    is named by its position in [sockets]; [this.ws] holds such a name, so
    that a handle and the handlers of an older socket can coexist.
    [timers] are the pending [setTimeout] callbacks of [ws.onclose] (each
    calls [connectWebSocket]), [reads] the blobs handed to a [FileReader],
    [scrolls] counts the [scrollToBottom] requests. *)
Record World := {
  vm : Component;
  sockets : list WebSocket;
  timers : list Z;
  uploads : list Upload;
  reads : list Blob;
  scrolls : nat
}.

Definition created : World :=
  {| vm := data_; sockets := []; timers := []; uploads := []; reads := []; scrolls := 0 |}.

Definition upd (f : Component -> Component) (w : World) : World :=
  {| vm := f (vm w); sockets := sockets w; timers := timers w;
     uploads := uploads w; reads := reads w; scrolls := scrolls w |}.

Definition set_sockets (v : list WebSocket) (w : World) : World :=
  {| vm := vm w; sockets := v; timers := timers w;
     uploads := uploads w; reads := reads w; scrolls := scrolls w |}.

Definition set_timers (v : list Z) (w : World) : World :=
  {| vm := vm w; sockets := sockets w; timers := v;
     uploads := uploads w; reads := reads w; scrolls := scrolls w |}.

Definition set_uploads (v : list Upload) (w : World) : World :=
  {| vm := vm w; sockets := sockets w; timers := timers w;
     uploads := v; reads := reads w; scrolls := scrolls w |}.

Definition set_reads (v : list Blob) (w : World) : World :=
  {| vm := vm w; sockets := sockets w; timers := timers w;
     uploads := uploads w; reads := v; scrolls := scrolls w |}.

Definition set_scrolls (v : nat) (w : World) : World :=
  {| vm := vm w; sockets := sockets w; timers := timers w;
     uploads := uploads w; reads := reads w; scrolls := v |}.

Definition push (m : Message) (w : World) : World :=
  upd (fun c => set_messages (messages c ++ [m]) c) w.

Definition set_readyState (v : ReadyState) (s : WebSocket) : WebSocket :=
  {| url := url s; readyState := v; sent := sent s; promise := promise s; awaited := awaited s |}.

Definition set_sent (v : list Outbound) (s : WebSocket) : WebSocket :=
  {| url := url s; readyState := readyState s; sent := v; promise := promise s; awaited := awaited s |}.

Definition set_promise (v : Promise) (s : WebSocket) : WebSocket :=
  {| url := url s; readyState := readyState s; sent := sent s; promise := v; awaited := awaited s |}.

Definition set_awaited (v : bool) (s : WebSocket) : WebSocket :=
  {| url := url s; readyState := readyState s; sent := sent s; promise := promise s; awaited := v |}.

(** [a === b] on two strings. *)
Notation "a === b" := (String.eqb a b) (at level 70, no associativity).

(** [!x] for a reference that is an object or [null]. *)
Definition isNull {A} (x : option A) : bool :=
  match x with None => true | Some _ => false end.

(** ** Browser primitives *)

(** [this.ws && this.ws.readyState === WebSocket.OPEN]. *)
Definition wsIsOpen (w : World) : bool :=
  match ws (vm w) with
  | Some h =>
      match sockets w !! h with
      | Some s => ReadyState_eqb (readyState s) OPEN
      | None => false
      end
  | None => false
  end.

(** [socket.send(msg)] as the WebSocket standard has it: it throws while
    the socket is still connecting, transmits when it is open, and silently
    drops the message once the socket is closing or closed.  [None] is a
    thrown exception. *)
Definition socket_send (h : nat) (msg : Outbound) (w : World) : option World :=
  match sockets w !! h with
  | Some s =>
      match readyState s with
      | CONNECTING => None
      | OPEN => Some (set_sockets (<[h := set_sent (sent s ++ [msg]) s]> (sockets w)) w)
      | CLOSING | CLOSED => Some w
      end
  | None => None
  end.

(** [this.ws.send(msg)]: reading [send] off a null handle throws as well. *)
Definition ws_send (msg : Outbound) (w : World) : option World :=
  match ws (vm w) with
  | Some h => socket_send h msg w
  | None => None
  end.

(** *** Text and [trim]

    A text is held as a Rocq string, that is as the bytes of its UTF-8
    encoding, which is also how the string literals of this file are
    read.  [code_points] decodes it.  A byte that starts no UTF-8
    sequence (a stray continuation byte, a truncated or overlong
    sequence, an encoded surrogate) is taken for the code point of its
    own number, as a byte of a Latin-1 text is. *)
Definition is_continuation (b : N) : bool := ((128 <=? b) && (b <? 192))%N.

Definition two_bytes (b0 b1 : N) : option N :=
  if ((194 <=? b0) && (b0 <? 224))%N && is_continuation b1
  then Some ((b0 - 192) * 64 + (b1 - 128))%N
  else None.

Definition three_bytes (b0 b1 b2 : N) : option N :=
  let cp := ((b0 - 224) * 4096 + (b1 - 128) * 64 + (b2 - 128))%N in
  if ((224 <=? b0) && (b0 <? 240))%N && is_continuation b1 && is_continuation b2
     && (2048 <=? cp)%N && negb ((55296 <=? cp) && (cp <? 57344))%N
  then Some cp
  else None.

Definition four_bytes (b0 b1 b2 b3 : N) : option N :=
  let cp := ((b0 - 240) * 262144 + (b1 - 128) * 4096 + (b2 - 128) * 64 + (b3 - 128))%N in
  if ((240 <=? b0) && (b0 <? 248))%N && is_continuation b1 && is_continuation b2
     && is_continuation b3 && (65536 <=? cp)%N && (cp <? 1114112)%N
  then Some cp
  else None.

Fixpoint code_points (s : string) : list N :=
  match s with
  | EmptyString => []
  | String a0 s1 =>
      let b0 := Ascii.N_of_ascii a0 in
      if (b0 <? 128)%N then b0 :: code_points s1
      else
        match s1 with
        | String a1 s2 =>
            let b1 := Ascii.N_of_ascii a1 in
            match two_bytes b0 b1 with
            | Some cp => cp :: code_points s2
            | None =>
                match s2 with
                | String a2 s3 =>
                    let b2 := Ascii.N_of_ascii a2 in
                    match three_bytes b0 b1 b2 with
                    | Some cp => cp :: code_points s3
                    | None =>
                        match s3 with
                        | String a3 s4 =>
                            match four_bytes b0 b1 b2 (Ascii.N_of_ascii a3) with
                            | Some cp => cp :: code_points s4
                            | None => b0 :: code_points s1
                            end
                        | EmptyString => b0 :: code_points s1
                        end
                    end
                | EmptyString => b0 :: code_points s1
                end
            end
        | EmptyString => [b0]
        end
  end.

(** What [String.prototype.trim] strips, by code point: the white space
    of ECMAScript (TAB, VT, FF, U+FEFF and the space separators of
    Unicode: SP, NBSP, U+1680, U+2000 to U+200A, U+202F, U+205F, U+3000)
    and its line terminators (LF, CR, U+2028, U+2029). *)
Definition is_white_space (cp : N) : bool :=
  ((9 <=? cp) && (cp <=? 13) || (cp =? 32) || (cp =? 160) || (cp =? 5760)
   || (8192 <=? cp) && (cp <=? 8202) || (cp =? 8232) || (cp =? 8233) || (cp =? 8239)
   || (cp =? 8287) || (cp =? 12288) || (cp =? 65279))%N.

(** [!s.trim()]: nothing is left of the text once white space is stripped
    from both ends, that is every code point of it is white space. *)
Definition trims_to_empty (s : string) : bool := forallb is_white_space (code_points s).

(** The other way round: the text with the code points [cps].  It is
    what the text box holds after the user has typed them. *)
Definition utf8 (cp : N) : list N :=
  (if cp <? 128 then [cp]
   else if cp <? 2048 then [192 + cp / 64; 128 + cp mod 64]
   else if cp <? 65536 then [224 + cp / 4096; 128 + (cp / 64) mod 64; 128 + cp mod 64]
   else [240 + cp / 262144; 128 + (cp / 4096) mod 64; 128 + (cp / 64) mod 64;
         128 + cp mod 64])%N.

Fixpoint text_of (cps : list N) : string :=
  match cps with
  | [] => ""
  | cp :: rest => fold_right (fun b s => String (Ascii.ascii_of_N b) s) (text_of rest) (utf8 cp)
  end.

(** The code points a text is made of: all but the surrogates. *)
Definition is_scalar (cp : N) : bool :=
  ((cp <? 55296) || (57344 <=? cp) && (cp <? 1114112))%N.

(** [scrollToBottom ()]: a request to the presentation layer. *)
Definition scrollToBottom (w : World) : World := set_scrolls (S (scrolls w)) w.

(** ** The message router *)

Definition onMessageReceived (message : Message) (w : World) : World :=
  let c := content message in
  let w' :=
    if type message === "chat" then
      if c === "Processing your question..." then
        upd (set_isProcessingQuestion true) w
      else
        push {| type := "server"; content := c; timestamp := timestamp message |}
             (upd (set_isProcessingQuestion false) w)
    else if type message === "system" then
      if (c === "Connected to chat server") || String.prefix "Welcome! Your client ID is:" c then w
      else if c === "Processing File" then w
      else if String.prefix "Log file processed successfully:" c then
        upd (set_isProcessingQuestion false)
            (upd (set_isUploadingFile false) (upd (set_isProcessingFile false) w))
      else if String.prefix "File saved successfully:" c then
        upd (set_isProcessingFile true) (upd (set_isUploadingFile false) w)
      else
        push {| type := "system"; content := c; timestamp := timestamp message |} w
    else if type message === "acknowledgment" then w
    else if type message === "error" then
      push {| type := "system"; content := "Error: " +:+ c; timestamp := timestamp message |}
           (upd (set_isProcessingFile false)
                (upd (set_isUploadingFile false) (upd (set_isProcessingQuestion false) w)))
    else w
  in
  scrollToBottom w'.

(** The handler [ws.onmessage]: [JSON.parse] either yields a message,
    which is routed, or throws, which is only logged. *)
Definition ws_onmessage (parsed : option Message) (w : World) : World :=
  match parsed with
  | Some m => onMessageReceived m w
  | None => w
  end.

(** The method [onMessage] (no caller in the component). *)
Definition onMessage (parsed : option Message) (w : World) : World :=
  match parsed with
  | Some m =>
      if type m === "error" then push m (upd (set_isChatEnabled false) w)
      else push m (upd (set_isChatEnabled true) w)
  | None => w
  end.

(** ** Sending chat text and telemetry *)

Definition sendMessage (now : string) (w : World) : World :=
  let c := vm w in
  if trims_to_empty (newMessage c) || negb (isConnected c) || isNull (ws c)
  then w
  else
    let text := newMessage c in
    let w1 := upd (set_isProcessingQuestion false) w in
    let w2 := push {| type := "user"; content := text; timestamp := now |} w1 in
    match ws_send (chat text now) w2 with
    | Some w3 => scrollToBottom (upd (set_newMessage "") w3)
    | None =>
        push {| type := "system"; content := "Failed to send message. Please try again.";
                timestamp := now |} w2
    end.

Definition sendDataToBackend (kind payload now : string) (w : World) : World :=
  if negb (wsIsOpen w) then w
  else
    match ws_send (data kind payload now) w with
    | Some w1 => w1
    | None => w
    end.

(** [updateParsedData ()]: [snapshot] is the JSON text of the trajectory,
    attitude and parameters read from the telemetry store. *)
Definition updateParsedData (snapshot now : string) (w : World) : World :=
  sendDataToBackend "parsed_data" snapshot now (upd (set_parsedData (Some snapshot)) w).

Definition setCurrentFile (file : File) (w : World) : World :=
  upd (set_currentFile (Some file)) w.

Definition toggleChat (w : World) : World :=
  upd (fun c => set_isOpen (negb (isOpen c)) c) w.

(** ** The chunked uploader *)

(** [Math.ceil(a / b)] for a positive [b]. *)
Definition Math_ceil_div (a b : Z) : Z := - ((- a) / b).

(** The [catch] and [finally] blocks of [sendFileChunks]; [emsg] is
    [error.message], the text the engine put in the exception. *)
Definition sendFileChunks_finally (w : World) : World :=
  upd (set_isSendingFile false) w.

Definition sendFileChunks_catch (now emsg : string) (w : World) : World :=
  sendFileChunks_finally
    (upd (set_isUploadingFile false)
       (upd (set_isChatEnabled true)
          (push {| type := "error"; content := "Error sending file: " +:+ emsg;
                   timestamp := now |} w))).

(** The loop of [sendFileChunks] entered at index [i], run up to the next
    [await] or to the end of the method.  The result is the world and the
    suspension point reached.  [this.currentFile] and [this.ws] are read
    afresh here, as the method reads them afresh after every [await]. *)
Definition sendFileChunks_loop (totalChunks i : Z) (now emsg : string) (w : World)
  : World * Upload :=
  let chunkSize := 1024 * 1024 in
  if i <? totalChunks then
    match currentFile (vm w) with
    | Some f =>
        let start := i * chunkSize in
        let end_ := Z.min (start + chunkSize) (size f) in
        let chunk := slice f start end_ in
        (set_reads (reads w ++ [chunk]) w, Reading totalChunks i chunk)
    | None => (sendFileChunks_catch now emsg w, Finished)
    end
  else
    match currentFile (vm w) with
    | Some f =>
        match ws_send (file_complete (name f) totalChunks) w with
        | Some w1 => (sendFileChunks_finally (upd (set_currentFile None) w1), Finished)
        | None => (sendFileChunks_catch now emsg w, Finished)
        end
    | None => (sendFileChunks_catch now emsg w, Finished)
    end.

(** The call [sendFileChunks ()] up to its first [await].  The new call is
    entered in [uploads] at position [length (uploads w)]. *)
Definition sendFileChunks (now emsg : string) (w : World) : World :=
  match currentFile (vm w) with
  | None => w
  | Some f =>
      let chunkSize := 1024 * 1024 in
      let w1 := upd (set_isUploadingFile true)
                  (upd (set_isChatEnabled false) (upd (set_isSendingFile true) w)) in
      let totalChunks := Math_ceil_div (size f) chunkSize in
      let '(w2, st) := sendFileChunks_loop totalChunks 0 now emsg w1 in
      set_uploads (uploads w2 ++ [st]) w2
  end.

Definition park (pid : nat) (r : World * Upload) : World :=
  set_uploads (<[pid := snd r]> (uploads (fst r))) (fst r).

(** [reader.onload] of the call [pid]: build and send the [file_chunk],
    resolve, and go on to the delay.  [None]: no such read is in flight. *)
Definition reader_onload (pid : nat) (now emsg : string) (w : World) : option World :=
  match uploads w !! pid with
  | Some (Reading totalChunks i chunk) =>
      Some (park pid
        match currentFile (vm w) with
        | Some f =>
            match ws_send (file_chunk i totalChunks (name f) chunk) w with
            | Some w1 => (w1, Waiting totalChunks i)
            | None => (sendFileChunks_catch now emsg w, Finished)
            end
        | None => (sendFileChunks_catch now emsg w, Finished)
        end)
  | _ => None
  end.

(** [reader.onerror = reject]: the rejection value is a progress event,
    whose [message] is [undefined]. *)
Definition reader_onerror (pid : nat) (now : string) (w : World) : option World :=
  match uploads w !! pid with
  | Some (Reading _ _ _) => Some (park pid (sendFileChunks_catch now "undefined" w, Finished))
  | _ => None
  end.

(** The 100 ms delay of the call [pid] is over: [i++] and back to the loop. *)
Definition delay_elapsed (pid : nat) (now emsg : string) (w : World) : option World :=
  match uploads w !! pid with
  | Some (Waiting totalChunks i) =>
      Some (park pid (sendFileChunks_loop totalChunks (i + 1) now emsg w))
  | _ => None
  end.

(** One call of [sendFileChunks] run from its suspension point to its end
    with no other handler in between; [readOk i] tells whether the read of
    chunk [i] succeeds. *)
Fixpoint run_upload (fuel : nat) (readOk : Z -> bool) (pid : nat) (now emsg : string)
  (w : World) : World :=
  match fuel with
  | O => w
  | S fuel' =>
      match uploads w !! pid with
      | Some (Reading _ i _) =>
          let next := if readOk i then reader_onload pid now emsg w
                      else reader_onerror pid now w in
          match next with
          | Some w1 => run_upload fuel' readOk pid now emsg w1
          | None => w
          end
      | Some (Waiting _ _) =>
          match delay_elapsed pid now emsg w with
          | Some w1 => run_upload fuel' readOk pid now emsg w1
          | None => w
          end
      | _ => w
      end
  end.

(** Two segments per chunk. *)
Definition upload_fuel (f : File) : nat :=
  Z.to_nat (2 * Math_ceil_div (size f) (1024 * 1024)).

Definition sendFileChunks_run (readOk : Z -> bool) (now emsg : string) (w : World) : World :=
  match currentFile (vm w) with
  | None => sendFileChunks now emsg w
  | Some f =>
      run_upload (upload_fuel f) readOk (length (uploads w)) now emsg (sendFileChunks now emsg w)
  end.

(** ** The connection *)

(** What a call of [connectWebSocket] hands back: it returned at once, or
    it returned the promise made together with socket [h]. *)
Inductive Connect := AlreadyOpen | Opening (h : nat).

(** [connectWebSocket ()]; [rnd] is the text
    [Math.random().toString(36).substr(2, 9)]. *)
Definition connectWebSocket (rnd : string) (w : World) : World * Connect :=
  if wsIsOpen w then (w, AlreadyOpen)
  else
    let fresh := upd (set_clientId (Some ("client_" +:+ rnd))) w in
    let w1 := match clientId (vm w) with
              | Some id => if id === "" then fresh else w
              | None => fresh
              end in
    let h := length (sockets w1) in
    let s := {| url := "ws://0.0.0.0:8000/ws/" +:+ default "" (clientId (vm w1));
                readyState := CONNECTING; sent := []; promise := Pending; awaited := false |} in
    (upd (set_ws (Some h)) (set_sockets (sockets w1 ++ [s]) w1), Opening h).

(** The rest of [onFileLoaded] after [await this.connectWebSocket()]:
    the [if] when the promise was fulfilled, the [catch] when it was
    rejected. *)
Definition onFileLoaded_resume (now emsg : string) (w : World) : World :=
  if isConnected (vm w) && negb (isNull (currentFile (vm w)))
  then sendFileChunks now emsg w
  else w.

Definition onFileLoaded_catch (now : string) (w : World) : World :=
  push {| type := "system"; content := "Failed to establish WebSocket connection";
          timestamp := now |} w.

(** [resolve ()] and [reject (error)] of the promise of socket [h]: a
    promise settles once, and settling wakes the [onFileLoaded] call that
    awaits it. *)
Definition settle (h : nat) (outcome : Promise) (k : World -> World) (w : World) : World :=
  match sockets w !! h with
  | Some s =>
      match promise s with
      | Pending =>
          let w1 := set_sockets (<[h := set_promise outcome s]> (sockets w)) w in
          if awaited s then k w1 else w1
      | _ => w
      end
  | None => w
  end.

(** The handlers installed on socket [h]. *)
Definition ws_onopen (h : nat) (now emsg : string) (w : World) : World :=
  let w1 := upd (set_reconnectAttempts 0) (upd (set_isConnected true) w) in
  settle h Resolved (onFileLoaded_resume now emsg) w1.

Definition ws_onerror (h : nat) (now : string) (w : World) : World :=
  let w1 := push {| type := "system"; content := "Error connecting to chat server";
                    timestamp := now |} (upd (set_isConnected false) w) in
  settle h Rejected (onFileLoaded_catch now) w1.

Definition ws_onclose (now : string) (w : World) : World :=
  let w1 := upd (set_isConnected false) w in
  let c := vm w1 in
  if reconnectAttempts c <? maxReconnectAttempts c then
    set_timers (timers w1 ++ [reconnectDelay c])
      (upd (set_reconnectAttempts (reconnectAttempts c + 1)) w1)
  else
    push {| type := "system";
            content := "Failed to reconnect to chat server after multiple attempts";
            timestamp := now |} w1.

(** The callback that [ws.onclose] gave to [setTimeout]. *)
Definition reconnect_timer (rnd : string) (w : World) : World :=
  fst (connectWebSocket rnd w).

(** [socket.close()] on an open socket starts the closing handshake. *)
Definition socket_close (h : nat) (w : World) : World :=
  match sockets w !! h with
  | Some s => set_sockets (<[h := set_readyState CLOSING s]> (sockets w)) w
  | None => w
  end.

Definition disconnectWebSocket (w : World) : World :=
  match ws (vm w) with
  | Some h =>
      let w1 := if wsIsOpen w then socket_close h w else w in
      upd (set_isConnected false) (upd (set_ws None) w1)
  | None => w
  end.

Definition onFileLoaded (snapshot rnd now emsg : string) (w : World) : World :=
  let w1 := updateParsedData snapshot now (upd (set_hasFile true) w) in
  match connectWebSocket rnd w1 with
  | (w2, AlreadyOpen) => onFileLoaded_resume now emsg w2
  | (w2, Opening h) =>
      match sockets w2 !! h with
      | Some s => set_sockets (<[h := set_awaited true s]> (sockets w2)) w2
      | None => w2
      end
  end.

(** ** The event loop *)

(** What can happen next: an event on the hub, a click, a method of the
    component called from outside (the [Call] events; the component itself
    wires none of them but [disconnectWebSocket], in [beforeDestroy]), or a
    callback of the browser.

    The life cycle of a socket is the one of the WebSockets standard;
    beyond it, the model lets a socket close without [error] also before
    it has opened.
    [SocketOpen]: the connection is established; the browser sets the
    ready state to [OPEN] and fires [open].  [SocketClosing]: the server
    starts the closing handshake; the browser sets [CLOSING] in a task of
    its own and fires nothing.  [SocketClose]: the connection is closed;
    the browser sets [CLOSED] and fires [close].  [SocketError]: the
    connection is closed after the browser had to fail it; in this one
    task the browser sets [CLOSED], fires [error] and then fires [close],
    and what the [error] handler woke (the [catch] of [onFileLoaded]) runs
    between the two handlers.  [SocketMessage]: a message is delivered,
    which the browser does only while the ready state is [OPEN]. *)
Inductive Event :=
| FileReady (file : File)                        (* hub event 'file-ready' *)
| MessagesDoneLoading (snapshot rnd now emsg : string)   (* hub: onFileLoaded *)
| HubMessage (m : Message)                       (* hub: 'websocket-message', 'websocket-error' *)
| CallConnect (rnd : string)
| CallDisconnect                                 (* also beforeDestroy *)
| CallSendFileChunks (now emsg : string)
| CallOnMessage (parsed : option Message)
| Input (text : string)                          (* v-model on the text box *)
| ClickSend (now : string)
| ToggleChat
| SocketOpen (h : nat) (now emsg : string)
| SocketError (h : nat) (now : string)
| SocketClose (h : nat) (now : string)
| SocketMessage (h : nat) (parsed : option Message)
| TimerFires (rnd : string)
| ReaderLoad (pid : nat) (now emsg : string)
| ReaderError (pid : nat) (now : string)
| DelayElapsed (pid : nat) (now emsg : string)
| SocketClosing (h : nat).

Definition set_socket_state (h : nat) (v : ReadyState) (w : World) : World :=
  match sockets w !! h with
  | Some s => set_sockets (<[h := set_readyState v s]> (sockets w)) w
  | None => w
  end.

Definition state_of (h : nat) (w : World) : option ReadyState :=
  readyState <$> sockets w !! h.

(** One turn of the event loop; [None] when the browser cannot raise the
    event in this world (a socket opens once, out of [CONNECTING]; the
    closing handshake starts on an open socket; a socket closes once,
    with or without [error]; data arrives on an open socket; a timer fires
    if one is pending). *)
Definition step (w : World) (e : Event) : option World :=
  match e with
  | FileReady f => Some (setCurrentFile f w)
  | MessagesDoneLoading snapshot rnd now emsg => Some (onFileLoaded snapshot rnd now emsg w)
  | HubMessage m => Some (onMessageReceived m w)
  | CallConnect rnd => Some (fst (connectWebSocket rnd w))
  | CallDisconnect => Some (disconnectWebSocket w)
  | CallSendFileChunks now emsg => Some (sendFileChunks now emsg w)
  | CallOnMessage parsed => Some (onMessage parsed w)
  | Input text => Some (upd (set_newMessage text) w)
  | ClickSend now => Some (sendMessage now w)
  | ToggleChat => Some (toggleChat w)
  | SocketOpen h now emsg =>
      match state_of h w with
      | Some CONNECTING => Some (ws_onopen h now emsg (set_socket_state h OPEN w))
      | _ => None
      end
  | SocketError h now =>
      match state_of h w with
      | Some CLOSED | None => None
      | Some _ => Some (ws_onclose now (ws_onerror h now (set_socket_state h CLOSED w)))
      end
  | SocketClose h now =>
      match state_of h w with
      | Some CLOSED | None => None
      | Some _ => Some (ws_onclose now (set_socket_state h CLOSED w))
      end
  | SocketMessage h parsed =>
      match state_of h w with
      | Some OPEN => Some (ws_onmessage parsed w)
      | _ => None
      end
  | TimerFires rnd =>
      match timers w with
      | _ :: rest => Some (reconnect_timer rnd (set_timers rest w))
      | [] => None
      end
  | ReaderLoad pid now emsg => reader_onload pid now emsg w
  | ReaderError pid now => reader_onerror pid now w
  | DelayElapsed pid now emsg => delay_elapsed pid now emsg w
  | SocketClosing h =>
      match state_of h w with
      | Some OPEN => Some (set_socket_state h CLOSING w)
      | _ => None
      end
  end.

Fixpoint exec (w : World) (es : list Event) : option World :=
  match es with
  | [] => Some w
  | e :: es' =>
      match step w e with
      | Some w' => exec w' es'
      | None => None
      end
  end.

(** The worlds the component can be in: those an event sequence leads to
    from the freshly created component. *)
Definition reachable (w : World) : Prop := exists es, exec created es = Some w.

(** ** The vocabulary of the properties *)

(** The fields of the component that some method assigns. *)
Inductive Field :=
| f_isOpen | f_newMessage | f_messages | f_hasFile | f_isConnected | f_parsedData
| f_ws | f_clientId | f_reconnectAttempts | f_currentFile | f_isSendingFile
| f_isChatEnabled | f_isProcessingQuestion | f_isUploadingFile | f_isProcessingFile.

(** The observation [obs] cannot tell an assignment to the field. *)
Definition ignores {A V : Type} (obs : Component -> A) (set : V -> Component -> Component)
  : Prop :=
  forall v c, obs (set v c) = obs c.

Definition ignores_field {A : Type} (obs : Component -> A) (f : Field) : Prop :=
  match f with
  | f_isOpen => ignores obs set_isOpen
  | f_newMessage => ignores obs set_newMessage
  | f_messages => ignores obs set_messages
  | f_hasFile => ignores obs set_hasFile
  | f_isConnected => ignores obs set_isConnected
  | f_parsedData => ignores obs set_parsedData
  | f_ws => ignores obs set_ws
  | f_clientId => ignores obs set_clientId
  | f_reconnectAttempts => ignores obs set_reconnectAttempts
  | f_currentFile => ignores obs set_currentFile
  | f_isSendingFile => ignores obs set_isSendingFile
  | f_isChatEnabled => ignores obs set_isChatEnabled
  | f_isProcessingQuestion => ignores obs set_isProcessingQuestion
  | f_isUploadingFile => ignores obs set_isUploadingFile
  | f_isProcessingFile => ignores obs set_isProcessingFile
  end.

(** [obs] ignores every field of the list. *)
Fixpoint blind {A : Type} (obs : Component -> A) (fs : list Field) : Prop :=
  match fs with
  | [] => True
  | f :: fs' => ignores_field obs f /\ blind obs fs'
  end.

(** The fields assigned by the uploader, by the router, and by
    [connectWebSocket]. *)
Definition upload_fields : list Field :=
  [f_isSendingFile; f_isChatEnabled; f_isUploadingFile; f_currentFile; f_messages].

Definition router_fields : list Field :=
  [f_isProcessingQuestion; f_isUploadingFile; f_isProcessingFile; f_messages].

Definition connect_fields : list Field := [f_clientId; f_ws].

(** The fields an event may assign. *)
Definition writes (e : Event) : list Field :=
  match e with
  | FileReady _ => [f_currentFile]
  | MessagesDoneLoading _ _ _ _ => [f_hasFile; f_parsedData] ++ connect_fields ++ upload_fields
  | HubMessage _ | SocketMessage _ _ => router_fields
  | CallConnect _ | TimerFires _ => connect_fields
  | CallDisconnect => [f_ws; f_isConnected]
  | CallSendFileChunks _ _ | ReaderLoad _ _ _ | ReaderError _ _ | DelayElapsed _ _ _ =>
      upload_fields
  | CallOnMessage _ => [f_isChatEnabled; f_messages]
  | Input _ => [f_newMessage]
  | ClickSend _ => [f_isProcessingQuestion; f_messages; f_newMessage]
  | ToggleChat => [f_isOpen]
  | SocketOpen _ _ _ => [f_isConnected; f_reconnectAttempts] ++ upload_fields
  | SocketError _ _ | SocketClose _ _ => [f_isConnected; f_reconnectAttempts; f_messages]
  | SocketClosing _ => []
  end.

Definition attempts_bounded (w : World) : Prop :=
  0 <= reconnectAttempts (vm w) <= maxReconnectAttempts (vm w) /\
  maxReconnectAttempts (vm w) = 5.

(** The events that run the router, and those that run a segment of the
    uploader ([onFileLoaded] and [ws.onopen] may go on into
    [sendFileChunks]). *)
Definition routes (e : Event) : bool :=
  match e with
  | HubMessage _ | SocketMessage _ _ => true
  | _ => false
  end.

Definition uploads_file (e : Event) : bool :=
  match e with
  | CallSendFileChunks _ _ | MessagesDoneLoading _ _ _ _ | SocketOpen _ _ _
  | ReaderLoad _ _ _ | ReaderError _ _ | DelayElapsed _ _ _ => true
  | _ => false
  end.

(** The socket named by the handle closes. *)
Definition unexpected_close (now : string) (w : World) : option World :=
  match ws (vm w) with
  | Some h => step w (SocketClose h now)
  | None => None
  end.

(** The next close with no open in between: if a reconnect timer is
    pending it fires first and makes the socket that closes. *)
Definition close_again (rnd now : string) (w : World) : option World :=
  match timers w with
  | [] => unexpected_close now w
  | _ :: _ =>
      match step w (TimerFires rnd) with
      | Some w1 => unexpected_close now w1
      | None => None
      end
  end.

(** [k] closes in a row. *)
Fixpoint closes (k : nat) (rnd now : string) (w : World) : option World :=
  match k with
  | O => Some w
  | S k' =>
      match closes k' rnd now w with
      | Some w1 => close_again rnd now w1
      | None => None
      end
  end.

Definition failed_entry (now : string) : Message :=
  {| type := "system";
     content := "Failed to reconnect to chat server after multiple attempts";
     timestamp := now |}.


(** The events by which the page itself asks for a connection. *)
Definition explicit_connect (e : Event) : bool :=
  match e with
  | CallConnect _ | MessagesDoneLoading _ _ _ _ => true
  | _ => false
  end.

(** Nothing is left that could bring a connection back by itself: no
    handle, no pending reconnect, and every socket ever made is closed. *)
Definition idle (w : World) : Prop :=
  ws (vm w) = None /\ isConnected (vm w) = false /\ timers w = [] /\
  Forall (fun s => readyState s = CLOSED) (sockets w).

(** The sockets and the timers are the same in both worlds. *)
Definition same_net (w w' : World) : Prop :=
  sockets w' = sockets w /\ timers w' = timers w.

Definition MiB : Z := 1024 * 1024.

(** The bytes of chunk [i], and the [file_chunk] that carries them. *)
Definition chunk_blob (f : File) (i : Z) : Blob :=
  {| blob_file := f; blob_start := i * MiB; blob_end := Z.min ((i + 1) * MiB) (size f) |}.

Definition chunk_message (f : File) (totalChunks i : Z) : Outbound :=
  file_chunk i totalChunks (name f) (chunk_blob f i).

(** The session is connected and holds the file: the handle names an
    open socket [s] and [currentFile] is [f]. *)
Definition live (f : File) (h : nat) (w : World) (s : WebSocket) : Prop :=
  ws (vm w) = Some h /\ sockets w !! h = Some s /\ readyState s = OPEN /\
  currentFile (vm w) = Some f.

(** What one call has done once it is over, told by the projections of
    the world it leaves: [done_with h w s pid msgs blobs w'] says that
    [w'] is [w] after the call [pid] sent [msgs] on the socket [s] named
    [h], read [blobs], dropped the file and cleared [isSendingFile]. *)
Definition done_with (h : nat) (w : World) (s : WebSocket) (pid : nat)
    (msgs : list Outbound) (blobs : list Blob) (w' : World) : Prop :=
  vm w' = set_isSendingFile false (set_currentFile None (vm w)) /\
  sockets w' = <[h := set_sent (sent s ++ msgs) s]> (sockets w) /\
  uploads w' = <[pid := Finished]> (uploads w) /\
  reads w' = reads w ++ blobs /\
  timers w' = timers w /\
  scrolls w' = scrolls w.

(** The messages of the upload protocol among what a socket has sent. *)
Definition is_file_message (o : Outbound) : bool :=
  match o with
  | file_chunk _ _ _ _ | file_complete _ _ => true
  | _ => false
  end.

Definition file_messages (l : list Outbound) : list Outbound := List.filter is_file_message l.

(** A socket as a bystander leaves it: the same state, and the same
    upload messages sent. *)
Definition untouched (s s' : WebSocket) : Prop :=
  readyState s' = readyState s /\ file_messages (sent s') = file_messages (sent s).

(** Events that may come between two segments of an upload without
    touching it: inbound messages and what the user does in the chat. *)
Definition bystander (e : Event) : bool :=
  match e with
  | HubMessage _ | SocketMessage _ _ | CallOnMessage _ | Input _ | ClickSend _ | ToggleChat =>
      true
  | _ => false
  end.

(** The callbacks of the call [pid] when its reads succeed. *)
Definition callback_of (pid : nat) (e : Event) : bool :=
  match e with
  | ReaderLoad p _ _ | DelayElapsed p _ _ => Nat.eqb p pid
  | _ => false
  end.

(** How far the call [pid] has got with the file [f] on the socket [h]
    that had sent [base] before: it is reading chunk [k] with the chunks
    before it sent, or it is waiting after chunk [k], or it is over with
    all chunks and the completion message sent. *)
Inductive progress (f : File) (h pid : nat) (base : list Outbound) (w : World) : Prop :=
| in_read (k : Z) (s : WebSocket) :
    live f h w s -> 0 <= k < Math_ceil_div (size f) MiB ->
    uploads w !! pid = Some (Reading (Math_ceil_div (size f) MiB) k (chunk_blob f k)) ->
    file_messages (sent s) =
      base ++ map (chunk_message f (Math_ceil_div (size f) MiB)) (seqZ 0 k) ->
    progress f h pid base w
| in_delay (k : Z) (s : WebSocket) :
    live f h w s -> 0 <= k < Math_ceil_div (size f) MiB ->
    uploads w !! pid = Some (Waiting (Math_ceil_div (size f) MiB) k) ->
    file_messages (sent s) =
      base ++ map (chunk_message f (Math_ceil_div (size f) MiB)) (seqZ 0 (k + 1)) ->
    progress f h pid base w
| is_over (s : WebSocket) :
    ws (vm w) = Some h -> sockets w !! h = Some s ->
    uploads w !! pid = Some Finished ->
    file_messages (sent s) =
      base ++ map (chunk_message f (Math_ceil_div (size f) MiB))
                  (seqZ 0 (Math_ceil_div (size f) MiB))
           ++ [file_complete (name f) (Math_ceil_div (size f) MiB)] ->
    progress f h pid base w.


Definition upload_error (now text : string) : Message :=
  {| type := "error"; content := "Error sending file: " +:+ text; timestamp := now |}.

(** The inbound messages on which the router clears [isUploadingFile]. *)
Definition clears_upload (m : Message) : Prop :=
  (type m = "system" /\
   (String.prefix "File saved successfully:" (content m) = true \/
    String.prefix "Log file processed successfully:" (content m) = true)) \/
  type m = "error".

(** ** Worlds and event sequences used as examples *)

Definition busy : World :=
  upd (set_isProcessingFile true)
    (upd (set_isUploadingFile true) (upd (set_isProcessingQuestion true) created)).

Definition lost_once : list Event :=
  [MessagesDoneLoading "{}" "k3j9x0q2m" "10:00:00" ""; SocketOpen 0 "10:00:01" "";
   SocketClose 0 "10:00:09"].

Definition connected : list Event :=
  [MessagesDoneLoading "{}" "k3j9x0q2m" "10:00:00" ""; SocketOpen 0 "10:00:01" ""].

Definition asking : list Event :=
  [MessagesDoneLoading "{}" "k3j9x0q2m" "10:00:00" ""; SocketOpen 0 "10:00:01" "";
   SocketMessage 0 (Some {| type := "chat"; content := "Processing your question...";
                            timestamp := "10:00:05" |});
   Input "What was the highest altitude?"].

Definition just_connected : World := default created (exec created connected).

(** The connection was lost for good: six closes in a row. *)
Definition gave_up : World :=
  default created (closes 6 "k3j9x0q2m" "10:01:00" just_connected).

Definition after_giving_up : list Event :=
  [HubMessage {| type := "system"; content := "Server restarting"; timestamp := "10:02:00" |};
   Input "Still there?"; ClickSend "10:02:05"; ToggleChat].

Definition after_disconnect : list Event :=
  [TimerFires "k3j9x0q2m"; SocketOpen 1 "10:00:14" ""].

Definition log25 : File := {| name := "flight.bin"; size := 2621440 |}.

Definition file_arrives : list Event :=
  [MessagesDoneLoading "{}" "k3j9x0q2m" "10:00:00" ""; SocketOpen 0 "10:00:01" "";
   FileReady log25].

Definition ready_to_upload : World := default created (exec created file_arrives).

(** The flow the component is wired for: the file is announced, the log
    is loaded, the socket opens, and the three chunks are read and sent. *)
Definition wired_upload : list Event :=
  [FileReady log25; MessagesDoneLoading "{}" "k3j9x0q2m" "10:00:00" "";
   SocketOpen 0 "10:00:01" "";
   ReaderLoad 0 "10:00:02" ""; DelayElapsed 0 "10:00:02" "";
   ReaderLoad 0 "10:00:03" ""; DelayElapsed 0 "10:00:03" "";
   ReaderLoad 0 "10:00:04" ""; DelayElapsed 0 "10:00:04" ""].

(** The callbacks of an upload with a question asked and messages
    arriving in between. *)
Definition interleaved : list Event :=
  [ReaderLoad 0 "10:00:02" "";
   HubMessage {| type := "acknowledgment"; content := "chunk 0"; timestamp := "10:00:02" |};
   DelayElapsed 0 "10:00:02" "";
   Input "What was the highest altitude?"; ClickSend "10:00:03";
   ReaderLoad 0 "10:00:03" ""; DelayElapsed 0 "10:00:03" "";
   SocketMessage 0 (Some {| type := "chat"; content := "Processing your question...";
                            timestamp := "10:00:04" |});
   ReaderLoad 0 "10:00:04" ""; DelayElapsed 0 "10:00:04" ""].

Definition offline_with_file : World :=
  setCurrentFile {| name := "flight.bin"; size := 10 |} created.

Definition upload_done : World :=
  sendFileChunks_run (fun _ => true) "10:00:02" "" ready_to_upload.

Definition file_saved : Message :=
  {| type := "system"; content := "File saved successfully: flight.bin";
     timestamp := "10:00:03" |}.

Definition log_processed : Message :=
  {| type := "system"; content := "Log file processed successfully: flight.bin";
     timestamp := "10:00:08" |}.

Definition server_error : Message :=
  {| type := "error"; content := "Could not parse the log"; timestamp := "10:00:08" |}.

Definition failing_upload : list Event :=
  [FileReady {| name := "next.bin"; size := 4096 |};
   MessagesDoneLoading "{}" "k3j9x0q2m" "10:05:00" ""; ReaderError 1 "10:05:01"].

(** ** The vocabulary of further properties *)

(** The address every socket of the component is opened at. *)
Definition endpoint (id : string) : string := "ws://0.0.0.0:8000/ws/" +:+ id.

(** The entries [sendMessage] may push. *)
Definition user_entry (text now : string) : Message :=
  {| type := "user"; content := text; timestamp := now |}.

Definition send_failed_entry (now : string) : Message :=
  {| type := "system"; content := "Failed to send message. Please try again.";
     timestamp := now |}.

(** A question typed into the box of a connected component. *)
Definition question_typed : World := default created (exec created asking).

(** Only white space typed into the box of a connected component: a
    space, a no-break space, a tab, a line separator and an ideographic
    space. *)
Definition blank_text : string := text_of [32; 160; 9; 8232; 12288]%N.

Definition blank_typed : World :=
  default created (exec created (connected ++ [Input blank_text])).

(** The log is loaded while no connection exists yet. *)
Definition connecting : World :=
  default created (exec created [MessagesDoneLoading "{}" "k3j9x0q2m" "10:00:00" ""]).

(** The socket object [connectWebSocket] makes for the client id [id]. *)
Definition new_socket (id : string) : WebSocket :=
  {| url := endpoint id; readyState := CONNECTING; sent := []; promise := Pending;
     awaited := false |}.

(** An upload under way: the first chunk is out, a question was asked. *)
Definition mid_upload : list Event :=
  [ReaderLoad 0 "10:00:02" "";
   HubMessage {| type := "acknowledgment"; content := "chunk 0"; timestamp := "10:00:02" |};
   DelayElapsed 0 "10:00:02" "";
   Input "What was the highest altitude?"; ClickSend "10:00:03"].

(** The socket of client [id] once it is open and has sent [msgs];
    [waited] tells whether a call of [onFileLoaded] awaited it. *)
Definition opened (id : string) (waited : bool) (msgs : list Outbound) : WebSocket :=
  {| url := endpoint id; readyState := OPEN; sent := msgs; promise := Resolved;
     awaited := waited |}.

(** The socket of client [id] whose connection failed under an awaiting
    [onFileLoaded]. *)
Definition refused (id : string) : WebSocket :=
  {| url := endpoint id; readyState := CLOSED; sent := []; promise := Rejected;
     awaited := true |}.

(** The entries pushed when a connection fails. *)
Definition connect_error_entry (now : string) : Message :=
  {| type := "system"; content := "Error connecting to chat server"; timestamp := now |}.

Definition connect_failed_entry (now : string) : Message :=
  {| type := "system"; content := "Failed to establish WebSocket connection";
     timestamp := now |}.

(** All the upload messages of the file [f]. *)
Definition upload_messages (f : File) : list Outbound :=
  map (chunk_message f (Math_ceil_div (size f) MiB)) (seqZ 0 (Math_ceil_div (size f) MiB))
    ++ [file_complete (name f) (Math_ceil_div (size f) MiB)].

(** The file is announced on a fresh component. *)
Definition file_announced : World := default created (exec created [FileReady log25]).

(** The first connection of a load failed: a reconnect is pending while
    the file waits. *)
Definition first_connection_lost : World :=
  default created
    (exec created [FileReady log25; MessagesDoneLoading "{}" "k3j9x0q2m" "10:00:00" "";
                   SocketError 0 "10:00:01"]).

(** What [send] does with [msgs] on a socket that does not throw: an open
    socket transmits them, a closing or closed one drops them. *)
Definition deliver (s : WebSocket) (msgs : list Outbound) : WebSocket :=
  match readyState s with
  | OPEN => set_sent (sent s ++ msgs) s
  | _ => s
  end.

(** The handle names a socket [s] whose [send] does not throw, and
    [currentFile] is [f]. *)
Definition hold (f : File) (h : nat) (w : World) (s : WebSocket) : Prop :=
  ws (vm w) = Some h /\ sockets w !! h = Some s /\ readyState s <> CONNECTING /\
  currentFile (vm w) = Some f.

(** The component after the failure path of the uploader. *)
Definition upload_failed (now text : string) (c : Component) : Component :=
  set_isSendingFile false (set_isUploadingFile false (set_isChatEnabled true
    (set_messages (messages c ++ [upload_error now text]) c))).

(** How the call [pid], taken up at the read of chunk [i] in the world
    [w], has ended in [w'] when [k] is the first chunk whose read fails
    ([k] is the number of chunks when none fails). *)
Definition ended (f : File) (h : nat) (w : World) (s : WebSocket) (pid : nat) (i k : Z)
    (now : string) (w' : World) : Prop :=
  let total := Math_ceil_div (size f) MiB in
  sockets w' =
    <[h := deliver s (map (chunk_message f total) (seqZ i (k - i))
                        ++ (if k <? total then [] else [file_complete (name f) total]))]>
      (sockets w) /\
  uploads w' = <[pid := Finished]> (uploads w) /\
  reads w' = reads w ++ map (chunk_blob f) (seqZ (i + 1) (Z.min k (total - 1) - i)) /\
  vm w' = (if k <? total then upload_failed now "undefined" (vm w)
           else set_isSendingFile false (set_currentFile None (vm w))) /\
  timers w' = timers w /\
  scrolls w' = scrolls w.


(** The reads of the first two chunks succeed, the third fails. *)
Definition third_read_fails (i : Z) : bool := i <? 2.


(** What the network sees of a socket, and of the component. *)
Definition wire_of (s : WebSocket) : string * ReadyState := (url s, readyState s).

Definition wire (w : World) : list (string * ReadyState) := wire_of <$> sockets w.

Definition urls (w : World) : list string := url <$> sockets w.

(** A handler that leaves the connections alone: it opens and closes no
    socket, schedules no reconnect, and at most appends to the history. *)
Definition calm (w w' : World) : Prop :=
  wire w' = wire w /\ timers w' = timers w /\
  exists l, messages (vm w') = messages (vm w) ++ l.

(** The events whose handlers are calm. *)
Definition quiet (e : Event) : bool :=
  match e with
  | FileReady _ | HubMessage _ | CallSendFileChunks _ _ | CallOnMessage _ | Input _
  | ClickSend _ | ToggleChat | SocketMessage _ _
  | ReaderLoad _ _ _ | ReaderError _ _ | DelayElapsed _ _ _ => true
  | _ => false
  end.

(** The events that may call [connectWebSocket]. *)
Definition may_connect (e : Event) : bool :=
  match e with
  | CallConnect _ | TimerFires _ | MessagesDoneLoading _ _ _ _ => true
  | _ => false
  end.

(** Every socket made so far was opened at the address of the client id
    the component holds, an id that [connectWebSocket] generated. *)
Definition addressed (w : World) : Prop :=
  match clientId (vm w) with
  | Some id =>
      (exists rnd, id = "client_" +:+ rnd) /\ Forall (fun u => u = endpoint id) (urls w)
  | None => urls w = []
  end.

(** The connection of a socket is established and not yet closed. *)
Definition established (st : ReadyState) : bool :=
  match st with
  | OPEN | CLOSING => true
  | CONNECTING | CLOSED => false
  end.

(** [isConnected] is set only while the connection of some socket is
    established. *)
Definition up_if_connected (w : World) : Prop :=
  isConnected (vm w) = true -> Exists (fun p => established p.2 = true) (wire w).

(** The server starts to close the connection of [connected]. *)
Definition server_closing : list Event := connected ++ [SocketClosing 0].

(** The reconnect delay is the initial one, and so is that of every
    pending reconnect. *)
Definition fixed_delay (w : World) : Prop :=
  reconnectDelay (vm w) = 5000 /\ Forall (fun d => d = 5000) (timers w).

(** A question is sent on the connection of [asking]. *)
Definition question_sent : list Event := asking ++ [ClickSend "10:00:06"].

(** The connection of [lost_once] is lost a second time. *)
Definition lost_twice : list Event :=
  lost_once ++ [TimerFires "zzzzzzzzz"; SocketClose 1 "10:00:15"].

(** The blobs [bs] are cut from [f], each is not empty and at most one
    MiB long, and laid end to end they cover the bytes from [a] to [b]. *)
Fixpoint tiles (f : File) (bs : list Blob) (a b : Z) : Prop :=
  match bs with
  | [] => a = b
  | x :: rest =>
      blob_file x = f /\ blob_start x = a /\ a < blob_end x <= a + MiB /\
      tiles f rest (blob_end x) b
  end.

(** The upload of [log25] waits after its first chunk. *)
Definition first_delay : World :=
  default created
    (exec (sendFileChunks "10:00:02" "" ready_to_upload) [ReaderLoad 0 "10:00:02" ""]).

Definition other_log : File := {| name := "second.bin"; size := 1500000 |}.

(** * Properties *)

(** ** Projections through the assignments *)

Lemma vm_scrollToBottom w : vm (scrollToBottom w) = vm w.
Proof. reflexivity. Qed.

Lemma vm_push m w : messages (vm (push m w)) = messages (vm w) ++ [m].
Proof. reflexivity. Qed.

(** ** The router *)

(** A text that starts with one literal does not start with a literal
    whose first character differs, and is not equal to such a literal. *)
Ltac first_char c H :=
  destruct c as [|?a ?c']; simpl in H; [discriminate H|];
  match type of H with
  | (if ?d then _ else _) = true => destruct d as [<-|]; [|discriminate H]
  end.

Lemma log_processed_not_suppressed c :
  String.prefix "Log file processed successfully:" c = true ->
  (c === "Connected to chat server") = false /\
  String.prefix "Welcome! Your client ID is:" c = false /\
  (c === "Processing File") = false.
Proof. intros H. first_char c H. repeat split; reflexivity. Qed.

Lemma file_saved_not_suppressed c :
  String.prefix "File saved successfully:" c = true ->
  (c === "Connected to chat server") = false /\
  String.prefix "Welcome! Your client ID is:" c = false /\
  (c === "Processing File") = false /\
  String.prefix "Log file processed successfully:" c = false.
Proof. intros H. first_char c H. repeat split; reflexivity. Qed.

Lemma eqb_false_of_neq (a b : string) : a <> b -> (a === b) = false.
Proof. intros H. apply String.eqb_neq. exact H. Qed.

(** C3. Whatever the state, routing an inbound message of type [error]
    leaves [isProcessingQuestion], [isUploadingFile] and [isProcessingFile]
    all false and appends exactly one entry to the history, whose content
    is the server's text behind the prefix ["Error: "]. *)
Theorem error_message_clears_flags (m : Message) (w : World) :
  type m = "error" ->
  let w' := onMessageReceived m w in
  isProcessingQuestion (vm w') = false /\
  isUploadingFile (vm w') = false /\
  isProcessingFile (vm w') = false /\
  messages (vm w') =
    messages (vm w) ++
    [{| type := "system"; content := "Error: " +:+ content m; timestamp := timestamp m |}].
Proof.
  destruct m as [ty c t]; simpl; intros ->. repeat split.
Qed.

Lemma error_message_clears_flags_witness :
  let m := {| type := "error"; content := "No log loaded"; timestamp := "2025-05-20T10:00:00.000Z" |} in
  let w' := onMessageReceived m busy in
  isProcessingQuestion (vm w') = false /\
  isUploadingFile (vm w') = false /\
  isProcessingFile (vm w') = false /\
  messages (vm w') =
    [{| type := "system"; content := "Error: No log loaded";
        timestamp := "2025-05-20T10:00:00.000Z" |}].
Proof.
  exact (error_message_clears_flags
           {| type := "error"; content := "No log loaded";
              timestamp := "2025-05-20T10:00:00.000Z" |} busy eq_refl).
Defined.

(** C6, the claim as it stands fails: the status text ["Processing File"]
    is none of the greeting, "file saved" or "log file processed" texts,
    and yet it is not appended to the history. *)
Lemma processing_file_not_appended :
  let c := "Processing File" in
  let m := {| type := "system"; content := c; timestamp := "t" |} in
  ~ (c <> "Connected to chat server" ->
     String.prefix "Welcome! Your client ID is:" c = false ->
     String.prefix "File saved successfully:" c = false ->
     String.prefix "Log file processed successfully:" c = false ->
     messages (vm (onMessageReceived m created)) =
       messages (vm created) ++ [{| type := "system"; content := c; timestamp := "t" |}]).
Proof.
  intros c m H.
  assert (E : messages (vm (onMessageReceived m created)) = [
            {| type := "system"; content := c; timestamp := "t" |}]).
  { apply H; [discriminate | reflexivity..]. }
  discriminate E.
Qed.

(** C6, amended.  For an inbound message of type [system]: the greeting
    texts (exactly ["Connected to chat server"], or starting with
    ["Welcome! Your client ID is:"]) and the text exactly
    ["Processing File"] change nothing in the component; a text starting
    with ["Log file processed successfully:"] only clears the three
    processing flags; a text starting with ["File saved successfully:"]
    only clears [isUploadingFile] and sets [isProcessingFile]; any other
    text only appends one [system] entry carrying it. *)
Theorem system_message_routing (c t : string) (w : World) :
  let m := {| type := "system"; content := c; timestamp := t |} in
  let w' := onMessageReceived m w in
  (c = "Connected to chat server" \/
   String.prefix "Welcome! Your client ID is:" c = true \/
   c = "Processing File" -> vm w' = vm w) /\
  (String.prefix "Log file processed successfully:" c = true ->
   vm w' = set_isProcessingQuestion false
             (set_isUploadingFile false (set_isProcessingFile false (vm w)))) /\
  (String.prefix "File saved successfully:" c = true ->
   vm w' = set_isProcessingFile true (set_isUploadingFile false (vm w))) /\
  (c <> "Connected to chat server" ->
   String.prefix "Welcome! Your client ID is:" c = false ->
   c <> "Processing File" ->
   String.prefix "Log file processed successfully:" c = false ->
   String.prefix "File saved successfully:" c = false ->
   vm w' = set_messages
             (messages (vm w) ++ [{| type := "system"; content := c; timestamp := t |}])
             (vm w)).
Proof.
  cbv zeta. unfold onMessageReceived. rewrite vm_scrollToBottom. cbn [type content timestamp].
  change ("system" === "chat") with false. change ("system" === "system") with true.
  cbv iota. repeat split.
  - intros [-> | [H | ->]]; [reflexivity | | reflexivity].
    rewrite H, orb_true_r. reflexivity.
  - intros H. destruct (log_processed_not_suppressed c H) as (E1 & E2 & E3).
    rewrite E1, E2, E3, H. reflexivity.
  - intros H. destruct (file_saved_not_suppressed c H) as (E1 & E2 & E3 & E4).
    rewrite E1, E2, E3, E4, H. reflexivity.
  - intros N1 H2 N3 H4 H5.
    rewrite (eqb_false_of_neq _ _ N1), H2, (eqb_false_of_neq _ _ N3), H4, H5. reflexivity.
Qed.

Lemma system_message_routing_witness :
  vm (onMessageReceived file_saved busy) =
    set_isProcessingFile true (set_isUploadingFile false (vm busy)) /\
  vm (onMessageReceived
        {| type := "system"; content := "Server restarting"; timestamp := "10:00:03" |} busy) =
    set_messages
      (messages (vm busy) ++
       [{| type := "system"; content := "Server restarting"; timestamp := "10:00:03" |}])
      (vm busy).
Proof.
  split.
  - exact (proj1 (proj2 (proj2 (system_message_routing
             "File saved successfully: flight.bin" "10:00:03" busy))) eq_refl).
  - apply (proj2 (proj2 (proj2 (system_message_routing "Server restarting" "10:00:03" busy))));
      (discriminate || reflexivity).
Defined.

(** ** Write footprints *)

Lemma ws_send_vm msg w w1 : ws_send msg w = Some w1 -> vm w1 = vm w.
Proof.
  unfold ws_send, socket_send. intros H.
  destruct (ws (vm w)) as [h|]; [|discriminate H].
  destruct (sockets w !! h) as [s|]; [|discriminate H].
  destruct (readyState s); [discriminate H | | |]; injection H as <-; reflexivity.
Qed.

Section Frame.
Context {A : Type} (obs : Component -> A).

Lemma blind_app fs gs : blind obs (fs ++ gs) -> blind obs fs /\ blind obs gs.
Proof. induction fs as [|f fs IH]; simpl; [tauto|]. intros [H1 H2]. tauto. Qed.

Lemma push_frame m w : ignores obs set_messages -> obs (vm (push m w)) = obs (vm w).
Proof. intros H. unfold push. cbn [vm upd]. apply H. Qed.

Lemma catch_frame now emsg w :
  blind obs upload_fields -> obs (vm (sendFileChunks_catch now emsg w)) = obs (vm w).
Proof.
  intros (H1 & H2 & H3 & _ & H5 & _).
  unfold sendFileChunks_catch, sendFileChunks_finally. cbn [vm upd].
  rewrite H1, H3, H2. apply push_frame, H5.
Qed.

Lemma loop_frame total i now emsg w :
  blind obs upload_fields ->
  obs (vm (fst (sendFileChunks_loop total i now emsg w))) = obs (vm w).
Proof.
  intros B. unfold sendFileChunks_loop. cbv zeta.
  destruct (i <? total); destruct (currentFile (vm w)) as [f|];
    try (cbn [fst]; apply catch_frame, B).
  - reflexivity.
  - destruct (ws_send _ w) as [w1|] eqn:E; cbn [fst]; [|apply catch_frame, B].
    destruct B as (H1 & _ & _ & H4 & _).
    unfold sendFileChunks_finally. cbn [vm upd].
    rewrite H1, H4. f_equal. apply (ws_send_vm _ _ _ E).
Qed.

Lemma sendFileChunks_frame now emsg w :
  blind obs upload_fields -> obs (vm (sendFileChunks now emsg w)) = obs (vm w).
Proof.
  intros B. unfold sendFileChunks.
  destruct (currentFile (vm w)) as [f|]; [|reflexivity]. cbv zeta.
  match goal with |- context [sendFileChunks_loop ?t ?i ?n ?e ?w1] =>
    pose proof (loop_frame t i n e w1 B) as L;
    destruct (sendFileChunks_loop t i n e w1) as [w2 st] end.
  cbn [fst] in L. cbn [vm set_uploads]. rewrite L.
  destruct B as (H1 & H2 & H3 & _). cbn [vm upd]. rewrite H3, H2. apply H1.
Qed.

Lemma reader_onload_frame pid now emsg w w' :
  blind obs upload_fields -> reader_onload pid now emsg w = Some w' -> obs (vm w') = obs (vm w).
Proof.
  intros B. unfold reader_onload, park.
  destruct (uploads w !! pid) as [[total i chunk| |]|]; try discriminate.
  intros [= <-]. cbn [vm set_uploads].
  destruct (currentFile (vm w)) as [f|]; [|apply catch_frame, B].
  destruct (ws_send _ w) as [w1|] eqn:E; cbn [fst]; [|apply catch_frame, B].
  f_equal. apply (ws_send_vm _ _ _ E).
Qed.

Lemma reader_onerror_frame pid now w w' :
  blind obs upload_fields -> reader_onerror pid now w = Some w' -> obs (vm w') = obs (vm w).
Proof.
  intros B. unfold reader_onerror, park.
  destruct (uploads w !! pid) as [[total i chunk| |]|]; try discriminate.
  intros [= <-]. cbn [vm set_uploads fst]. apply catch_frame, B.
Qed.

Lemma delay_elapsed_frame pid now emsg w w' :
  blind obs upload_fields -> delay_elapsed pid now emsg w = Some w' -> obs (vm w') = obs (vm w).
Proof.
  intros B. unfold delay_elapsed, park.
  destruct (uploads w !! pid) as [[total i chunk| |]|]; try discriminate.
  intros [= <-]. cbn [vm set_uploads]. apply loop_frame, B.
Qed.

Lemma onMessageReceived_frame m w :
  blind obs router_fields -> obs (vm (onMessageReceived m w)) = obs (vm w).
Proof.
  intros (H1 & H2 & H3 & H4 & _). unfold onMessageReceived. rewrite vm_scrollToBottom.
  repeat match goal with |- context [if ?b then _ else _] => destruct b end;
    rewrite ?push_frame by exact H4; cbn [vm upd];
    repeat (rewrite H1 || rewrite H2 || rewrite H3); reflexivity.
Qed.

Lemma onMessage_frame p w :
  blind obs [f_isChatEnabled; f_messages] -> obs (vm (onMessage p w)) = obs (vm w).
Proof.
  intros (H1 & H2 & _). unfold onMessage. destruct p as [m|]; [|reflexivity].
  destruct (type m === "error"); rewrite push_frame by exact H2; cbn [vm upd]; apply H1.
Qed.

Lemma sendMessage_frame now w :
  blind obs [f_isProcessingQuestion; f_messages; f_newMessage] ->
  obs (vm (sendMessage now w)) = obs (vm w).
Proof.
  intros (H1 & H2 & H3 & _). unfold sendMessage. cbv zeta.
  destruct (_ || _); [reflexivity|].
  destruct (ws_send _ _) as [w3|] eqn:E.
  - rewrite vm_scrollToBottom. cbn [vm upd]. rewrite H3, (ws_send_vm _ _ _ E).
    rewrite push_frame by exact H2. cbn [vm upd]. apply H1.
  - rewrite !push_frame by exact H2. cbn [vm upd]. apply H1.
Qed.

Lemma sendDataToBackend_frame kind payload now w :
  obs (vm (sendDataToBackend kind payload now w)) = obs (vm w).
Proof.
  unfold sendDataToBackend. destruct (negb _); [reflexivity|].
  destruct (ws_send _ w) as [w1|] eqn:E; [|reflexivity].
  f_equal. apply (ws_send_vm _ _ _ E).
Qed.

Lemma connectWebSocket_frame rnd w :
  blind obs connect_fields -> obs (vm (fst (connectWebSocket rnd w))) = obs (vm w).
Proof.
  intros (H1 & H2 & _). unfold connectWebSocket.
  destruct (wsIsOpen w); [reflexivity|]. cbv zeta. cbn [fst vm upd set_sockets]. rewrite H2.
  destruct (clientId (vm w)) as [id|]; [destruct (id === "")|]; cbn [vm upd];
    rewrite ?H1; reflexivity.
Qed.

Lemma settle_frame h outcome k w :
  (forall w0, obs (vm (k w0)) = obs (vm w0)) -> obs (vm (settle h outcome k w)) = obs (vm w).
Proof.
  intros K. unfold settle. destruct (sockets w !! h) as [s|]; [|reflexivity].
  destruct (promise s); try reflexivity.
  destruct (awaited s); [rewrite K|]; reflexivity.
Qed.

Lemma onFileLoaded_resume_frame now emsg w :
  blind obs upload_fields -> obs (vm (onFileLoaded_resume now emsg w)) = obs (vm w).
Proof.
  intros B. unfold onFileLoaded_resume.
  destruct (_ && _); [apply sendFileChunks_frame, B | reflexivity].
Qed.

Lemma ws_onerror_frame h now w :
  blind obs [f_isConnected; f_messages] -> obs (vm (ws_onerror h now w)) = obs (vm w).
Proof.
  intros (H1 & H2 & _). unfold ws_onerror. cbv zeta. rewrite settle_frame.
  - rewrite push_frame by exact H2. cbn [vm upd]. apply H1.
  - intros w0. unfold onFileLoaded_catch. apply push_frame, H2.
Qed.

Lemma disconnectWebSocket_frame w :
  blind obs [f_ws; f_isConnected] -> obs (vm (disconnectWebSocket w)) = obs (vm w).
Proof.
  intros (H1 & H2 & _). unfold disconnectWebSocket.
  destruct (ws (vm w)) as [h|]; [|reflexivity]. cbn [vm upd]. rewrite H2, H1.
  destruct (wsIsOpen w); [|reflexivity].
  unfold socket_close. destruct (sockets w !! h); reflexivity.
Qed.

Lemma set_socket_state_vm h v w : vm (set_socket_state h v w) = vm w.
Proof. unfold set_socket_state. destruct (sockets w !! h); reflexivity. Qed.

Lemma onFileLoaded_frame snapshot rnd now emsg w :
  blind obs ([f_hasFile; f_parsedData] ++ connect_fields ++ upload_fields) ->
  obs (vm (onFileLoaded snapshot rnd now emsg w)) = obs (vm w).
Proof.
  intros (H1 & H2 & B). apply (blind_app connect_fields upload_fields) in B as [Bc Bu].
  unfold onFileLoaded. cbv zeta.
  match goal with |- context [connectWebSocket rnd ?w1] =>
    pose proof (connectWebSocket_frame rnd w1 Bc) as C;
    destruct (connectWebSocket rnd w1) as [w2 [|h]] end; cbn [fst] in C.
  - rewrite onFileLoaded_resume_frame by exact Bu. rewrite C.
    unfold updateParsedData. rewrite sendDataToBackend_frame. cbn [vm upd].
    rewrite H2. apply H1.
  - transitivity (obs (vm w2)); [destruct (sockets w2 !! h); reflexivity|].
    rewrite C. unfold updateParsedData. rewrite sendDataToBackend_frame. cbn [vm upd].
    rewrite H2. apply H1.
Qed.

Lemma ws_onopen_frame h now emsg w :
  blind obs ([f_isConnected; f_reconnectAttempts] ++ upload_fields) ->
  obs (vm (ws_onopen h now emsg w)) = obs (vm w).
Proof.
  intros (H1 & H2 & B). unfold ws_onopen. cbv zeta. rewrite settle_frame.
  - cbn [vm upd]. rewrite H2. apply H1.
  - intros w0. apply onFileLoaded_resume_frame, B.
Qed.

Lemma ws_onclose_frame now w :
  blind obs [f_isConnected; f_reconnectAttempts; f_messages] ->
  obs (vm (ws_onclose now w)) = obs (vm w).
Proof.
  intros (H1 & H2 & H3 & _). unfold ws_onclose. cbv zeta.
  destruct (_ <? _).
  - cbn [vm upd set_timers]. rewrite H2. apply H1.
  - rewrite push_frame by exact H3. cbn [vm upd]. apply H1.
Qed.

(** An observation that ignores the fields an event may assign is the
    same before and after the event. *)
Lemma step_frame w e w' :
  blind obs (writes e) -> step w e = Some w' -> obs (vm w') = obs (vm w).
Proof.
  destruct e; cbn [writes step]; intros B H.
  - injection H as <-. apply B.
  - injection H as <-. apply onFileLoaded_frame, B.
  - injection H as <-. apply onMessageReceived_frame, B.
  - injection H as <-. apply connectWebSocket_frame, B.
  - injection H as <-. apply disconnectWebSocket_frame, B.
  - injection H as <-. apply sendFileChunks_frame, B.
  - injection H as <-. apply onMessage_frame, B.
  - injection H as <-. apply B.
  - injection H as <-. apply sendMessage_frame, B.
  - injection H as <-. apply B.
  - destruct (state_of h w) as [[]|]; try discriminate H. injection H as <-.
    rewrite ws_onopen_frame by exact B. f_equal. apply set_socket_state_vm.
  - destruct B as (H1 & H2 & H3 & _).
    destruct (state_of h w) as [[]|]; try discriminate H; injection H as <-;
      (rewrite ws_onclose_frame by (repeat split; assumption));
      (rewrite ws_onerror_frame by (repeat split; assumption));
      apply f_equal, set_socket_state_vm.
  - destruct (state_of h w) as [[]|]; try discriminate H; injection H as <-;
      (rewrite ws_onclose_frame by exact B); f_equal; apply set_socket_state_vm.
  - destruct (state_of h w) as [[]|]; try discriminate H; injection H as <-;
      destruct parsed; try reflexivity; apply onMessageReceived_frame, B.
  - destruct (timers w) as [|d rest]; [discriminate H|]. injection H as <-.
    unfold reconnect_timer. rewrite connectWebSocket_frame by exact B. reflexivity.
  - apply (reader_onload_frame _ _ _ _ _ B H).
  - apply (reader_onerror_frame _ _ _ _ B H).
  - apply (delay_elapsed_frame _ _ _ _ _ B H).
  - destruct (state_of h w) as [[]|]; try discriminate H. injection H as <-.
    apply f_equal, set_socket_state_vm.
Qed.
End Frame.

Ltac solve_blind := repeat split; intros ? ?; reflexivity.

(** ** The reconnect counter *)

Lemma ws_onopen_resets h now emsg w :
  reconnectAttempts (vm (ws_onopen h now emsg w)) = 0 /\
  isConnected (vm (ws_onopen h now emsg w)) = true.
Proof.
  unfold ws_onopen. cbv zeta. split.
  - rewrite (settle_frame reconnectAttempts); [reflexivity|].
    intros w0. apply onFileLoaded_resume_frame. solve_blind.
  - rewrite (settle_frame isConnected); [reflexivity|].
    intros w0. apply onFileLoaded_resume_frame. solve_blind.
Qed.

Lemma ws_onclose_attempts now w :
  reconnectAttempts (vm (ws_onclose now w)) =
    if reconnectAttempts (vm w) <? maxReconnectAttempts (vm w)
    then reconnectAttempts (vm w) + 1 else reconnectAttempts (vm w).
Proof.
  unfold ws_onclose. cbv zeta. cbn [vm upd maxReconnectAttempts reconnectAttempts set_isConnected].
  destruct (_ <? _); reflexivity.
Qed.

Lemma step_reconnectAttempts w e w' :
  step w e = Some w' ->
  maxReconnectAttempts (vm w') = maxReconnectAttempts (vm w) /\
  match e with
  | SocketOpen _ _ _ => reconnectAttempts (vm w') = 0 /\ isConnected (vm w') = true
  | SocketError _ _ | SocketClose _ _ =>
      reconnectAttempts (vm w') =
        if reconnectAttempts (vm w) <? maxReconnectAttempts (vm w)
        then reconnectAttempts (vm w) + 1 else reconnectAttempts (vm w)
  | _ => reconnectAttempts (vm w') = reconnectAttempts (vm w)
  end.
Proof.
  intros H. split.
  - apply (step_frame maxReconnectAttempts w e w'); [|exact H].
    destruct e; solve_blind.
  - destruct e;
      try (refine (step_frame reconnectAttempts _ _ _ _ H); solve_blind).
    + cbn [step] in H. destruct (state_of h w) as [[]|]; try discriminate H.
      injection H as <-. apply ws_onopen_resets.
    + cbn [step] in H. destruct (state_of h w) as [[]|]; try discriminate H;
        injection H as <-; rewrite ws_onclose_attempts;
        rewrite (ws_onerror_frame reconnectAttempts) by solve_blind;
        rewrite (ws_onerror_frame maxReconnectAttempts) by solve_blind;
        rewrite set_socket_state_vm; reflexivity.
    + cbn [step] in H. destruct (state_of h w) as [[]|]; try discriminate H;
        injection H as <-; rewrite ws_onclose_attempts, set_socket_state_vm; reflexivity.
Qed.

Lemma exec_invariant (P : World -> Prop) :
  (forall w e w', P w -> step w e = Some w' -> P w') ->
  forall es w w', P w -> exec w es = Some w' -> P w'.
Proof.
  intros Hstep es. induction es as [|e es IH]; intros w w' Hw H; simpl in H.
  - injection H as <-. exact Hw.
  - destruct (step w e) as [w1|] eqn:E; [|discriminate H].
    apply (IH w1 w'); [|exact H]. apply (Hstep w e w1 Hw E).
Qed.

Lemma attempts_bounded_step w e w' :
  attempts_bounded w -> step w e = Some w' -> attempts_bounded w'.
Proof.
  unfold attempts_bounded. intros [B M] H.
  destruct (step_reconnectAttempts w e w' H) as [E R]. rewrite E. split; [|exact M].
  destruct e; try (rewrite R; exact B).
  - destruct R as [-> _]. lia.
  - rewrite R. destruct (Z.ltb_spec (reconnectAttempts (vm w)) (maxReconnectAttempts (vm w))); lia.
  - rewrite R. destruct (Z.ltb_spec (reconnectAttempts (vm w)) (maxReconnectAttempts (vm w))); lia.
Qed.

(** C2. In every world the component can reach, [reconnectAttempts] lies
    between 0 and [maxReconnectAttempts], which is 5; a step taken from
    there by [ws.onopen] leaves the counter at 0 with [isConnected] set,
    and a step by any other event, a close among them, never lowers it. *)
Theorem reconnectAttempts_invariant (w : World) :
  reachable w ->
  (0 <= reconnectAttempts (vm w) <= maxReconnectAttempts (vm w) /\
   maxReconnectAttempts (vm w) = 5) /\
  (forall e w', step w e = Some w' ->
     match e with
     | SocketOpen _ _ _ => reconnectAttempts (vm w') = 0 /\ isConnected (vm w') = true
     | _ => reconnectAttempts (vm w) <= reconnectAttempts (vm w')
     end).
Proof.
  intros [es Hes]. split.
  - apply (exec_invariant attempts_bounded attempts_bounded_step es created w); [|exact Hes].
    unfold attempts_bounded. cbn. lia.
  - intros e w' H. destruct (step_reconnectAttempts w e w' H) as [_ R].
    destruct e; try exact R; try (rewrite R; lia);
      rewrite R; destruct (_ <? _); lia.
Qed.

Lemma reconnectAttempts_invariant_witness :
  exists w, exec created lost_once = Some w /\
    reconnectAttempts (vm w) = 1 /\
    (0 <= reconnectAttempts (vm w) <= maxReconnectAttempts (vm w) /\
     maxReconnectAttempts (vm w) = 5) /\
    (forall e w', step w e = Some w' ->
       match e with
       | SocketOpen _ _ _ => reconnectAttempts (vm w') = 0 /\ isConnected (vm w') = true
       | _ => reconnectAttempts (vm w) <= reconnectAttempts (vm w')
       end).
Proof.
  eexists. split; [vm_compute; reflexivity|]. split; [reflexivity|].
  apply reconnectAttempts_invariant. exists lost_once. vm_compute. reflexivity.
Defined.

(** ** Connecting twice *)

(** C5. When the handle [ws] names a socket whose [readyState] is [OPEN],
    [connectWebSocket] returns at once: no socket is created and the
    world (client id, counter, [isConnected], handle, chat state, sockets,
    timers) is the one it was called in. *)
Theorem connectWebSocket_when_open (rnd : string) (w : World) (h : nat) (s : WebSocket) :
  ws (vm w) = Some h ->
  sockets w !! h = Some s ->
  readyState s = OPEN ->
  connectWebSocket rnd w = (w, AlreadyOpen) /\ step w (CallConnect rnd) = Some w.
Proof.
  intros Hws Hs Hr.
  assert (E : connectWebSocket rnd w = (w, AlreadyOpen)).
  { unfold connectWebSocket, wsIsOpen. rewrite Hws, Hs, Hr. reflexivity. }
  split; [exact E|]. cbn [step]. rewrite E. reflexivity.
Qed.

Lemma connectWebSocket_when_open_witness :
  exists w s, exec created connected = Some w /\
    ws (vm w) = Some 0%nat /\ sockets w !! 0%nat = Some s /\ readyState s = OPEN /\
    connectWebSocket "zzzzzzzzz" w = (w, AlreadyOpen) /\
    step w (CallConnect "zzzzzzzzz") = Some w.
Proof.
  eexists. eexists. split; [vm_compute; reflexivity|].
  split; [reflexivity|]. split; [reflexivity|]. split; [reflexivity|].
  eapply connectWebSocket_when_open; reflexivity.
Defined.

(** ** Who writes the processing flags *)

Lemma sendMessage_isProcessingQuestion now w :
  isProcessingQuestion (vm (sendMessage now w)) = isProcessingQuestion (vm w) \/
  isProcessingQuestion (vm (sendMessage now w)) = false.
Proof.
  unfold sendMessage. cbv zeta. destruct (_ || _); [left; reflexivity|]. right.
  destruct (ws_send _ _) as [w3|] eqn:E; [|reflexivity].
  rewrite vm_scrollToBottom. cbn [vm upd]. rewrite (ws_send_vm _ _ _ E). reflexivity.
Qed.

(** C8, the claim as it stands fails: in a world where the server has
    announced that it is processing a question, a click on Send runs
    [sendMessage], an outbound send, which turns [isProcessingQuestion]
    from true to false. *)
Lemma sendMessage_resets_isProcessingQuestion :
  exists w w', exec created asking = Some w /\
    step w (ClickSend "10:00:07") = Some w' /\
    routes (ClickSend "10:00:07") = false /\
    isProcessingQuestion (vm w) = true /\
    isProcessingQuestion (vm w') = false.
Proof.
  eexists. eexists. split; [vm_compute; reflexivity|].
  split; [vm_compute; reflexivity|]. repeat split.
Qed.

(** C8, amended.  In a step of the event loop, [isProcessingFile] changes
    only when the event runs the message router; [isUploadingFile] only
    when it runs the router or a segment of the uploader; and
    [isProcessingQuestion] only when it runs the router, or when it is a
    click on Send, whose [sendMessage] resets the flag to false. *)
Theorem processing_flags_writers (w : World) (e : Event) (w' : World) :
  step w e = Some w' ->
  (isProcessingFile (vm w') <> isProcessingFile (vm w) -> routes e = true) /\
  (isUploadingFile (vm w') <> isUploadingFile (vm w) ->
   routes e = true \/ uploads_file e = true) /\
  (isProcessingQuestion (vm w') <> isProcessingQuestion (vm w) ->
   routes e = true \/
   (exists now, e = ClickSend now) /\ isProcessingQuestion (vm w') = false).
Proof.
  intros H. repeat split; intros N.
  - destruct e; cbn [routes]; try reflexivity; exfalso; apply N;
      (refine (step_frame _ _ _ _ _ H); solve_blind).
  - destruct e; cbn [routes uploads_file]; auto; exfalso; apply N;
      (refine (step_frame _ _ _ _ _ H); solve_blind).
  - destruct e; cbn [routes]; auto;
      try (exfalso; apply N; refine (step_frame _ _ _ _ _ H); solve_blind).
    right. split; [eexists; reflexivity|].
    cbn [step] in H. injection H as <-.
    destruct (sendMessage_isProcessingQuestion now w) as [E|E]; [contradiction | exact E].
Qed.

Lemma processing_flags_writers_witness :
  let w := default created (exec created asking) in
  let w' := sendMessage "10:00:07" w in
  step w (ClickSend "10:00:07") = Some w' /\
  isProcessingQuestion (vm w') <> isProcessingQuestion (vm w) /\
  (routes (ClickSend "10:00:07") = true \/
   (exists now, ClickSend "10:00:07" = ClickSend now) /\ isProcessingQuestion (vm w') = false).
Proof.
  intros w w'.
  assert (H : step w (ClickSend "10:00:07") = Some w') by reflexivity.
  assert (N : isProcessingQuestion (vm w') <> isProcessingQuestion (vm w))
    by (vm_compute; discriminate).
  split; [exact H|]. split; [exact N|].
  exact (proj2 (proj2 (processing_flags_writers w (ClickSend "10:00:07") w' H)) N).
Defined.

(** ** Losing the connection *)


Lemma ws_onclose_world now w :
  sockets (ws_onclose now w) = sockets w /\
  ws (vm (ws_onclose now w)) = ws (vm w) /\
  maxReconnectAttempts (vm (ws_onclose now w)) = maxReconnectAttempts (vm w) /\
  reconnectDelay (vm (ws_onclose now w)) = reconnectDelay (vm w) /\
  isConnected (vm (ws_onclose now w)) = false.
Proof.
  unfold ws_onclose. cbv zeta. destruct (_ <? _); repeat split.
Qed.

Lemma ws_onclose_retry now w :
  reconnectAttempts (vm w) < maxReconnectAttempts (vm w) ->
  timers (ws_onclose now w) = timers w ++ [reconnectDelay (vm w)] /\
  messages (vm (ws_onclose now w)) = messages (vm w) /\
  reconnectAttempts (vm (ws_onclose now w)) = reconnectAttempts (vm w) + 1.
Proof.
  intros L. apply Z.ltb_lt in L. unfold ws_onclose. cbv zeta.
  cbn [vm upd maxReconnectAttempts reconnectAttempts set_isConnected]. rewrite L.
  repeat split.
Qed.

Lemma ws_onclose_give_up now w :
  maxReconnectAttempts (vm w) <= reconnectAttempts (vm w) ->
  timers (ws_onclose now w) = timers w /\
  messages (vm (ws_onclose now w)) = messages (vm w) ++ [failed_entry now] /\
  reconnectAttempts (vm (ws_onclose now w)) = reconnectAttempts (vm w).
Proof.
  intros L. apply Z.ltb_ge in L. unfold ws_onclose. cbv zeta.
  cbn [vm upd maxReconnectAttempts reconnectAttempts set_isConnected]. rewrite L.
  repeat split.
Qed.


(** A call of [connectWebSocket] that finds no open socket under the
    handle makes a new socket and points the handle at it. *)
Lemma connectWebSocket_new rnd w :
  wsIsOpen w = false ->
  let w' := fst (connectWebSocket rnd w) in
  ws (vm w') = Some (length (sockets w)) /\
  state_of (length (sockets w)) w' = Some CONNECTING /\
  length (sockets w') = S (length (sockets w)) /\
  timers w' = timers w.
Proof.
  intros E. unfold connectWebSocket. rewrite E. cbv zeta.
  set (w1 := match clientId (vm w) with
             | Some id => if id === "" then _ else w
             | None => _
             end).
  assert (S1 : sockets w1 = sockets w /\ timers w1 = timers w).
  { subst w1. destruct (clientId (vm w)) as [id|]; [destruct (id === "")|]; split; reflexivity. }
  destruct S1 as [S1 T1]. clearbody w1. cbn [fst vm upd set_sockets sockets timers ws set_ws].
  rewrite S1, T1. unfold state_of. cbn [sockets upd set_sockets].
  rewrite lookup_app_r, Nat.sub_diag by lia. rewrite length_app. cbn.
  repeat split. lia.
Qed.

Lemma set_socket_state_timers h v w : timers (set_socket_state h v w) = timers w.
Proof. unfold set_socket_state. destruct (sockets w !! h); reflexivity. Qed.










(** ** Disconnecting *)

(** C9, the claim as it stands fails: a reconnect scheduled by the close
    handler before [disconnectWebSocket] still fires after it, opens a new
    socket, and the component ends up connected although nothing asked
    for a connection after the disconnect. *)
Lemma reconnect_after_disconnect :
  exists w, exec created (lost_once ++ CallDisconnect :: after_disconnect) = Some w /\
    forallb (fun e => negb (explicit_connect e)) after_disconnect = true /\
    isConnected (vm w) = true /\
    wsIsOpen w = true.
Proof.
  eexists. split; [vm_compute; reflexivity|]. repeat split.
Qed.

Lemma disconnectWebSocket_world w :
  ws (vm (disconnectWebSocket w)) = None /\
  timers (disconnectWebSocket w) = timers w /\
  length (sockets (disconnectWebSocket w)) = length (sockets w) /\
  (isNull (ws (vm w)) = false -> isConnected (vm (disconnectWebSocket w)) = false).
Proof.
  unfold disconnectWebSocket. destruct (ws (vm w)) as [h|] eqn:E.
  - cbn [vm upd timers sockets ws set_ws set_isConnected isConnected].
    destruct (wsIsOpen w); [|repeat split].
    unfold socket_close. destruct (sockets w !! h); cbn [sockets timers set_sockets];
      rewrite ?length_insert; repeat split.
  - rewrite E. repeat split. discriminate.
Qed.

Lemma ws_send_no_handle msg w : ws (vm w) = None -> ws_send msg w = None.
Proof. unfold ws_send. intros ->. reflexivity. Qed.

Lemma onMessageReceived_net m w : same_net w (onMessageReceived m w).
Proof.
  unfold onMessageReceived.
  repeat match goal with |- context [if ?b then _ else _] => destruct b end;
    split; reflexivity.
Qed.

Lemma loop_net_no_handle t i now emsg w :
  ws (vm w) = None -> same_net w (fst (sendFileChunks_loop t i now emsg w)).
Proof.
  intros W. unfold sendFileChunks_loop. cbv zeta.
  destruct (i <? t); destruct (currentFile (vm w)) as [f|]; try (split; reflexivity).
  rewrite (ws_send_no_handle _ w W). split; reflexivity.
Qed.

Lemma sendFileChunks_net_no_handle now emsg w :
  ws (vm w) = None -> same_net w (sendFileChunks now emsg w).
Proof.
  intros W. unfold sendFileChunks.
  destruct (currentFile (vm w)) as [f|]; [|split; reflexivity]. cbv zeta.
  match goal with |- context [sendFileChunks_loop ?t ?i ?n ?e ?w1] =>
    pose proof (loop_net_no_handle t i n e w1 W) as L;
    destruct (sendFileChunks_loop t i n e w1) as [w2 st] end.
  exact L.
Qed.

Lemma upload_segment_net_no_handle w e w' :
  ws (vm w) = None ->
  match e with ReaderLoad _ _ _ | ReaderError _ _ | DelayElapsed _ _ _ => True | _ => False end ->
  step w e = Some w' -> same_net w w'.
Proof.
  intros W K H. destruct e; try contradiction; cbn [step] in H.
  - unfold reader_onload, park in H.
    destruct (uploads w !! pid) as [[total i chunk| |]|]; try discriminate H.
    injection H as <-. destruct (currentFile (vm w)); [|split; reflexivity].
    rewrite (ws_send_no_handle _ w W). split; reflexivity.
  - unfold reader_onerror, park in H.
    destruct (uploads w !! pid) as [[total i chunk| |]|]; try discriminate H.
    injection H as <-. split; reflexivity.
  - unfold delay_elapsed, park in H.
    destruct (uploads w !! pid) as [[total i chunk| |]|]; try discriminate H.
    injection H as <-. apply (loop_net_no_handle _ _ _ _ w W).
Qed.

Lemma idle_state_of w h st : idle w -> state_of h w = Some st -> st = CLOSED.
Proof.
  intros (_ & _ & _ & F) H. unfold state_of in H.
  destruct (sockets w !! h) as [s|] eqn:E; [|discriminate H].
  injection H as <-. apply (proj1 (Forall_lookup _ _) F h s E).
Qed.

(** An idle world stays idle as long as nothing asks for a connection:
    no socket and no timer is there to call back. *)
Lemma idle_step w e w' :
  idle w -> explicit_connect e = false -> step w e = Some w' -> idle w'.
Proof.
  intros I X H. pose proof I as (W & C & T & F).
  assert (V : forall {A} (obs : Component -> A),
             blind obs (writes e) -> obs (vm w') = obs (vm w))
    by (intros A obs B; apply (step_frame obs w e w' B H)).
  assert (K : same_net w w' -> ws (vm w') = ws (vm w) ->
              isConnected (vm w') = isConnected (vm w) -> idle w').
  { intros [S1 T1] W1 C1. unfold idle. rewrite S1, T1, W1, C1. exact I. }
  destruct e; try discriminate X; cbn [step] in H.
  - apply K; [injection H as <-; split; reflexivity | apply V; solve_blind..].
  - apply K; [injection H as <-; apply onMessageReceived_net | apply V; solve_blind..].
  - injection H as <-. unfold disconnectWebSocket. rewrite W. exact I.
  - apply K; [injection H as <-; apply sendFileChunks_net_no_handle, W
             | apply V; solve_blind..].
  - apply K; [|apply V; solve_blind..]. injection H as <-. unfold onMessage.
    destruct parsed as [m|]; [destruct (type m === "error")|]; split; reflexivity.
  - apply K; [injection H as <-; split; reflexivity | apply V; solve_blind..].
  - injection H as <-. unfold sendMessage. cbv zeta. rewrite C.
    rewrite orb_true_r. exact I.
  - apply K; [injection H as <-; split; reflexivity | apply V; solve_blind..].
  - destruct (state_of h w) as [st|] eqn:E; [|discriminate H].
    rewrite (idle_state_of w h st I E) in H. discriminate H.
  - destruct (state_of h w) as [st|] eqn:E; [|discriminate H].
    rewrite (idle_state_of w h st I E) in H. discriminate H.
  - destruct (state_of h w) as [st|] eqn:E; [|discriminate H].
    rewrite (idle_state_of w h st I E) in H. discriminate H.
  - destruct (state_of h w) as [st|] eqn:E; [|discriminate H].
    rewrite (idle_state_of w h st I E) in H. discriminate H.
  - rewrite T in H. discriminate H.
  - apply K; [|apply V; solve_blind..].
    apply (upload_segment_net_no_handle w (ReaderLoad pid now emsg) w' W Logic.I H).
  - apply K; [|apply V; solve_blind..].
    apply (upload_segment_net_no_handle w (ReaderError pid now) w' W Logic.I H).
  - apply K; [|apply V; solve_blind..].
    apply (upload_segment_net_no_handle w (DelayElapsed pid now emsg) w' W Logic.I H).
  - destruct (state_of h w) as [st|] eqn:E; [|discriminate H].
    rewrite (idle_state_of w h st I E) in H. discriminate H.
Qed.

Lemma idle_exec es :
  forall w w', idle w -> forallb (fun e => negb (explicit_connect e)) es = true ->
  exec w es = Some w' -> idle w'.
Proof.
  induction es as [|e es IH]; intros w w' I X H; cbn [exec forallb] in *.
  - injection H as <-. exact I.
  - apply andb_true_iff in X as [X1 X2]. apply negb_true_iff in X1.
    destruct (step w e) as [w1|] eqn:E; [|discriminate H].
    apply (IH w1 w' (idle_step w e w1 I X1 E) X2 H).
Qed.

Lemma disconnectWebSocket_idle w :
  timers w = [] -> Forall (fun s => readyState s = CLOSED) (sockets w) ->
  isNull (ws (vm w)) = false -> idle (disconnectWebSocket w).
Proof.
  intros T F N. unfold disconnectWebSocket.
  destruct (ws (vm w)) as [h|] eqn:W; [|discriminate N].
  assert (O : wsIsOpen w = false).
  { unfold wsIsOpen. rewrite W. destruct (sockets w !! h) as [s|] eqn:E; [|reflexivity].
    rewrite (proj1 (Forall_lookup _ _) F h s E). reflexivity. }
  rewrite O. repeat split; assumption.
Qed.

Lemma set_socket_state_length h v w :
  length (sockets (set_socket_state h v w)) = length (sockets w).
Proof.
  unfold set_socket_state. destruct (sockets w !! h); [|reflexivity].
  cbn [sockets set_sockets]. apply length_insert.
Qed.

(** A timer that fires while there is no handle makes a socket. *)
Lemma timer_connects_without_handle rnd w :
  timers w <> [] -> ws (vm w) = None ->
  exists w1, step w (TimerFires rnd) = Some w1 /\
    ws (vm w1) = Some (length (sockets w)) /\
    state_of (length (sockets w)) w1 = Some CONNECTING.
Proof.
  intros T W. cbn [step]. destruct (timers w) as [|d rest]; [contradiction T; reflexivity|].
  unfold reconnect_timer.
  destruct (connectWebSocket_new rnd (set_timers rest w)) as (A & B & _).
  { unfold wsIsOpen. cbn [vm set_timers]. rewrite W. reflexivity. }
  eexists. split; [reflexivity|]. split; [exact A | exact B].
Qed.

(** The same failure without a lost connection before the disconnect:
    the socket that [disconnectWebSocket] closes delivers its close
    event afterwards, the close handler schedules a reconnect, and the
    component ends up connected again. *)
Lemma reconnect_after_disconnect_of_open_socket :
  exists w,
    exec created (connected ++ [CallDisconnect; SocketClose 0 "10:00:09";
                                TimerFires "zzzzzzzzz"; SocketOpen 1 "10:00:14" ""])
      = Some w /\
    isConnected (vm w) = true /\
    wsIsOpen w = true.
Proof.
  eexists. split; [vm_compute; reflexivity|]. repeat split.
Qed.

(** C9, amended.  [disconnectWebSocket] makes the socket the handle names
    start closing if it is open, clears the handle and, when there was
    one, sets [isConnected] to false; without a handle it does nothing.
    It does not stop the reconnects.  It leaves the pending reconnect
    timers as they are: if one is pending, it still fires after the
    disconnect, and its [connectWebSocket], finding no handle, makes a
    new socket in state [CONNECTING] and points the handle at it.  It
    leaves the close handler attached: when a socket that is not closed
    yet after the disconnect, the one just told to close among them,
    delivers its close event, the handler schedules a reconnect if
    [reconnectAttempts] is below [maxReconnectAttempts], and the next
    timer to fire makes a new socket; otherwise the handler pushes the
    terminal entry and schedules nothing.  If no reconnect is pending and
    every socket is already closed at a disconnect that finds a handle,
    nothing reconnects by itself: through any sequence of events in which
    the page does not ask for a connection, the handle stays null,
    [isConnected] stays false and no socket is open. *)
Theorem disconnect_does_not_stop_reconnects (rnd : string) (w : World) :
  let w' := disconnectWebSocket w in
  ws (vm w') = None /\
  timers w' = timers w /\
  (isNull (ws (vm w)) = false -> isConnected (vm w') = false) /\
  (ws (vm w) = None -> w' = w) /\
  (forall h s, ws (vm w) = Some h -> sockets w !! h = Some s ->
     sockets w' = match readyState s with
                  | OPEN => <[h := set_readyState CLOSING s]> (sockets w)
                  | _ => sockets w
                  end) /\
  (forall d rest, timers w = d :: rest ->
     exists w'', step w' (TimerFires rnd) = Some w'' /\
       ws (vm w'') = Some (length (sockets w)) /\
       state_of (length (sockets w)) w'' = Some CONNECTING /\
       timers w'' = rest) /\
  (forall h st now, state_of h w' = Some st -> st <> CLOSED ->
     exists w1, step w' (SocketClose h now) = Some w1 /\
       if reconnectAttempts (vm w) <? maxReconnectAttempts (vm w)
       then timers w1 = timers w ++ [reconnectDelay (vm w)] /\
            messages (vm w1) = messages (vm w) /\
            exists w2, step w1 (TimerFires rnd) = Some w2 /\
              ws (vm w2) = Some (length (sockets w)) /\
              state_of (length (sockets w)) w2 = Some CONNECTING
       else timers w1 = timers w /\
            messages (vm w1) = messages (vm w) ++ [failed_entry now]) /\
  (timers w = [] ->
   Forall (fun s => readyState s = CLOSED) (sockets w) ->
   isNull (ws (vm w)) = false ->
   forall es w'',
     forallb (fun e => negb (explicit_connect e)) es = true ->
     exec w' es = Some w'' ->
     ws (vm w'') = None /\ isConnected (vm w'') = false /\ wsIsOpen w'' = false).
Proof.
  intros w'. destruct (disconnectWebSocket_world w) as (W & T & L & I). fold w' in W, T, L, I.
  split; [exact W|]. split; [exact T|]. split; [exact I|]. split; [|split; [|split; [|split]]].
  - intros N. unfold w', disconnectWebSocket. rewrite N. reflexivity.
  - intros h s Hw Hs. unfold w', disconnectWebSocket, wsIsOpen, socket_close.
    rewrite Hw, Hs. destruct (readyState s); reflexivity.
  - intros d rest Tw. cbn [step]. rewrite T, Tw. unfold reconnect_timer.
    destruct (connectWebSocket_new rnd (set_timers rest w')) as (A & B & _ & D).
    { unfold wsIsOpen. cbn [vm set_timers]. rewrite W. reflexivity. }
    cbn [sockets set_timers] in A, B. rewrite L in A, B.
    eexists. split; [reflexivity|]. split; [exact A|]. split; [exact B|]. exact D.
  - intros h st now St N.
    set (w0 := set_socket_state h CLOSED w').
    assert (Hstep : step w' (SocketClose h now) = Some (ws_onclose now w0))
      by (cbn [step]; rewrite St; destruct st; try reflexivity;
          contradiction N; reflexivity).
    assert (V0 : vm w0 = vm w') by apply set_socket_state_vm.
    assert (T0 : timers w0 = timers w)
      by (unfold w0; rewrite set_socket_state_timers; exact T).
    assert (F : forall {A} (obs : Component -> A), blind obs [f_ws; f_isConnected] ->
                  obs (vm w0) = obs (vm w))
      by (intros A obs B; rewrite V0; apply disconnectWebSocket_frame, B).
    exists (ws_onclose now w0). split; [exact Hstep|].
    rewrite <- (F _ reconnectAttempts), <- (F _ maxReconnectAttempts),
      <- (F _ reconnectDelay), <- (F _ messages), <- T0 by solve_blind.
    destruct (Z.ltb_spec (reconnectAttempts (vm w0)) (maxReconnectAttempts (vm w0)))
      as [Lt|Ge].
    + destruct (ws_onclose_retry now w0 Lt) as (T1 & M1 & _).
      split; [exact T1|]. split; [exact M1|].
      destruct (ws_onclose_world now w0) as (S1 & W1 & _).
      destruct (timer_connects_without_handle rnd (ws_onclose now w0)) as (w2 & H2 & A & B).
      { rewrite T1. destruct (timers w0); discriminate. }
      { rewrite W1, V0. exact W. }
      rewrite S1 in A, B. unfold w0 in A, B. rewrite set_socket_state_length, L in A, B.
      exists w2. split; [exact H2|]. split; [exact A | exact B].
    + destruct (ws_onclose_give_up now w0 Ge) as (T1 & M1 & _).
      split; [exact T1 | exact M1].
  - intros Tw F N es w'' X H.
    destruct (idle_exec es w' w'' (disconnectWebSocket_idle w Tw F N) X H) as (W2 & C2 & _).
    split; [exact W2|]. split; [exact C2|]. unfold wsIsOpen. rewrite W2. reflexivity.
Qed.

Lemma disconnect_does_not_stop_reconnects_witness :
  (let w := default created (exec created lost_once) in
   let w' := disconnectWebSocket w in
   timers w = [5000] /\
   exists w'', step w' (TimerFires "k3j9x0q2m") = Some w'' /\
     ws (vm w'') = Some (length (sockets w)) /\
     state_of (length (sockets w)) w'' = Some CONNECTING /\
     timers w'' = []) /\
  (let w' := disconnectWebSocket just_connected in
   state_of 0 just_connected = Some OPEN /\
   state_of 0 w' = Some CLOSING /\
   timers just_connected = [] /\
   exists w1, step w' (SocketClose 0 "10:00:09") = Some w1 /\
     timers w1 = [5000] /\
     messages (vm w1) = messages (vm just_connected) /\
     exists w2, step w1 (TimerFires "k3j9x0q2m") = Some w2 /\
       ws (vm w2) = Some 1%nat /\
       state_of 1 w2 = Some CONNECTING) /\
  (let w' := disconnectWebSocket gave_up in
   timers gave_up = [] /\
   ws (vm gave_up) = Some 5%nat /\
   exists w'', exec w' after_giving_up = Some w'' /\
     ws (vm w'') = None /\ isConnected (vm w'') = false /\ wsIsOpen w'' = false).
Proof.
  split; [|split].
  - intros w w'. split; [reflexivity|].
    exact (proj1 (proj2 (proj2 (proj2 (proj2 (proj2
             (disconnect_does_not_stop_reconnects "k3j9x0q2m" w))))))
             5000 [] eq_refl).
  - intros w'. split; [reflexivity|]. split; [reflexivity|]. split; [reflexivity|].
    exact (proj1 (proj2 (proj2 (proj2 (proj2 (proj2 (proj2
             (disconnect_does_not_stop_reconnects "k3j9x0q2m" just_connected)))))))
             0%nat CLOSING "10:00:09" eq_refl ltac:(discriminate)).
  - intros w'. split; [reflexivity|]. split; [reflexivity|].
    eexists. split; [vm_compute; reflexivity|].
    apply (proj2 (proj2 (proj2 (proj2 (proj2 (proj2 (proj2
             (disconnect_does_not_stop_reconnects "" gave_up)))))))
             eq_refl ltac:(vm_compute; repeat constructor) eq_refl after_giving_up);
      [reflexivity | vm_compute; reflexivity].
Defined.

(** ** The upload *)

Lemma Math_ceil_div_MiB (n : Z) :
  0 <= n ->
  0 <= Math_ceil_div n MiB /\
  (Math_ceil_div n MiB - 1) * MiB < n <= Math_ceil_div n MiB * MiB.
Proof.
  intros Hn. unfold Math_ceil_div.
  pose proof (Z.div_mod (- n) MiB) as D.
  pose proof (Z.mod_pos_bound (- n) MiB) as B.
  change MiB with 1048576 in *. lia.
Qed.

Lemma slice_chunk (f : File) (i : Z) :
  0 <= i -> i * MiB < size f ->
  slice f (i * (1024 * 1024)) (Z.min (i * (1024 * 1024) + 1024 * 1024) (size f)) =
  chunk_blob f i.
Proof.
  intros Hi Hlt. unfold slice, clamp_bound, chunk_blob.
  change (1024 * 1024) with 1048576. change MiB with 1048576 in *.
  destruct (Z.ltb_spec (i * 1048576) 0); [lia|].
  destruct (Z.ltb_spec (Z.min (i * 1048576 + 1048576) (size f)) 0); [lia|].
  f_equal; lia.
Qed.

Lemma run_upload_finished fuel readOk pid now emsg w :
  uploads w !! pid = Some Finished -> run_upload fuel readOk pid now emsg w = w.
Proof. intros H. destruct fuel; cbn [run_upload]; [|rewrite H]; reflexivity. Qed.

Lemma run_upload_reading fuel (readOk : Z -> bool) pid now emsg w total i chunk w1 :
  uploads w !! pid = Some (Reading total i chunk) ->
  (if readOk i then reader_onload pid now emsg w else reader_onerror pid now w) = Some w1 ->
  run_upload (S fuel) readOk pid now emsg w = run_upload fuel readOk pid now emsg w1.
Proof. intros H H1. cbn [run_upload]. rewrite H, H1. reflexivity. Qed.

Lemma run_upload_waiting fuel readOk pid now emsg w total i w1 :
  uploads w !! pid = Some (Waiting total i) ->
  delay_elapsed pid now emsg w = Some w1 ->
  run_upload (S fuel) readOk pid now emsg w = run_upload fuel readOk pid now emsg w1.
Proof. intros H H1. cbn [run_upload]. rewrite H, H1. reflexivity. Qed.

Section Upload.
Variables (f : File) (h : nat) (now emsg : string).

Let total := Math_ceil_div (size f) MiB.

Lemma ws_send_live msg w s :
  live f h w s ->
  ws_send msg w = Some (set_sockets (<[h := set_sent (sent s ++ [msg]) s]> (sockets w)) w).
Proof.
  intros (Hws & Hs & Hr & _). unfold ws_send, socket_send. rewrite Hws, Hs, Hr. reflexivity.
Qed.

Lemma loop_reads t i w s :
  live f h w s -> 0 <= i -> i < t -> i * MiB < size f ->
  sendFileChunks_loop t i now emsg w =
    (set_reads (reads w ++ [chunk_blob f i]) w, Reading t i (chunk_blob f i)).
Proof.
  intros (_ & _ & _ & Hf) Hi Hlt Hsz. unfold sendFileChunks_loop. cbv zeta.
  apply Z.ltb_lt in Hlt. rewrite Hlt, Hf, (slice_chunk f i Hi Hsz). reflexivity.
Qed.

Lemma loop_completes t i w s :
  live f h w s -> t <= i ->
  sendFileChunks_loop t i now emsg w =
    (sendFileChunks_finally
       (upd (set_currentFile None)
          (set_sockets (<[h := set_sent (sent s ++ [file_complete (name f) t]) s]> (sockets w)) w)),
     Finished).
Proof.
  intros L Hge. unfold sendFileChunks_loop. cbv zeta.
  apply Z.ltb_ge in Hge. rewrite Hge. destruct L as (Hws & Hs & Hr & Hf). rewrite Hf.
  rewrite (ws_send_live _ w s); [reflexivity|]. repeat split; assumption.
Qed.

Lemma reader_onload_live pid t i chunk w s :
  live f h w s -> uploads w !! pid = Some (Reading t i chunk) ->
  reader_onload pid now emsg w =
    Some (set_uploads (<[pid := Waiting t i]> (uploads w))
            (set_sockets (<[h := set_sent (sent s ++ [file_chunk i t (name f) chunk]) s]>
                            (sockets w)) w)).
Proof.
  intros L Hu. unfold reader_onload. rewrite Hu.
  destruct L as (Hws & Hs & Hr & Hf). rewrite Hf.
  rewrite (ws_send_live _ w s); [reflexivity|]. repeat split; assumption.
Qed.

Lemma delay_elapsed_waiting pid t i w :
  uploads w !! pid = Some (Waiting t i) ->
  delay_elapsed pid now emsg w = Some (park pid (sendFileChunks_loop t (i + 1) now emsg w)).
Proof. intros Hu. unfold delay_elapsed. rewrite Hu. reflexivity. Qed.

Lemma run_reading (readOk : Z -> bool) (pid : nat) :
  forall (n : nat) (i : Z) (w : World) (s : WebSocket),
    Z.of_nat n = total - i - 1 -> 0 <= i -> 0 <= size f ->
    live f h w s ->
    uploads w !! pid = Some (Reading total i (chunk_blob f i)) ->
    (forall j, i <= j < total -> readOk j = true) ->
    forall fuel, (2 * (n + 1) <= fuel)%nat ->
    done_with h w s pid
      (map (chunk_message f total) (seqZ i (total - i)) ++ [file_complete (name f) total])
      (map (chunk_blob f) (seqZ (i + 1) (total - i - 1)))
      (run_upload fuel readOk pid now emsg w).
Proof.
  induction n as [|n IH]; intros i w s Hn Hi Hsz L Hu Hok fuel Hfuel;
    (destruct fuel as [|[|fuel]]; [lia | lia |]);
    pose proof L as (Hws & Hs & Hr & Hf);
    pose proof (lookup_lt_Some _ _ _ Hs) as Hh;
    pose proof (lookup_lt_Some _ _ _ Hu) as Hp;
    set (s1 := set_sent (sent s ++ [file_chunk i total (name f) (chunk_blob f i)]) s);
    set (w1 := set_uploads (<[pid := Waiting total i]> (uploads w))
                 (set_sockets (<[h := s1]> (sockets w)) w));
    assert (L1 : live f h w1 s1)
      by (repeat split; try assumption; cbn [sockets w1 set_uploads set_sockets];
          apply list_lookup_insert_eq, Hh);
    assert (Hu1 : uploads w1 !! pid = Some (Waiting total i))
      by (cbn [uploads w1 set_uploads]; apply list_lookup_insert_eq, Hp);
    rewrite (run_upload_reading _ _ _ _ _ w total i (chunk_blob f i) w1 Hu)
      by (rewrite Hok by lia; apply (reader_onload_live pid total i _ w s L Hu));
    rewrite (run_upload_waiting _ _ _ _ _ w1 total i _ Hu1 (delay_elapsed_waiting pid total i w1 Hu1)).
  - (* the last chunk: the completion message follows *)
    rewrite (loop_completes total (i + 1) w1 s1 L1) by lia.
    rewrite run_upload_finished
      by (unfold park;
          cbn [uploads set_uploads fst snd sendFileChunks_finally upd set_sockets w1];
          apply list_lookup_insert_eq; rewrite length_insert; exact Hp).
    replace (total - i) with 1 by lia. replace (1 - 1) with 0 by lia.
    rewrite seqZ_cons, seqZ_nil by lia. unfold done_with, park.
    cbn [fst snd vm sockets uploads reads timers scrolls set_uploads set_sockets upd
         sendFileChunks_finally w1 map app].
    rewrite !list_insert_insert_eq, app_nil_r.
    repeat split. f_equal. unfold s1. cbn [set_sent sent url readyState promise awaited].
    rewrite <- app_assoc. reflexivity.
  - (* more chunks follow: the next read starts *)
    assert (Hlt : i + 1 < total) by lia.
    assert (Hsz1 : (i + 1) * MiB < size f).
    { pose proof (Math_ceil_div_MiB (size f) Hsz) as (_ & B & _). fold total in B.
      change MiB with 1048576 in *. lia. }
    rewrite (loop_reads total (i + 1) w1 s1 L1) by lia.
    set (w2 := park pid (set_reads (reads w1 ++ [chunk_blob f (i + 1)]) w1,
                         Reading total (i + 1) (chunk_blob f (i + 1)))).
    assert (L2 : live f h w2 s1) by exact L1.
    assert (Hu2 : uploads w2 !! pid = Some (Reading total (i + 1) (chunk_blob f (i + 1))))
      by (unfold w2, park; cbn [uploads set_uploads set_reads fst snd w1];
          apply list_lookup_insert_eq; rewrite length_insert; exact Hp).
    destruct (IH (i + 1) w2 s1 ltac:(lia) ltac:(lia) Hsz L2 Hu2
                ltac:(intros j Hj; apply Hok; lia) fuel ltac:(lia))
      as (V & S & U & R & T & C).
    unfold done_with. rewrite V, S, U, R, T, C.
    rewrite (seqZ_cons i (total - i)) by lia.
    rewrite (seqZ_cons (i + 1) (total - i - 1)) by lia.
    replace (Z.succ i) with (i + 1) by lia.
    replace (Z.pred (total - i)) with (total - (i + 1)) by lia.
    replace (Z.succ (i + 1)) with (i + 1 + 1) by lia.
    replace (Z.pred (total - i - 1)) with (total - (i + 1) - 1) by lia.
    unfold w2, park.
    cbn [fst snd vm sockets uploads reads timers scrolls set_uploads set_sockets set_reads
         w1 map].
    rewrite !list_insert_insert_eq.
    repeat split.
    + f_equal. unfold s1. cbn [set_sent sent url readyState promise awaited].
      rewrite <- !app_assoc. reflexivity.
    + rewrite <- app_assoc. reflexivity.
Qed.
End Upload.

Lemma exec_app w es1 es2 :
  exec w (es1 ++ es2) = match exec w es1 with Some w1 => exec w1 es2 | None => None end.
Proof.
  revert w. induction es1 as [|e es1 IH]; intros w; cbn [exec app]; [reflexivity|].
  destruct (step w e); [apply IH | reflexivity].
Qed.

(** An uninterrupted run is a run of the event loop in which only the
    callbacks of that call fire. *)
Lemma run_upload_exec fuel (readOk : Z -> bool) pid now emsg w :
  exists es, exec w es = Some (run_upload fuel readOk pid now emsg w) /\
    forallb uploads_file es = true.
Proof.
  revert w. induction fuel as [|fuel IH]; intros w; cbn [run_upload].
  { exists []. split; reflexivity. }
  destruct (uploads w !! pid) as [[total i chunk|total i|]|] eqn:Hu;
    try (exists []; split; reflexivity).
  - destruct (readOk i).
    + destruct (reader_onload pid now emsg w) as [w1|] eqn:E;
        [|exists []; split; reflexivity].
      destruct (IH w1) as (es & H & F). exists (ReaderLoad pid now emsg :: es).
      cbn [exec step forallb uploads_file andb]. rewrite E. split; assumption.
    + destruct (reader_onerror pid now w) as [w1|] eqn:E;
        [|exists []; split; reflexivity].
      destruct (IH w1) as (es & H & F). exists (ReaderError pid now :: es).
      cbn [exec step forallb uploads_file andb]. rewrite E. split; assumption.
  - destruct (delay_elapsed pid now emsg w) as [w1|] eqn:E;
      [|exists []; split; reflexivity].
    destruct (IH w1) as (es & H & F). exists (DelayElapsed pid now emsg :: es).
    cbn [exec step forallb uploads_file andb]. rewrite E. split; assumption.
Qed.

Lemma sendFileChunks_run_reachable (readOk : Z -> bool) now emsg w :
  reachable w -> reachable (sendFileChunks_run readOk now emsg w).
Proof.
  intros [es0 H0]. unfold sendFileChunks_run.
  assert (R : reachable (sendFileChunks now emsg w)).
  { exists (es0 ++ [CallSendFileChunks now emsg]). rewrite exec_app, H0. reflexivity. }
  destruct (currentFile (vm w)) as [f|]; [|exact R].
  destruct R as [es1 H1].
  destruct (run_upload_exec (upload_fuel f) readOk (length (uploads w)) now emsg
              (sendFileChunks now emsg w)) as (es2 & H2 & _).
  exists (es1 ++ es2). rewrite exec_app, H1. exact H2.
Qed.

Example wired_upload_sends :
  exists w s, exec created wired_upload = Some w /\
    sockets w !! 0%nat = Some s /\
    sent s = map (chunk_message log25 3) (seqZ 0 3) ++ [file_complete "flight.bin" 3] /\
    uploads w = [Finished] /\
    isUploadingFile (vm w) = true /\ isChatEnabled (vm w) = false.
Proof.
  eexists. eexists. split; [vm_compute; reflexivity|]. repeat split.
Qed.

Example scenario_worlds_reachable :
  reachable just_connected /\ reachable ready_to_upload /\ reachable upload_done /\
  reachable offline_with_file.
Proof.
  assert (R : reachable ready_to_upload) by (exists file_arrives; vm_compute; reflexivity).
  split; [exists connected; vm_compute; reflexivity|]. split; [exact R|].
  split; [apply sendFileChunks_run_reachable, R|].
  exists [FileReady {| name := "flight.bin"; size := 10 |}]. reflexivity.
Qed.

(** The whole call on a connected session whose reads all succeed. *)
Lemma sendFileChunks_run_live (readOk : Z -> bool) (now emsg : string)
    (w : World) (h : nat) (s : WebSocket) (f : File) :
  live f h w s -> 0 <= size f ->
  (forall j, 0 <= j < Math_ceil_div (size f) MiB -> readOk j = true) ->
  let total := Math_ceil_div (size f) MiB in
  let w' := sendFileChunks_run readOk now emsg w in
  vm w' = set_isSendingFile false (set_currentFile None
            (set_isUploadingFile true (set_isChatEnabled false
               (set_isSendingFile true (vm w))))) /\
  sockets w' = <[h := set_sent (sent s ++ map (chunk_message f total) (seqZ 0 total)
                                  ++ [file_complete (name f) total]) s]> (sockets w) /\
  uploads w' = uploads w ++ [Finished] /\
  reads w' = reads w ++ map (chunk_blob f) (seqZ 0 total) /\
  timers w' = timers w /\
  scrolls w' = scrolls w.
Proof.
  intros L Hsz Hok total w'. subst w'.
  pose proof L as (Hws & Hs & Hr & Hf).
  pose proof (Math_ceil_div_MiB (size f) Hsz) as (T0 & T1 & T2). fold total in T0, T1, T2.
  unfold sendFileChunks_run, sendFileChunks. rewrite Hf. cbv zeta.
  change (Math_ceil_div (size f) (1024 * 1024)) with total.
  set (w1 := upd (set_isUploadingFile true)
               (upd (set_isChatEnabled false) (upd (set_isSendingFile true) w))).
  assert (L1 : live f h w1 s) by exact L.
  destruct (Z.eq_dec total 0) as [E0|N0].
  - rewrite (loop_completes f h now emsg total 0 w1 s L1) by lia. cbv iota beta.
    rewrite run_upload_finished
      by (cbn [uploads set_uploads]; rewrite lookup_app_r, Nat.sub_diag by reflexivity;
          reflexivity).
    rewrite E0, seqZ_nil by lia. repeat split. symmetry. apply app_nil_r.
  - assert (Hpos : 0 * MiB < size f) by (change MiB with 1048576 in *; lia).
    rewrite (loop_reads f h now emsg total 0 w1 s L1) by lia. cbv iota beta.
    set (w3 := set_uploads _ _).
    assert (L3 : live f h w3 s) by exact L.
    assert (Hu3 : uploads w3 !! length (uploads w) = Some (Reading total 0 (chunk_blob f 0)))
      by (cbn [uploads w3 set_uploads set_reads w1 upd];
          rewrite lookup_app_r, Nat.sub_diag by reflexivity; reflexivity).
    destruct (run_reading f h now emsg readOk (length (uploads w))
                (Z.to_nat (total - 1)) 0 w3 s ltac:(fold total; lia) ltac:(lia) Hsz L3 Hu3
                ltac:(intros j Hj; apply Hok; fold total; lia)
                (upload_fuel f) ltac:(unfold upload_fuel; fold MiB; fold total; lia))
      as (V & S & U & R & T & C).
    fold total in S, R.
    rewrite V, S, U, R, T, C. cbn [vm sockets uploads reads timers scrolls w3 set_uploads
                                    set_reads w1 upd].
    replace (total - 0) with total in * by lia.
    rewrite insert_app_r_alt, Nat.sub_diag by reflexivity.
    rewrite (seqZ_cons 0 total) by lia.
    replace (Z.succ 0) with (0 + 1) by lia. replace (Z.pred total) with (total - 1) by lia.
    cbn [map]. rewrite <- app_assoc. repeat split.
Qed.

(** *** The upload among other events *)

Lemma file_messages_snoc l o :
  file_messages (l ++ [o]) = file_messages l ++ (if is_file_message o then [o] else []).
Proof.
  unfold file_messages. rewrite List.filter_app. cbn [List.filter].
  destruct (is_file_message o); reflexivity.
Qed.

Lemma onMessageReceived_io m w :
  sockets (onMessageReceived m w) = sockets w /\ uploads (onMessageReceived m w) = uploads w.
Proof.
  unfold onMessageReceived.
  repeat match goal with |- context [if ?b then _ else _] => destruct b end;
    split; reflexivity.
Qed.

Lemma sendMessage_io now w :
  uploads (sendMessage now w) = uploads w /\
  forall h s, sockets w !! h = Some s ->
    exists s', sockets (sendMessage now w) !! h = Some s' /\ untouched s s'.
Proof.
  unfold sendMessage. cbv zeta.
  destruct (_ || _); [split; [reflexivity | intros h s H; exists s; repeat split; exact H]|].
  unfold ws_send, socket_send. cbn [vm upd push sockets ws set_messages set_isProcessingQuestion].
  destruct (ws (vm w)) as [h0|];
    [|split; [reflexivity | intros h s H; exists s; repeat split; exact H]].
  destruct (sockets w !! h0) as [s0|] eqn:E0;
    [|split; [reflexivity | intros h s H; exists s; repeat split; exact H]].
  destruct (readyState s0) eqn:R0;
    try (split; [reflexivity | intros h s H; exists s; repeat split; exact H]).
  split; [reflexivity|]. intros h s H. cbn [sockets scrollToBottom set_scrolls upd set_sockets].
  destruct (Nat.eq_dec h0 h) as [->|N].
  - rewrite list_lookup_insert_eq by apply (lookup_lt_Some _ _ _ H).
    rewrite E0 in H. injection H as <-. eexists. split; [reflexivity|].
    split; [reflexivity|]. cbn [sent set_sent]. rewrite file_messages_snoc. apply app_nil_r.
  - rewrite list_lookup_insert_ne by exact N. exists s. repeat split; exact H.
Qed.

Lemma bystander_step w e w' :
  bystander e = true -> step w e = Some w' ->
  uploads w' = uploads w /\
  ws (vm w') = ws (vm w) /\
  currentFile (vm w') = currentFile (vm w) /\
  forall h s, sockets w !! h = Some s -> exists s', sockets w' !! h = Some s' /\ untouched s s'.
Proof.
  intros B H.
  assert (V : forall {A} (obs : Component -> A),
             blind obs (writes e) -> obs (vm w') = obs (vm w))
    by (intros A obs Bl; apply (step_frame obs w e w' Bl H)).
  assert (K : sockets w' = sockets w -> uploads w' = uploads w ->
              ws (vm w') = ws (vm w) -> currentFile (vm w') = currentFile (vm w) ->
              uploads w' = uploads w /\ ws (vm w') = ws (vm w) /\
              currentFile (vm w') = currentFile (vm w) /\
              forall h s, sockets w !! h = Some s ->
                exists s', sockets w' !! h = Some s' /\ untouched s s').
  { intros S U W C. repeat split; try assumption. intros h s Hs. exists s.
    rewrite S. repeat split. exact Hs. }
  destruct e; try discriminate B; cbn [step] in H.
  - injection H as <-.
    apply K; [apply onMessageReceived_io | apply onMessageReceived_io | apply V; solve_blind..].
  - injection H as <-. apply K; [| | apply V; solve_blind..];
      unfold onMessage; (destruct parsed as [m|]; [destruct (type m === "error")|]); reflexivity.
  - injection H as <-. apply K; [reflexivity | reflexivity | apply V; solve_blind..].
  - injection H as <-. destruct (sendMessage_io now w) as [U S].
    split; [exact U|]. split; [apply V; solve_blind|]. split; [apply V; solve_blind|]. exact S.
  - injection H as <-. apply K; [reflexivity | reflexivity | apply V; solve_blind..].
  - destruct (state_of h w) as [[]|]; try discriminate H; injection H as <-;
      (destruct parsed as [m|]; cbn [ws_onmessage];
       [apply K; [apply onMessageReceived_io | apply onMessageReceived_io
                 | apply V; solve_blind..]
       | apply K; reflexivity]).
Qed.

Lemma progress_bystander f h pid base w e w' :
  progress f h pid base w -> bystander e = true -> step w e = Some w' ->
  progress f h pid base w'.
Proof.
  intros P B H. destruct (bystander_step w e w' B H) as (U & W & C & S).
  destruct P as [k s (Hws & Hs & Hr & Hf) Hk Hu Hm | k s (Hws & Hs & Hr & Hf) Hk Hu Hm
                | s Hws Hs Hu Hm];
    destruct (S h s Hs) as (s' & Hs' & R' & M').
  - apply (in_read f h pid base w' k s'); [|exact Hk| |].
    + repeat split; congruence.
    + rewrite U. exact Hu.
    + rewrite M'. exact Hm.
  - apply (in_delay f h pid base w' k s'); [|exact Hk| |].
    + repeat split; congruence.
    + rewrite U. exact Hu.
    + rewrite M'. exact Hm.
  - apply (is_over f h pid base w' s'); [congruence | exact Hs' | | ].
    + rewrite U. exact Hu.
    + rewrite M'. exact Hm.
Qed.

Lemma seqZ_snoc (k : Z) : 0 <= k -> seqZ 0 (k + 1) = seqZ 0 k ++ [k].
Proof.
  intros Hk. rewrite (seqZ_app 0 k 1) by lia.
  rewrite (seqZ_cons (0 + k) 1), (seqZ_nil (Z.succ (0 + k)) (Z.pred 1)) by lia. reflexivity.
Qed.

Lemma progress_callback f h pid base w e w' :
  0 <= size f ->
  progress f h pid base w -> callback_of pid e = true -> step w e = Some w' ->
  progress f h pid base w'.
Proof.
  intros Hsz P B H.
  pose proof (Math_ceil_div_MiB (size f) Hsz) as (T0 & T1 & T2).
  set (total := Math_ceil_div (size f) MiB) in *.
  destruct e; try discriminate B; cbn [callback_of] in B; apply Nat.eqb_eq in B; subst pid0;
    cbn [step] in H.
  - (* the read of a chunk is over *)
    destruct P as [k s L Hk Hu Hm | k s L Hk Hu Hm | s Hws Hs Hu Hm];
      [|unfold reader_onload in H; rewrite Hu in H; discriminate H..].
    rewrite (reader_onload_live f h now emsg pid total k _ w s L Hu) in H.
    injection H as <-. destruct L as (Hws & Hs & Hr & Hf).
    apply (in_delay f h pid base _ k
             (set_sent (sent s ++ [file_chunk k total (name f) (chunk_blob f k)]) s));
      [|exact Hk| |].
    + repeat split; try assumption. cbn [sockets set_uploads set_sockets].
      apply list_lookup_insert_eq, (lookup_lt_Some _ _ _ Hs).
    + cbn [uploads set_uploads]. apply list_lookup_insert_eq, (lookup_lt_Some _ _ _ Hu).
    + cbn [sent set_sent]. rewrite file_messages_snoc, Hm. cbn [is_file_message].
      rewrite seqZ_snoc, map_app by lia. rewrite <- app_assoc. reflexivity.
  - (* the delay after a chunk is over *)
    destruct P as [k s L Hk Hu Hm | k s L Hk Hu Hm | s Hws Hs Hu Hm];
      [unfold delay_elapsed in H; rewrite Hu in H; discriminate H | |
       unfold delay_elapsed in H; rewrite Hu in H; discriminate H].
    rewrite (delay_elapsed_waiting now emsg pid total k w Hu) in H. injection H as <-.
    pose proof L as (Hws & Hs & Hr & Hf).
    destruct (Z.lt_ge_cases (k + 1) total) as [Hlt|Hge].
    + rewrite (loop_reads f h now emsg total (k + 1) w s L) by (change MiB with 1048576 in *; lia).
      apply (in_read f h pid base _ (k + 1) s); [exact L | lia | | exact Hm].
      unfold park. cbn [uploads set_uploads set_reads fst snd].
      apply list_lookup_insert_eq, (lookup_lt_Some _ _ _ Hu).
    + assert (E : k + 1 = total) by lia.
      rewrite (loop_completes f h now emsg total (k + 1) w s L) by lia.
      apply (is_over f h pid base _
               (set_sent (sent s ++ [file_complete (name f) total]) s)).
      * exact Hws.
      * unfold park. cbn [sockets set_uploads fst sendFileChunks_finally upd set_sockets].
        apply list_lookup_insert_eq, (lookup_lt_Some _ _ _ Hs).
      * unfold park. cbn [uploads set_uploads fst snd sendFileChunks_finally upd set_sockets].
        apply list_lookup_insert_eq, (lookup_lt_Some _ _ _ Hu).
      * cbn [sent set_sent]. rewrite file_messages_snoc, Hm, E. cbn [is_file_message].
        rewrite <- app_assoc. reflexivity.
Qed.

Lemma progress_start f h now emsg w s :
  live f h w s -> 0 <= size f ->
  progress f h (length (uploads w)) (file_messages (sent s)) (sendFileChunks now emsg w).
Proof.
  intros L Hsz. pose proof L as (Hws & Hs & Hr & Hf).
  pose proof (Math_ceil_div_MiB (size f) Hsz) as (T0 & T1 & T2).
  unfold sendFileChunks. rewrite Hf. cbv zeta.
  change (Math_ceil_div (size f) (1024 * 1024)) with (Math_ceil_div (size f) MiB).
  set (total := Math_ceil_div (size f) MiB) in *.
  set (w1 := upd (set_isUploadingFile true)
               (upd (set_isChatEnabled false) (upd (set_isSendingFile true) w))).
  assert (L1 : live f h w1 s) by exact L.
  destruct (Z.eq_dec total 0) as [E0|N0].
  - rewrite (loop_completes f h now emsg total 0 w1 s L1) by lia. cbv iota beta.
    apply (is_over f h _ _ _ (set_sent (sent s ++ [file_complete (name f) total]) s)).
    + exact Hws.
    + cbn [sockets set_uploads sendFileChunks_finally upd set_sockets w1].
      apply list_lookup_insert_eq, (lookup_lt_Some _ _ _ Hs).
    + cbn [uploads set_uploads sendFileChunks_finally upd set_sockets w1].
      rewrite lookup_app_r, Nat.sub_diag by reflexivity. reflexivity.
    + cbn [sent set_sent]. rewrite file_messages_snoc. fold total. rewrite E0. reflexivity.
  - rewrite (loop_reads f h now emsg total 0 w1 s L1) by (change MiB with 1048576 in *; lia).
    cbv iota beta.
    apply (in_read f h _ _ _ 0 s); [exact L | fold total; lia | |].
    + cbn [uploads set_uploads set_reads w1 upd].
      rewrite lookup_app_r, Nat.sub_diag by reflexivity. reflexivity.
    + symmetry. apply app_nil_r.
Qed.

(** Whatever the interleaving of its own callbacks with bystanders, the
    call keeps to its protocol. *)
Lemma progress_exec f h pid base es :
  0 <= size f ->
  forall w w', progress f h pid base w ->
  forallb (fun e => bystander e || callback_of pid e) es = true ->
  exec w es = Some w' -> progress f h pid base w'.
Proof.
  intros Hsz. induction es as [|e es IH]; intros w w' P X H; cbn [exec forallb] in *.
  - injection H as <-. exact P.
  - apply andb_true_iff in X as [X1 X2].
    destruct (step w e) as [w1|] eqn:E; [|discriminate H].
    apply (IH w1 w'); [|exact X2|exact H].
    apply orb_true_iff in X1 as [B|B].
    + apply (progress_bystander f h pid base w e w1 P B E).
    + apply (progress_callback f h pid base w e w1 Hsz P B E).
Qed.

(** C1. On a connected session (the handle names an open socket) holding
    a file of [S] bytes whose reads all succeed, one uninterrupted call of
    [sendFileChunks] transmits, after what the socket had already sent,
    exactly the [file_chunk] messages of indices 0, 1, ..., [total - 1] in
    this order, where [total] is the ceiling of [S / 1 MiB], chunk [i]
    carrying the bytes from [i * 1 MiB] to [min ((i + 1) * 1 MiB, S)], and
    then one [file_complete]; the bytes read are those of these chunks;
    the call is then over.  For 2.5 MiB these are three chunks of sizes
    1 MiB, 1 MiB and 0.5 MiB and the completion message.  Inbound messages
    and chat input coming between the segments of the call change nothing
    to this: once the call is over, the upload messages the socket has
    sent since the call are these chunks in this order and then the
    completion message. *)
Theorem sendFileChunks_sends_chunks_in_order (readOk : Z -> bool) (now emsg : string)
    (w : World) (h : nat) (s : WebSocket) (f : File) :
  ws (vm w) = Some h ->
  sockets w !! h = Some s ->
  readyState s = OPEN ->
  currentFile (vm w) = Some f ->
  0 <= size f ->
  (forall i, 0 <= i < Math_ceil_div (size f) MiB -> readOk i = true) ->
  let total := Math_ceil_div (size f) MiB in
  let w' := sendFileChunks_run readOk now emsg w in
  (0 <= total /\ (total - 1) * MiB < size f <= total * MiB) /\
  sockets w' =
    <[h := set_sent (sent s ++ map (chunk_message f total) (seqZ 0 total)
                            ++ [file_complete (name f) total]) s]> (sockets w) /\
  length (map (chunk_message f total) (seqZ 0 total)) = Z.to_nat total /\
  reads w' = reads w ++ map (chunk_blob f) (seqZ 0 total) /\
  uploads w' !! length (uploads w) = Some Finished /\
  (size f = 2621440 ->
   map (chunk_message f total) (seqZ 0 total) ++ [file_complete (name f) total] =
     [file_chunk 0 3 (name f) {| blob_file := f; blob_start := 0; blob_end := 1048576 |};
      file_chunk 1 3 (name f) {| blob_file := f; blob_start := 1048576; blob_end := 2097152 |};
      file_chunk 2 3 (name f) {| blob_file := f; blob_start := 2097152; blob_end := 2621440 |};
      file_complete (name f) 3] /\
   map blob_size (map (chunk_blob f) (seqZ 0 total)) = [1048576; 1048576; 524288]) /\
  (forall es w'',
     forallb (fun e => bystander e || callback_of (length (uploads w)) e) es = true ->
     exec (sendFileChunks now emsg w) es = Some w'' ->
     uploads w'' !! length (uploads w) = Some Finished ->
     exists s'', sockets w'' !! h = Some s'' /\
       file_messages (sent s'') =
         file_messages (sent s) ++ map (chunk_message f total) (seqZ 0 total)
           ++ [file_complete (name f) total]).
Proof.
  intros Hws Hs Hr Hf Hsz Hok total w'.
  destruct (sendFileChunks_run_live readOk now emsg w h s f) as (_ & S & U & R & _);
    [repeat split; assumption | exact Hsz | exact Hok |].
  fold total in S, R. fold w' in S, U, R.
  split; [apply (Math_ceil_div_MiB (size f) Hsz)|].
  split; [exact S|].
  split; [rewrite length_map, length_seqZ; reflexivity|].
  split; [exact R|].
  split; [rewrite U, lookup_app_r, Nat.sub_diag by reflexivity; reflexivity|].
  split; [intros E; subst total; unfold chunk_message, chunk_blob; rewrite E;
          split; reflexivity|].
  intros es w'' X H Hfin.
  assert (L : live f h w s) by (repeat split; assumption).
  destruct (progress_exec f h _ _ es Hsz _ _ (progress_start f h now emsg w s L Hsz) X H)
    as [k s' _ _ Hu _ | k s' _ _ Hu _ | s' _ Hs' _ Hm];
    [rewrite Hu in Hfin; discriminate Hfin.. | exists s'; split; assumption].
Qed.

Lemma sendFileChunks_sends_chunks_in_order_witness :
  let w' := sendFileChunks_run (fun _ => true) "10:00:02" "" ready_to_upload in
  let w'' := default created (exec (sendFileChunks "10:00:02" "" ready_to_upload) interleaved) in
  exists s,
    sockets ready_to_upload !! 0%nat = Some s /\
    sockets w' =
      <[0%nat := set_sent (sent s ++ map (chunk_message log25 3) (seqZ 0 3)
                             ++ [file_complete "flight.bin" 3]) s]> (sockets ready_to_upload) /\
    reads w' = reads ready_to_upload ++ map (chunk_blob log25) (seqZ 0 3) /\
    exists s'', sockets w'' !! 0%nat = Some s'' /\
      file_messages (sent s'') =
        file_messages (sent s) ++ map (chunk_message log25 3) (seqZ 0 3)
          ++ [file_complete "flight.bin" 3].
Proof.
  intros w' w''. eexists. split; [reflexivity|].
  pose proof (sendFileChunks_sends_chunks_in_order (fun _ => true) "10:00:02" ""
                ready_to_upload 0%nat _ log25 eq_refl eq_refl eq_refl eq_refl
                ltac:(discriminate) ltac:(reflexivity)) as (_ & S & _ & R & _ & _ & I).
  split; [exact S|]. split; [exact R|].
  apply (I interleaved w''); [reflexivity | vm_compute; reflexivity | reflexivity].
Defined.

(** ** Uploading without a connection *)


Lemma loop_reads_file t i now emsg w f :
  currentFile (vm w) = Some f -> 0 <= i -> i < t -> i * MiB < size f ->
  sendFileChunks_loop t i now emsg w =
    (set_reads (reads w ++ [chunk_blob f i]) w, Reading t i (chunk_blob f i)).
Proof.
  intros Hf Hi Hlt Hsz. unfold sendFileChunks_loop. cbv zeta.
  apply Z.ltb_lt in Hlt. rewrite Hlt, Hf, (slice_chunk f i Hi Hsz). reflexivity.
Qed.





(** ** After a successful upload *)

Lemma router_clears_isUploadingFile (m : Message) (w : World) :
  isUploadingFile (vm w) = true ->
  (isUploadingFile (vm (onMessageReceived m w)) = false <-> clears_upload m).
Proof.
  intros Hup. unfold onMessageReceived, clears_upload. rewrite vm_scrollToBottom.
  destruct m as [ty c t]. cbn [type content timestamp].
  destruct (String.eqb_spec ty "chat") as [->|Nchat].
  { destruct (c === _); cbn; rewrite Hup;
      (split; [discriminate | intros [[T _]|T]; discriminate T]). }
  destruct (String.eqb_spec ty "system") as [->|Nsys].
  { destruct (String.prefix "File saved successfully:" c) eqn:Es.
    - destruct (file_saved_not_suppressed c Es) as (E1 & E2 & E3 & E4).
      rewrite E1, E2, E3, E4. cbn. split; [intros _; left; split; [reflexivity|left; reflexivity]
                                          | reflexivity].
    - destruct (String.prefix "Log file processed successfully:" c) eqn:El.
      + destruct (log_processed_not_suppressed c El) as (E1 & E2 & E3).
        rewrite E1, E2, E3. cbn.
        split; [intros _; left; split; [reflexivity|right; reflexivity] | reflexivity].
      + destruct (_ || _); [|destruct (c === _)]; cbn; rewrite Hup;
          (split; [discriminate | intros [[_ [P|P]]|T]; discriminate]). }
  destruct (String.eqb_spec ty "acknowledgment") as [->|Nack].
  { rewrite Hup. split; [discriminate | intros [[T _]|T]; discriminate T]. }
  destruct (String.eqb_spec ty "error") as [->|Nerr].
  { cbn. split; [intros _; right; reflexivity | reflexivity]. }
  rewrite Hup. split; [discriminate | intros [[T _]|T]; contradiction].
Qed.

Lemma router_keeps_isChatEnabled (m : Message) (w : World) :
  isChatEnabled (vm (onMessageReceived m w)) = isChatEnabled (vm w).
Proof. apply (onMessageReceived_frame isChatEnabled). solve_blind. Qed.

(** C10, the claim as it stands fails for [isChatEnabled], whichever way
    "cleared only by" is read.  After a successful upload none of the
    inbound messages named by the claim gives chat input back: the router
    leaves [isChatEnabled] false.  And both flags can be reset with no
    inbound message at all, by the failure path of a later upload. *)
Lemma chat_stays_disabled_after_upload :
  isUploadingFile (vm upload_done) = true /\
  isChatEnabled (vm upload_done) = false /\
  isChatEnabled (vm (onMessageReceived file_saved upload_done)) = false /\
  isChatEnabled (vm (onMessageReceived log_processed
                       (onMessageReceived file_saved upload_done))) = false /\
  isChatEnabled (vm (onMessageReceived server_error upload_done)) = false /\
  (exists w, exec upload_done failing_upload = Some w /\
     forallb (fun e => negb (routes e)) failing_upload = true /\
     isUploadingFile (vm w) = false /\
     isChatEnabled (vm w) = true).
Proof.
  repeat split. eexists. split; [vm_compute; reflexivity|]. repeat split.
Qed.

(** C10, amended.  When [sendFileChunks] completes on a connected session
    whose reads all succeed, the component is as it was at the call but
    for [isUploadingFile], now true, [isChatEnabled], now false,
    [isSendingFile], false, and [currentFile], null.  From then on the
    router clears [isUploadingFile] exactly on a [system] message that
    starts with ["File saved successfully:"] or with
    ["Log file processed successfully:"] and on an [error] message; it
    never writes [isChatEnabled], so that flag stays false through every
    routed message.  In a step of the event loop [isChatEnabled] changes
    only in a segment of the uploader or in the method [onMessage]. *)
Theorem upload_success_keeps_flags (readOk : Z -> bool) (now emsg : string)
    (w : World) (h : nat) (s : WebSocket) (f : File) :
  ws (vm w) = Some h ->
  sockets w !! h = Some s ->
  readyState s = OPEN ->
  currentFile (vm w) = Some f ->
  0 <= size f ->
  (forall i, 0 <= i < Math_ceil_div (size f) MiB -> readOk i = true) ->
  let w' := sendFileChunks_run readOk now emsg w in
  vm w' = set_isSendingFile false (set_currentFile None
            (set_isUploadingFile true (set_isChatEnabled false (vm w)))) /\
  isUploadingFile (vm w') = true /\
  isChatEnabled (vm w') = false /\
  (forall m, isUploadingFile (vm (onMessageReceived m w')) = false <-> clears_upload m) /\
  (forall m, isChatEnabled (vm (onMessageReceived m w')) = false) /\
  (forall w1 e w2, step w1 e = Some w2 ->
     isChatEnabled (vm w2) <> isChatEnabled (vm w1) ->
     uploads_file e = true \/ exists p, e = CallOnMessage p).
Proof.
  intros Hws Hs Hr Hf Hsz Hok w'.
  destruct (sendFileChunks_run_live readOk now emsg w h s f) as (V & _);
    [repeat split; assumption | exact Hsz | exact Hok |].
  fold w' in V.
  assert (U : isUploadingFile (vm w') = true) by (rewrite V; reflexivity).
  assert (C : isChatEnabled (vm w') = false) by (rewrite V; reflexivity).
  split; [rewrite V; reflexivity|]. split; [exact U|]. split; [exact C|].
  split; [intros m; apply router_clears_isUploadingFile, U|].
  split; [intros m; rewrite router_keeps_isChatEnabled; exact C|].
  intros w1 e w2 H N.
  destruct e; cbn [uploads_file]; auto; try (right; eexists; reflexivity);
    exfalso; apply N; (refine (step_frame _ _ _ _ _ H); solve_blind).
Qed.

Lemma upload_success_keeps_flags_witness :
  isUploadingFile (vm upload_done) = true /\
  isChatEnabled (vm upload_done) = false /\
  (isUploadingFile (vm (onMessageReceived file_saved upload_done)) = false <->
   clears_upload file_saved).
Proof.
  destruct (upload_success_keeps_flags (fun _ => true) "10:00:02" "" ready_to_upload
              0%nat _ log25 eq_refl eq_refl eq_refl eq_refl
              ltac:(discriminate) ltac:(reflexivity)) as (_ & U & C & R & _).
  split; [exact U|]. split; [exact C|]. exact (R file_saved).
Defined.

(** * Further properties *)

(** ** Routing the other message types *)

(** X1. An inbound [chat] message whose content is the marker
    ["Processing your question..."] only sets [isProcessingQuestion]; any
    other [chat] message only clears that flag and appends one [server]
    entry with the content and the timestamp of the message. *)
Theorem chat_message_routing (c t : string) (w : World) :
  let m := {| type := "chat"; content := c; timestamp := t |} in
  let w' := onMessageReceived m w in
  (c = "Processing your question..." -> vm w' = set_isProcessingQuestion true (vm w)) /\
  (c <> "Processing your question..." ->
   vm w' = set_messages
             (messages (vm w) ++ [{| type := "server"; content := c; timestamp := t |}])
             (set_isProcessingQuestion false (vm w))).
Proof.
  cbv zeta. unfold onMessageReceived. rewrite vm_scrollToBottom. cbn [type content timestamp].
  change ("chat" === "chat") with true. cbv iota. split.
  - intros ->. reflexivity.
  - intros N. rewrite (eqb_false_of_neq _ _ N). reflexivity.
Qed.

Lemma chat_message_routing_witness :
  let marker := {| type := "chat"; content := "Processing your question...";
                   timestamp := "10:00:05" |} in
  let answer := {| type := "chat"; content := "The highest altitude was 120 m";
                   timestamp := "10:00:09" |} in
  let w1 := onMessageReceived marker created in
  let w2 := onMessageReceived answer w1 in
  vm w1 = set_isProcessingQuestion true (vm created) /\
  vm w2 = set_messages
            [{| type := "server"; content := "The highest altitude was 120 m";
                timestamp := "10:00:09" |}]
            (set_isProcessingQuestion false (vm w1)).
Proof.
  intros marker answer w1 w2. split.
  - exact (proj1 (chat_message_routing "Processing your question..." "10:00:05" created)
             eq_refl).
  - apply (proj2 (chat_message_routing "The highest altitude was 120 m" "10:00:09" w1)).
    discriminate.
Defined.

(** X2. A message whose type is none of [chat], [system] and [error] (an
    [acknowledgment], or a type the router does not know) changes nothing
    but for the one scroll request every routed message makes. *)
Theorem other_types_ignored (m : Message) (w : World) :
  type m <> "chat" -> type m <> "system" -> type m <> "error" ->
  onMessageReceived m w = scrollToBottom w.
Proof.
  intros N1 N2 N3. unfold onMessageReceived.
  rewrite (eqb_false_of_neq _ _ N1), (eqb_false_of_neq _ _ N2), (eqb_false_of_neq _ _ N3).
  destruct (type m === "acknowledgment"); reflexivity.
Qed.

Lemma other_types_ignored_witness :
  onMessageReceived {| type := "acknowledgment"; content := "chunk 3 received";
                       timestamp := "10:00:04" |} busy = scrollToBottom busy /\
  onMessageReceived {| type := "typing"; content := ""; timestamp := "10:00:04" |} busy
    = scrollToBottom busy.
Proof.
  split; apply other_types_ignored; discriminate.
Defined.

(** ** Sending a chat message *)

(** *** Text

    Decoding gives back the code points a text was made of, so the test
    of [sendMessage] on the text box is a test on its code points. *)

Ltac decide_bounds :=
  repeat first [rewrite (proj2 (N.leb_le _ _)) by lia
               | rewrite (proj2 (N.ltb_lt _ _)) by lia
               | rewrite (proj2 (N.ltb_ge _ _)) by lia
               | rewrite (proj2 (N.leb_gt _ _)) by lia].

Lemma two_bytes_utf8 cp :
  (128 <= cp < 2048)%N -> two_bytes (192 + cp / 64) (128 + cp mod 64) = Some cp.
Proof.
  intros H. pose proof (N.div_mod' cp 64) as D. pose proof (N.mod_lt cp 64 ltac:(lia)) as M.
  set (q := (cp / 64)%N) in *. set (r := (cp mod 64)%N) in *. clearbody q r.
  unfold two_bytes, is_continuation. decide_bounds. cbn [andb]. f_equal. lia.
Qed.

Lemma three_bytes_utf8 cp :
  (2048 <= cp < 65536)%N -> is_scalar cp = true ->
  three_bytes (224 + cp / 4096) (128 + (cp / 64) mod 64) (128 + cp mod 64) = Some cp.
Proof.
  intros H S. pose proof (N.div_mod' cp 64) as D. pose proof (N.mod_lt cp 64 ltac:(lia)) as M.
  pose proof (N.div_mod' (cp / 64) 64) as D2.
  pose proof (N.mod_lt (cp / 64) 64 ltac:(lia)) as M2.
  rewrite N.Div0.div_div in D2. change (64 * 64)%N with 4096%N in D2.
  set (r2 := ((cp / 64) mod 64)%N) in *. set (q := (cp / 64)%N) in *.
  set (r := (cp mod 64)%N) in *. set (q2 := (cp / 4096)%N) in *. clearbody q r q2 r2.
  unfold three_bytes, is_continuation. cbv zeta.
  replace ((224 + q2 - 224) * 4096 + (128 + r2 - 128) * 64 + (128 + r - 128))%N
    with cp by lia.
  decide_bounds. cbn [andb].
  unfold is_scalar in S. apply orb_true_iff in S as [S|S].
  - apply N.ltb_lt in S. decide_bounds. reflexivity.
  - apply andb_true_iff in S as [S _]. apply N.leb_le in S. decide_bounds.
    rewrite andb_false_r. reflexivity.
Qed.

Lemma four_bytes_utf8 cp :
  (65536 <= cp < 1114112)%N ->
  four_bytes (240 + cp / 262144) (128 + (cp / 4096) mod 64) (128 + (cp / 64) mod 64)
    (128 + cp mod 64) = Some cp.
Proof.
  intros H. pose proof (N.div_mod' cp 64) as D. pose proof (N.mod_lt cp 64 ltac:(lia)) as M.
  pose proof (N.div_mod' (cp / 64) 64) as D2.
  pose proof (N.mod_lt (cp / 64) 64 ltac:(lia)) as M2.
  rewrite N.Div0.div_div in D2. change (64 * 64)%N with 4096%N in D2.
  pose proof (N.div_mod' (cp / 4096) 64) as D3.
  pose proof (N.mod_lt (cp / 4096) 64 ltac:(lia)) as M3.
  rewrite N.Div0.div_div in D3. change (4096 * 64)%N with 262144%N in D3.
  set (r3 := ((cp / 4096) mod 64)%N) in *. set (r2 := ((cp / 64) mod 64)%N) in *.
  set (q := (cp / 64)%N) in *. set (r := (cp mod 64)%N) in *.
  set (q2 := (cp / 4096)%N) in *. set (q3 := (cp / 262144)%N) in *.
  clearbody q r q2 r2 q3 r3.
  unfold four_bytes, is_continuation. cbv zeta.
  replace ((240 + q3 - 240) * 262144 + (128 + r3 - 128) * 4096
           + (128 + r2 - 128) * 64 + (128 + r - 128))%N with cp by lia.
  decide_bounds. reflexivity.
Qed.

Lemma two_bytes_none b0 b1 : (224 <= b0)%N -> two_bytes b0 b1 = None.
Proof. intros H. unfold two_bytes. decide_bounds. rewrite andb_false_r. reflexivity. Qed.

Lemma three_bytes_none b0 b1 b2 : (240 <= b0)%N -> three_bytes b0 b1 b2 = None.
Proof. intros H. unfold three_bytes. cbv zeta. decide_bounds. rewrite andb_false_r. reflexivity. Qed.

Lemma N_of_ascii_byte b : (b < 256)%N -> Ascii.N_of_ascii (Ascii.ascii_of_N b) = b.
Proof. apply Ascii.N_ascii_embedding. Qed.

Lemma code_points_text_of cps :
  forallb is_scalar cps = true -> code_points (text_of cps) = cps.
Proof.
  induction cps as [|cp rest IH]; [reflexivity|]. cbn [forallb]. intros H.
  apply andb_true_iff in H as [S H]. specialize (IH H). cbn [text_of]. unfold utf8.
  assert (B : (cp < 1114112)%N).
  { unfold is_scalar in S. apply orb_true_iff in S as [S|S].
    - apply N.ltb_lt in S. lia.
    - apply andb_true_iff in S as [_ S]. apply N.ltb_lt in S. exact S. }
  pose proof (N.mod_lt cp 64 ltac:(lia)) as M.
  pose proof (N.mod_lt (cp / 64) 64 ltac:(lia)) as M2.
  pose proof (N.mod_lt (cp / 4096) 64 ltac:(lia)) as M3.
  pose proof (N.Div0.div_lt_upper_bound cp 64 32) as Q1.
  pose proof (N.Div0.div_lt_upper_bound cp 4096 16) as Q2.
  pose proof (N.Div0.div_lt_upper_bound cp 262144 8) as Q3.
  pose proof (N.div_le_lower_bound cp 64 2 ltac:(lia)) as P1.
  pose proof (N.div_le_lower_bound cp 4096 0 ltac:(lia)) as P2.
  destruct (N.ltb_spec cp 128) as [L1|L1]; [|destruct (N.ltb_spec cp 2048) as [L2|L2];
    [|destruct (N.ltb_spec cp 65536) as [L3|L3]]];
    cbn [fold_right code_points].
  - rewrite N_of_ascii_byte by lia. decide_bounds. rewrite IH. reflexivity.
  - pose proof (two_bytes_utf8 cp ltac:(lia)) as T.
    set (r := (cp mod 64)%N) in *. set (q := (cp / 64)%N) in *. clearbody q r.
    rewrite !N_of_ascii_byte by lia. decide_bounds. rewrite T, IH. reflexivity.
  - pose proof (three_bytes_utf8 cp ltac:(lia) S) as T.
    set (r2 := ((cp / 64) mod 64)%N) in *. set (r := (cp mod 64)%N) in *.
    set (q2 := (cp / 4096)%N) in *. clearbody r r2 q2.
    rewrite !N_of_ascii_byte by lia. decide_bounds.
    rewrite two_bytes_none by lia. rewrite T, IH. reflexivity.
  - pose proof (four_bytes_utf8 cp ltac:(lia)) as T.
    set (r3 := ((cp / 4096) mod 64)%N) in *. set (r2 := ((cp / 64) mod 64)%N) in *.
    set (r := (cp mod 64)%N) in *. set (q3 := (cp / 262144)%N) in *. clearbody r r2 r3 q3.
    rewrite !N_of_ascii_byte by lia. decide_bounds.
    rewrite two_bytes_none, three_bytes_none by lia. rewrite T, IH. reflexivity.
Qed.

Lemma trims_to_empty_text_of cps :
  forallb is_scalar cps = true ->
  trims_to_empty (text_of cps) = forallb is_white_space cps.
Proof. intros H. unfold trims_to_empty. rewrite (code_points_text_of cps H). reflexivity. Qed.

(** [trim] strips the white space beyond ASCII as well: a text of
    no-break spaces, line separators, byte order marks and the like is
    blank, a text with one other code point in it is not. *)
Lemma trims_to_empty_examples :
  trims_to_empty (text_of [160]%N) = true /\
  trims_to_empty (String (Ascii.ascii_of_N 160) "") = true /\
  trims_to_empty (text_of [65279; 8232; 8233; 5760; 8192; 8202; 8239; 8287; 12288]%N) = true /\
  trims_to_empty (text_of [9; 10; 11; 12; 13; 32]%N) = true /\
  trims_to_empty "" = true /\
  trims_to_empty (text_of [160; 104; 105; 160]%N) = false /\
  trims_to_empty (text_of [133]%N) = false /\
  trims_to_empty (text_of [8203]%N) = false.
Proof. repeat split. Qed.

(** X3. [sendMessage] does nothing at all when the text is blank (it is
    empty, or each of its code points is white space for [trim], the
    white space beyond ASCII included), when [isConnected] is false or
    when there is no socket handle: nothing is sent, nothing is appended
    and the text box keeps its content. *)
Theorem sendMessage_refused (now : string) (w : World) :
  trims_to_empty (newMessage (vm w)) = true \/ isConnected (vm w) = false \/
  ws (vm w) = None ->
  sendMessage now w = w.
Proof.
  intros H. unfold sendMessage. cbv zeta.
  destruct H as [-> | [-> | ->]]; [reflexivity | | ].
  - rewrite orb_true_r. reflexivity.
  - rewrite orb_true_r. reflexivity.
Qed.

Lemma sendMessage_refused_witness :
  sendMessage "10:00:07" (upd (set_newMessage "  ") just_connected)
    = upd (set_newMessage "  ") just_connected /\
  sendMessage "10:00:07" (upd (set_newMessage "Hello") created)
    = upd (set_newMessage "Hello") created /\
  sendMessage "10:00:07" blank_typed = blank_typed.
Proof.
  split; [|split]; apply sendMessage_refused; [left | right; left | left]; reflexivity.
Defined.

(** X4. When [sendMessage] goes ahead (text not blank, that is with a
    code point that [trim] does not strip, [isConnected] set, a handle),
    what happens depends on the state of the socket the handle names.  Open: the chat message is transmitted, the [user] entry is
    appended, [isProcessingQuestion] is reset and the text box is emptied.
    Still connecting: [send] throws, nothing is transmitted, the [user]
    entry is followed by the entry ["Failed to send message. Please try
    again."] and the text box keeps the text.  Closing or closed: nothing
    is transmitted either, but the component behaves as if the message had
    gone out: the [user] entry is appended, the text box is emptied and no
    failure is shown. *)
Theorem sendMessage_outcomes (now : string) (w : World) (h : nat) (s : WebSocket) :
  trims_to_empty (newMessage (vm w)) = false ->
  isConnected (vm w) = true ->
  ws (vm w) = Some h ->
  sockets w !! h = Some s ->
  let text := newMessage (vm w) in
  let w' := sendMessage now w in
  let accepted :=
    set_newMessage ""
      (set_messages (messages (vm w) ++ [user_entry text now])
         (set_isProcessingQuestion false (vm w))) in
  match readyState s with
  | OPEN =>
      sockets w' = <[h := set_sent (sent s ++ [chat text now]) s]> (sockets w) /\
      vm w' = accepted
  | CONNECTING =>
      sockets w' = sockets w /\
      vm w' = set_messages (messages (vm w) ++ [user_entry text now; send_failed_entry now])
                (set_isProcessingQuestion false (vm w))
  | CLOSING | CLOSED =>
      sockets w' = sockets w /\ vm w' = accepted
  end.
Proof.
  intros T C W S text w' accepted. subst w' accepted text.
  unfold sendMessage. cbv zeta. rewrite T, C, W. cbn [orb negb isNull].
  unfold ws_send, socket_send. cbn [vm upd push sockets ws set_messages set_isProcessingQuestion].
  rewrite W, S.
  destruct (readyState s); cbn [vm upd push scrollToBottom set_scrolls set_sockets sockets];
    [split; [reflexivity|] | split; reflexivity..].
  cbn [messages set_messages set_isProcessingQuestion]. rewrite <- app_assoc. reflexivity.
Qed.

Lemma sendMessage_outcomes_witness :
  exists s, sockets question_typed !! 0%nat = Some s /\ readyState s = OPEN /\
    sockets (sendMessage "10:00:07" question_typed) =
      <[0%nat := set_sent (sent s ++ [chat "What was the highest altitude?" "10:00:07"]) s]>
        (sockets question_typed) /\
    newMessage (vm (sendMessage "10:00:07" question_typed)) = "".
Proof.
  eexists. split; [reflexivity|]. split; [reflexivity|].
  pose proof (sendMessage_outcomes "10:00:07" question_typed 0%nat _
                eq_refl eq_refl eq_refl eq_refl) as H.
  cbv zeta in H. cbn [readyState] in H. destruct H as [S V].
  split; [exact S|]. rewrite V. reflexivity.
Defined.

(** ** Telemetry *)

(** X5. [updateParsedData] always records the snapshot in [parsedData] and
    writes no other field.  The snapshot goes out, as one [data] message
    of kind [parsed_data] on the socket of the handle, exactly when that
    socket is open; otherwise nothing is transmitted and nothing is kept
    for later: sockets, timers and uploads are as before. *)
Theorem telemetry_sent_only_when_open (snapshot now : string) (w : World) :
  let w' := updateParsedData snapshot now w in
  vm w' = set_parsedData (Some snapshot) (vm w) /\
  timers w' = timers w /\ uploads w' = uploads w /\
  (wsIsOpen w = false -> sockets w' = sockets w) /\
  (forall h s, ws (vm w) = Some h -> sockets w !! h = Some s -> readyState s = OPEN ->
     sockets w' = <[h := set_sent (sent s ++ [data "parsed_data" snapshot now]) s]> (sockets w)).
Proof.
  cbv zeta. unfold updateParsedData, sendDataToBackend.
  change (wsIsOpen (upd (set_parsedData (Some snapshot)) w)) with (wsIsOpen w).
  destruct (wsIsOpen w) eqn:O; cbn [negb].
  - unfold wsIsOpen in O. unfold ws_send, socket_send. cbn [vm upd ws set_parsedData sockets].
    destruct (ws (vm w)) as [h|]; [|discriminate O].
    destruct (sockets w !! h) as [s|] eqn:E; [|discriminate O].
    destruct (readyState s) eqn:R; try discriminate O.
    repeat split; try discriminate.
    intros h' s' [= <-] S' _. rewrite E in S'. injection S' as <-. reflexivity.
  - repeat split. intros h s W S R. unfold wsIsOpen in O. rewrite W, S, R in O. discriminate O.
Qed.

Lemma telemetry_sent_only_when_open_witness :
  sockets (updateParsedData "{}" "10:00:00" created) = sockets created /\
  exists s, sockets just_connected !! 0%nat = Some s /\
    sockets (updateParsedData "{}" "10:00:02" just_connected) =
      <[0%nat := set_sent (sent s ++ [data "parsed_data" "{}" "10:00:02"]) s]>
        (sockets just_connected).
Proof.
  split.
  - exact (proj1 (proj2 (proj2 (proj2 (telemetry_sent_only_when_open "{}" "10:00:00" created))))
             eq_refl).
  - eexists. split; [reflexivity|].
    exact (proj2 (proj2 (proj2 (proj2 (telemetry_sent_only_when_open "{}" "10:00:02"
             just_connected)))) 0%nat _ eq_refl eq_refl eq_refl).
Defined.

(** ** More on connecting and disconnecting *)

(** X6. [disconnectWebSocket] is idempotent, and it is a no-op without a
    handle.  With a handle it touches at most the socket the handle
    names: an open one starts closing, one in any other state is left as
    it is (a socket still connecting is not aborted). *)
Theorem disconnectWebSocket_idempotent (w : World) :
  disconnectWebSocket (disconnectWebSocket w) = disconnectWebSocket w /\
  (ws (vm w) = None -> disconnectWebSocket w = w) /\
  (forall h s, ws (vm w) = Some h -> sockets w !! h = Some s ->
     sockets (disconnectWebSocket w) =
       match readyState s with
       | OPEN => <[h := set_readyState CLOSING s]> (sockets w)
       | _ => sockets w
       end).
Proof.
  split; [|split].
  - destruct (disconnectWebSocket_world w) as (W & _).
    unfold disconnectWebSocket at 1. rewrite W. reflexivity.
  - intros W. unfold disconnectWebSocket. rewrite W. reflexivity.
  - intros h s W S. unfold disconnectWebSocket, wsIsOpen, socket_close. rewrite W, S.
    destruct (readyState s); reflexivity.
Qed.

Lemma disconnectWebSocket_idempotent_witness :
  exists s, sockets just_connected !! 0%nat = Some s /\
    sockets (disconnectWebSocket just_connected) =
      <[0%nat := set_readyState CLOSING s]> (sockets just_connected) /\
    disconnectWebSocket created = created.
Proof.
  eexists. split; [reflexivity|]. split.
  - exact (proj2 (proj2 (disconnectWebSocket_idempotent just_connected))
             0%nat _ eq_refl eq_refl).
  - exact (proj1 (proj2 (disconnectWebSocket_idempotent created)) eq_refl).
Defined.

(** X7. Disconnecting while the socket is still connecting does not stop
    the attempt.  The socket can still open, and when it does the
    component shows itself connected ([isConnected] true) while it holds
    no handle; in that state [sendMessage] refuses every message. *)
Theorem disconnect_while_connecting (now emsg now' : string) (w : World) (h : nat) :
  ws (vm w) = Some h ->
  state_of h w = Some CONNECTING ->
  exists w', step (disconnectWebSocket w) (SocketOpen h now emsg) = Some w' /\
    isConnected (vm w') = true /\
    ws (vm w') = None /\
    wsIsOpen w' = false /\
    sendMessage now' w' = w'.
Proof.
  intros W S.
  assert (E : disconnectWebSocket w = upd (set_isConnected false) (upd (set_ws None) w)).
  { unfold disconnectWebSocket, wsIsOpen. rewrite W. unfold state_of in S.
    destruct (sockets w !! h) as [s|]; [|discriminate S]. injection S as ->. reflexivity. }
  rewrite E. cbn [step]. change (state_of h (upd _ (upd _ w))) with (state_of h w). rewrite S.
  eexists. split; [reflexivity|].
  assert (N : ws (vm (ws_onopen h now emsg
                        (set_socket_state h OPEN
                           (upd (set_isConnected false) (upd (set_ws None) w))))) = None).
  { rewrite (ws_onopen_frame ws) by solve_blind. rewrite set_socket_state_vm. reflexivity. }
  split; [apply ws_onopen_resets|]. split; [exact N|].
  split; [unfold wsIsOpen; rewrite N; reflexivity|].
  unfold sendMessage. cbv zeta. rewrite N. cbn [isNull]. rewrite !orb_true_r. reflexivity.
Qed.

Lemma disconnect_while_connecting_witness :
  ws (vm connecting) = Some 0%nat /\
  exists w', step (disconnectWebSocket connecting) (SocketOpen 0 "10:00:01" "") = Some w' /\
    isConnected (vm w') = true /\
    ws (vm w') = None /\
    wsIsOpen w' = false /\
    sendMessage "10:00:07" w' = w'.
Proof.
  split; [reflexivity|].
  exact (disconnect_while_connecting "10:00:01" "" "10:00:07" connecting 0%nat
           eq_refl eq_refl).
Defined.

(** What a call of [connectWebSocket] that goes ahead does to the client
    id and to the sockets: the id is kept if there is one and it is not
    empty, a socket for it is added after the existing ones, which are
    left as they are. *)
Lemma connectWebSocket_sockets rnd w :
  wsIsOpen w = false ->
  exists id, id <> "" /\
    clientId (vm (fst (connectWebSocket rnd w))) = Some id /\
    (forall id0, clientId (vm w) = Some id0 -> id0 <> "" -> id = id0) /\
    (clientId (vm w) = None -> id = "client_" +:+ rnd) /\
    sockets (fst (connectWebSocket rnd w)) = sockets w ++ [new_socket id].
Proof.
  intros E. unfold connectWebSocket. rewrite E. cbv zeta.
  destruct (clientId (vm w)) as [id0|] eqn:C.
  - destruct (String.eqb_spec id0 "") as [->|N].
    + exists ("client_" +:+ rnd). repeat split; try discriminate.
      intros id1 [= <-] N. contradiction.
    + exists id0. cbn [fst vm upd set_sockets sockets clientId set_ws]. rewrite C.
      repeat split; try assumption; try discriminate. intros id1 [= <-] _. reflexivity.
  - exists ("client_" +:+ rnd). repeat split; discriminate.
Qed.

(** X8. [connectWebSocket] only looks for an open socket.  Called twice
    with no open in between, it makes two sockets: both are connecting at
    the same address, the handle names the second, and the first is left
    running with its handlers. *)
Theorem connect_twice_makes_two_sockets (rnd1 rnd2 : string) (w : World) :
  wsIsOpen w = false ->
  let w2 := fst (connectWebSocket rnd2 (fst (connectWebSocket rnd1 w))) in
  exists id, clientId (vm w2) = Some id /\
    sockets w2 = sockets w ++ [new_socket id; new_socket id] /\
    ws (vm w2) = Some (S (length (sockets w))).
Proof.
  intros E w2. subst w2.
  destruct (connectWebSocket_sockets rnd1 w E) as (id & N & C1 & _ & _ & S1).
  destruct (connectWebSocket_new rnd1 w E) as (W1 & T1 & L1 & _). cbv zeta in W1, T1, L1.
  set (w1 := fst (connectWebSocket rnd1 w)) in *.
  assert (E1 : wsIsOpen w1 = false).
  { unfold wsIsOpen. rewrite W1. unfold state_of in T1.
    destruct (sockets w1 !! length (sockets w)) as [s|]; [|reflexivity].
    injection T1 as ->. reflexivity. }
  destruct (connectWebSocket_sockets rnd2 w1 E1) as (id' & _ & C2 & K & _ & S2).
  destruct (connectWebSocket_new rnd2 w1 E1) as (W2 & _). cbv zeta in W2.
  rewrite (K id C1 N) in *. exists id. split; [exact C2|].
  split; [rewrite S2, S1, <- app_assoc; reflexivity|]. rewrite W2, L1. reflexivity.
Qed.

Lemma connect_twice_makes_two_sockets_witness :
  let w2 := fst (connectWebSocket "zzzzzzzzz" (fst (connectWebSocket "k3j9x0q2m" created))) in
  exists id, clientId (vm w2) = Some id /\
    sockets w2 = sockets created ++ [new_socket id; new_socket id] /\
    ws (vm w2) = Some 1%nat.
Proof.
  exact (connect_twice_makes_two_sockets "k3j9x0q2m" "zzzzzzzzz" created eq_refl).
Defined.

(** ** More on the upload *)

(** X9. An upload is not repeated.  After a call of [sendFileChunks] that
    completed, the file is gone from [currentFile], so a further call,
    whether made directly or by [onFileLoaded] on a later load, returns at
    once: it sends nothing and changes nothing. *)
Theorem upload_not_repeated (readOk : Z -> bool) (now emsg : string)
    (w : World) (h : nat) (s : WebSocket) (f : File) :
  ws (vm w) = Some h ->
  sockets w !! h = Some s ->
  readyState s = OPEN ->
  currentFile (vm w) = Some f ->
  0 <= size f ->
  (forall i, 0 <= i < Math_ceil_div (size f) MiB -> readOk i = true) ->
  let w' := sendFileChunks_run readOk now emsg w in
  forall (readOk' : Z -> bool) (now' emsg' : string),
    sendFileChunks now' emsg' w' = w' /\
    sendFileChunks_run readOk' now' emsg' w' = w' /\
    onFileLoaded_resume now' emsg' w' = w'.
Proof.
  intros Hws Hs Hr Hf Hsz Hok w' readOk' now' emsg'.
  destruct (sendFileChunks_run_live readOk now emsg w h s f) as (V & _);
    [repeat split; assumption | exact Hsz | exact Hok |].
  fold w' in V.
  assert (C : currentFile (vm w') = None) by (rewrite V; reflexivity).
  assert (E : sendFileChunks now' emsg' w' = w') by (unfold sendFileChunks; rewrite C; reflexivity).
  split; [exact E|]. split.
  - unfold sendFileChunks_run. rewrite C. exact E.
  - unfold onFileLoaded_resume. rewrite C. cbn [isNull negb]. rewrite andb_false_r. reflexivity.
Qed.

Lemma upload_not_repeated_witness :
  sendFileChunks "10:05:00" "" upload_done = upload_done /\
  sendFileChunks_run (fun _ => false) "10:05:00" "" upload_done = upload_done /\
  onFileLoaded_resume "10:05:00" "" upload_done = upload_done.
Proof.
  exact (upload_not_repeated (fun _ => true) "10:00:02" "" ready_to_upload 0%nat _ log25
           eq_refl eq_refl eq_refl eq_refl ltac:(discriminate) ltac:(reflexivity)
           (fun _ => false) "10:05:00" "").
Defined.

(** X10. At every moment of an upload on a connected session, also with
    inbound messages and chat input coming in between, the upload
    messages the socket has sent since the call are the chunks 0 to
    [k - 1] in this order for some [k] between 0 and the number of
    chunks; the completion message is there exactly when the call is
    over, and then all chunks precede it. *)
Theorem upload_messages_form_prefix (now emsg : string) (w : World) (h : nat)
    (s : WebSocket) (f : File) (es : list Event) (w'' : World) :
  ws (vm w) = Some h ->
  sockets w !! h = Some s ->
  readyState s = OPEN ->
  currentFile (vm w) = Some f ->
  0 <= size f ->
  forallb (fun e => bystander e || callback_of (length (uploads w)) e) es = true ->
  exec (sendFileChunks now emsg w) es = Some w'' ->
  let total := Math_ceil_div (size f) MiB in
  exists s'' k, sockets w'' !! h = Some s'' /\ 0 <= k <= total /\
    ((uploads w'' !! length (uploads w) <> Some Finished /\
      file_messages (sent s'') =
        file_messages (sent s) ++ map (chunk_message f total) (seqZ 0 k)) \/
     (uploads w'' !! length (uploads w) = Some Finished /\ k = total /\
      file_messages (sent s'') =
        file_messages (sent s) ++ map (chunk_message f total) (seqZ 0 total)
          ++ [file_complete (name f) total])).
Proof.
  intros Hws Hs Hr Hf Hsz X H total.
  assert (L : live f h w s) by (repeat split; assumption).
  pose proof (Math_ceil_div_MiB (size f) Hsz) as (T0 & _).
  destruct (progress_exec f h _ _ es Hsz _ _ (progress_start f h now emsg w s L Hsz) X H)
    as [k s' (_ & Hs' & _) Hk Hu Hm | k s' (_ & Hs' & _) Hk Hu Hm | s' _ Hs' Hu Hm].
  - exists s', k. split; [exact Hs'|]. split; [fold total in Hk; lia|]. left.
    split; [rewrite Hu; discriminate | exact Hm].
  - exists s', (k + 1). split; [exact Hs'|]. split; [fold total in Hk; lia|]. left.
    split; [rewrite Hu; discriminate | exact Hm].
  - exists s', total. split; [exact Hs'|]. split; [fold total in T0; lia|]. right.
    split; [exact Hu|]. split; [reflexivity | exact Hm].
Qed.

Lemma upload_messages_form_prefix_witness :
  let w'' := default created (exec (sendFileChunks "10:00:02" "" ready_to_upload) mid_upload) in
  exists s s'' k, sockets ready_to_upload !! 0%nat = Some s /\
    sockets w'' !! 0%nat = Some s'' /\ 0 <= k <= 3 /\
    ((uploads w'' !! 0%nat <> Some Finished /\
      file_messages (sent s'') =
        file_messages (sent s) ++ map (chunk_message log25 3) (seqZ 0 k)) \/
     (uploads w'' !! 0%nat = Some Finished /\ k = 3 /\
      file_messages (sent s'') =
        file_messages (sent s) ++ map (chunk_message log25 3) (seqZ 0 3)
          ++ [file_complete "flight.bin" 3])).
Proof.
  intros w''. eexists.
  destruct (upload_messages_form_prefix "10:00:02" "" ready_to_upload 0%nat _ log25
              mid_upload w'' eq_refl eq_refl eq_refl eq_refl ltac:(discriminate)
              eq_refl ltac:(vm_compute; reflexivity)) as (s'' & k & H).
  exists s'', k. split; [reflexivity|]. exact H.
Defined.

(** ** Loading a log *)

Lemma lookup_new {A} (l : list A) (x : A) : (l ++ [x]) !! length l = Some x.
Proof. apply list_lookup_middle. reflexivity. Qed.

Lemma insert_new {A} (l : list A) (x y : A) : <[length l := y]> (l ++ [x]) = l ++ [y].
Proof. induction l as [|a l IH]; [reflexivity|]. cbn. f_equal. exact IH. Qed.

Lemma updateParsedData_not_open snapshot now w :
  wsIsOpen w = false ->
  updateParsedData snapshot now w = upd (set_parsedData (Some snapshot)) w.
Proof.
  intros E. unfold updateParsedData, sendDataToBackend.
  change (wsIsOpen (upd (set_parsedData (Some snapshot)) w)) with (wsIsOpen w).
  rewrite E. reflexivity.
Qed.

Lemma connectWebSocket_rest rnd w :
  wsIsOpen w = false ->
  snd (connectWebSocket rnd w) = Opening (length (sockets w)) /\
  uploads (fst (connectWebSocket rnd w)) = uploads w /\
  reads (fst (connectWebSocket rnd w)) = reads w /\
  scrolls (fst (connectWebSocket rnd w)) = scrolls w.
Proof.
  intros E. unfold connectWebSocket. rewrite E. cbv zeta.
  destruct (clientId (vm w)) as [id|]; [destruct (id === "")|]; repeat split; reflexivity.
Qed.

(** [onFileLoaded] on a component whose handle names no open socket, up
    to its [await]: the snapshot is stored and not sent, one socket is
    made, and the call waits for it. *)
Lemma onFileLoaded_not_open snapshot rnd now emsg w :
  wsIsOpen w = false ->
  let w1 := onFileLoaded snapshot rnd now emsg w in
  exists id, id <> "" /\
    (forall id0, clientId (vm w) = Some id0 -> id0 <> "" -> id = id0) /\
    (clientId (vm w) = None -> id = "client_" +:+ rnd) /\
    clientId (vm w1) = Some id /\
    ws (vm w1) = Some (length (sockets w)) /\
    hasFile (vm w1) = true /\
    parsedData (vm w1) = Some snapshot /\
    (forall (A : Type) (obs : Component -> A),
       blind obs ([f_hasFile; f_parsedData] ++ connect_fields) -> obs (vm w1) = obs (vm w)) /\
    sockets w1 = sockets w ++ [set_awaited true (new_socket id)] /\
    timers w1 = timers w /\ uploads w1 = uploads w /\ reads w1 = reads w /\
    scrolls w1 = scrolls w.
Proof.
  intros E w1. subst w1. unfold onFileLoaded. cbv zeta.
  assert (E0 : wsIsOpen (upd (set_hasFile true) w) = false) by exact E.
  rewrite (updateParsedData_not_open snapshot now _ E0).
  set (w0 := upd (set_parsedData (Some snapshot)) (upd (set_hasFile true) w)).
  assert (E1 : wsIsOpen w0 = false) by exact E.
  destruct (connectWebSocket_sockets rnd w0 E1) as (id & N & C & K & K0 & S).
  destruct (connectWebSocket_new rnd w0 E1) as (W & _ & _ & T). cbv zeta in W, T.
  destruct (connectWebSocket_rest rnd w0 E1) as (R & U & Rd & Sc).
  pose proof (fun A obs => @connectWebSocket_frame A obs rnd w0) as F.
  destruct (connectWebSocket rnd w0) as [w2 c]. cbn [fst snd] in *. subst c.
  change (sockets w0) with (sockets w) in *. cbv beta iota.
  rewrite S, lookup_new.
  exists id. cbn [vm sockets timers uploads reads scrolls set_sockets].
  rewrite insert_new.
  split; [exact N|]. split; [exact K|]. split; [exact K0|]. split; [exact C|].
  split; [exact W|].
  split; [rewrite (F _ hasFile) by solve_blind; reflexivity|].
  split; [rewrite (F _ parsedData) by solve_blind; reflexivity|].
  split.
  { intros A obs (H1 & H2 & B). rewrite (F A obs B). subst w0. cbn [vm upd].
    rewrite H2. apply H1. }
  split; [reflexivity|]. split; [exact T|]. split; [exact U|]. split; [exact Rd | exact Sc].
Qed.

(** The socket a call of [onFileLoaded] waits for opens: the call goes on
    after its [await]. *)
Lemma awaited_socket_opens l id now emsg w :
  sockets w = l ++ [set_awaited true (new_socket id)] ->
  step w (SocketOpen (length l) now emsg) =
    Some (onFileLoaded_resume now emsg
            (set_sockets (l ++ [opened id true []])
               (upd (set_reconnectAttempts 0) (upd (set_isConnected true) w)))).
Proof.
  intros S. unfold step, state_of. rewrite S, lookup_new. cbn [fmap option_fmap option_map
    readyState set_awaited new_socket].
  unfold ws_onopen, set_socket_state. rewrite S, lookup_new. cbv zeta.
  unfold settle. cbn [sockets upd set_sockets]. rewrite insert_new, lookup_new.
  cbn [promise awaited set_readyState set_awaited new_socket]. rewrite insert_new.
  reflexivity.
Qed.

(** X11. The first load of a log, end to end.  [onFileLoaded] on a
    component with a file and no open socket stores the telemetry
    snapshot, makes one socket and waits; when that socket opens the
    upload starts, and with every read succeeding the socket has in the
    end sent exactly the chunks of the file and the completion message.
    The snapshot itself is never sent: [updateParsedData] runs before
    the connection exists. *)
Theorem first_load_sends_the_file_only (readOk : Z -> bool)
    (snapshot rnd now emsg now' emsg' : string) (w : World) (f : File) :
  wsIsOpen w = false ->
  currentFile (vm w) = Some f ->
  0 <= size f ->
  (forall i, 0 <= i < Math_ceil_div (size f) MiB -> readOk i = true) ->
  exists id w2,
    step (onFileLoaded snapshot rnd now emsg w) (SocketOpen (length (sockets w)) now' emsg')
      = Some w2 /\
    let w3 := run_upload (upload_fuel f) readOk (length (uploads w)) now' emsg' w2 in
    sockets w3 = sockets w ++ [opened id true (upload_messages f)] /\
    parsedData (vm w3) = Some snapshot /\
    isConnected (vm w3) = true /\
    currentFile (vm w3) = None /\
    messages (vm w3) = messages (vm w) /\
    uploads w3 = uploads w ++ [Finished].
Proof.
  intros E Hf Hsz Hok.
  destruct (onFileLoaded_not_open snapshot rnd now emsg w E)
    as (id & _ & _ & _ & _ & W & _ & P & F & S & _ & U & _). cbv zeta in *.
  set (w1 := onFileLoaded snapshot rnd now emsg w) in *.
  set (wo := set_sockets (sockets w ++ [opened id true []])
               (upd (set_reconnectAttempts 0) (upd (set_isConnected true) w1))).
  assert (Cf : currentFile (vm wo) = Some f).
  { change (currentFile (vm wo)) with (currentFile (vm w1)).
    rewrite (F _ currentFile) by solve_blind. exact Hf. }
  assert (L : live f (length (sockets w)) wo (opened id true [])).
  { split; [exact W|]. split; [apply lookup_new|]. split; [reflexivity | exact Cf]. }
  exists id, (sendFileChunks now' emsg' wo). split.
  { rewrite (awaited_socket_opens (sockets w) id now' emsg' w1 S). fold wo.
    unfold onFileLoaded_resume. rewrite Cf. reflexivity. }
  cbv zeta.
  assert (R : run_upload (upload_fuel f) readOk (length (uploads w)) now' emsg'
                (sendFileChunks now' emsg' wo) = sendFileChunks_run readOk now' emsg' wo).
  { unfold sendFileChunks_run. rewrite Cf.
    change (uploads wo) with (uploads w1). rewrite U. reflexivity. }
  rewrite R.
  destruct (sendFileChunks_run_live readOk now' emsg' wo _ _ f L Hsz Hok)
    as (V & S3 & U3 & _). cbv zeta in V, S3, U3.
  rewrite V, S3, U3.
  change (sockets wo) with (sockets w ++ [opened id true []]). rewrite insert_new.
  split; [reflexivity|]. split; [exact P|]. split; [reflexivity|]. split; [reflexivity|].
  split.
  - change (messages (vm w1) = messages (vm w)). apply F. solve_blind.
  - change (uploads wo) with (uploads w1). rewrite U. reflexivity.
Qed.

Lemma first_load_sends_the_file_only_witness :
  exists id w2,
    step (onFileLoaded "{}" "k3j9x0q2m" "10:00:00" "" file_announced)
         (SocketOpen 0 "10:00:01" "") = Some w2 /\
    let w3 := run_upload (upload_fuel log25) (fun _ => true) 0 "10:00:01" "" w2 in
    sockets w3 = sockets file_announced ++ [opened id true (upload_messages log25)] /\
    parsedData (vm w3) = Some "{}" /\
    isConnected (vm w3) = true /\
    currentFile (vm w3) = None /\
    messages (vm w3) = messages (vm file_announced) /\
    uploads w3 = uploads file_announced ++ [Finished].
Proof.
  exact (first_load_sends_the_file_only (fun _ => true) "{}" "k3j9x0q2m" "10:00:00" ""
           "10:00:01" "" file_announced log25 eq_refl eq_refl ltac:(discriminate)
           ltac:(reflexivity)).
Defined.

(** The socket a call of [onFileLoaded] waits for fails: its [error]
    handler runs, and then the [catch] of the call. *)
Lemma awaited_socket_fails l id now w :
  sockets w = l ++ [set_awaited true (new_socket id)] ->
  state_of (length l) w = Some CONNECTING /\
  ws_onerror (length l) now (set_socket_state (length l) CLOSED w) =
    push (connect_failed_entry now)
      (set_sockets (l ++ [refused id])
         (push (connect_error_entry now) (upd (set_isConnected false) w))).
Proof.
  intros S. split.
  { unfold state_of. rewrite S, lookup_new. reflexivity. }
  unfold ws_onerror, set_socket_state. rewrite S, lookup_new. cbv zeta.
  unfold settle. cbn [sockets push upd set_sockets]. rewrite insert_new, lookup_new.
  cbn [promise awaited set_readyState set_awaited new_socket]. rewrite insert_new.
  reflexivity.
Qed.

(** X12. The first connection of a load fails.  The browser closes the
    socket and fires [error] and then [close].  The error handler of the
    socket and the [catch] of [onFileLoaded] each push one system entry,
    so the history gets two, and they schedule no reconnect.  The close
    handler, which runs after them in the same task, schedules the
    reconnect when attempts are left and pushes the terminal entry
    otherwise.  In the end [isConnected] is false, no upload has
    started and the file stays in [currentFile]. *)
Theorem failed_connection_pushes_two_entries (snapshot rnd now emsg now' : string)
    (w : World) :
  wsIsOpen w = false ->
  let h := length (sockets w) in
  let w1 := onFileLoaded snapshot rnd now emsg w in
  let we := ws_onerror h now' (set_socket_state h CLOSED w1) in
  let retry := reconnectAttempts (vm w) <? maxReconnectAttempts (vm w) in
  exists id w2,
    step w1 (SocketError h now') = Some w2 /\
    messages (vm we) =
      messages (vm w) ++ [connect_error_entry now'; connect_failed_entry now'] /\
    timers we = timers w /\
    messages (vm w2) =
      messages (vm w) ++ [connect_error_entry now'; connect_failed_entry now']
        ++ (if retry then [] else [failed_entry now']) /\
    timers w2 = timers w ++ (if retry then [reconnectDelay (vm w)] else []) /\
    isConnected (vm w2) = false /\
    currentFile (vm w2) = currentFile (vm w) /\
    sockets w2 = sockets w ++ [refused id] /\
    uploads w2 = uploads w.
Proof.
  intros E h w1 we retry. subst h w1 we retry.
  destruct (onFileLoaded_not_open snapshot rnd now emsg w E)
    as (id & _ & _ & _ & _ & _ & _ & _ & F & S & T & U & _). cbv zeta in *.
  set (w1 := onFileLoaded snapshot rnd now emsg w) in *.
  destruct (awaited_socket_fails (sockets w) id now' w1 S) as (St & We).
  rewrite We.
  exists id. eexists. split.
  { cbn [step]. rewrite St, We. reflexivity. }
  split.
  { cbn [vm push upd set_sockets messages set_messages set_isConnected].
    rewrite (F _ messages) by solve_blind. rewrite <- app_assoc. reflexivity. }
  split; [exact T|].
  unfold ws_onclose. cbv zeta.
  cbn [vm push upd set_sockets reconnectAttempts maxReconnectAttempts reconnectDelay
       set_messages set_isConnected].
  rewrite (F _ reconnectAttempts), (F _ maxReconnectAttempts), (F _ reconnectDelay)
    by solve_blind.
  destruct (reconnectAttempts (vm w) <? maxReconnectAttempts (vm w));
    cbn [vm push upd set_sockets set_timers sockets uploads timers messages isConnected
         currentFile set_messages set_isConnected set_reconnectAttempts];
    rewrite (F _ messages), (F _ currentFile) by solve_blind;
    rewrite T, U, <- ?app_assoc, ?app_nil_r; repeat split.
Qed.

Lemma failed_connection_pushes_two_entries_witness :
  let w1 := onFileLoaded "{}" "k3j9x0q2m" "10:00:00" "" file_announced in
  let we := ws_onerror 0 "10:00:01" (set_socket_state 0 CLOSED w1) in
  exists id w2,
    step w1 (SocketError 0 "10:00:01") = Some w2 /\
    messages (vm we) =
      messages (vm file_announced)
        ++ [connect_error_entry "10:00:01"; connect_failed_entry "10:00:01"] /\
    timers we = timers file_announced /\
    messages (vm w2) =
      messages (vm file_announced)
        ++ [connect_error_entry "10:00:01"; connect_failed_entry "10:00:01"] ++ [] /\
    timers w2 = timers file_announced ++ [reconnectDelay (vm file_announced)] /\
    isConnected (vm w2) = false /\
    currentFile (vm w2) = currentFile (vm file_announced) /\
    sockets w2 = sockets file_announced ++ [refused id] /\
    uploads w2 = uploads file_announced.
Proof.
  exact (failed_connection_pushes_two_entries "{}" "k3j9x0q2m" "10:00:00" "" "10:00:01"
           file_announced eq_refl).
Defined.

(** A socket that no call waits for opens: only the two connection
    fields change. *)
Lemma plain_socket_opens l id now emsg w :
  sockets w = l ++ [new_socket id] ->
  step w (SocketOpen (length l) now emsg) =
    Some (set_sockets (l ++ [opened id false []])
            (upd (set_reconnectAttempts 0) (upd (set_isConnected true) w))).
Proof.
  intros S. unfold step, state_of. rewrite S, lookup_new.
  cbn [fmap option_fmap option_map readyState new_socket].
  unfold ws_onopen, set_socket_state. rewrite S, lookup_new. cbv zeta.
  unfold settle. cbn [sockets upd set_sockets]. rewrite insert_new, lookup_new.
  cbn [promise awaited set_readyState new_socket]. rewrite insert_new.
  reflexivity.
Qed.

(** X13. A connection made by [connectWebSocket] outside [onFileLoaded],
    that is by the reconnect timer or by a direct call, does not take up
    the upload: when its socket opens the component is connected again,
    but a file waiting in [currentFile] stays there, no chunk is read and
    nothing is sent. *)
Theorem reconnect_does_not_resume_upload (e : Event) (rnd now emsg : string)
    (w w1 : World) :
  e = TimerFires rnd \/ e = CallConnect rnd ->
  wsIsOpen w = false ->
  step w e = Some w1 ->
  exists id w2,
    step w1 (SocketOpen (length (sockets w)) now emsg) = Some w2 /\
    sockets w2 = sockets w ++ [opened id false []] /\
    isConnected (vm w2) = true /\
    reconnectAttempts (vm w2) = 0 /\
    wsIsOpen w2 = true /\
    currentFile (vm w2) = currentFile (vm w) /\
    uploads w2 = uploads w /\
    reads w2 = reads w.
Proof.
  intros He E H.
  assert (exists w0, wsIsOpen w0 = false /\ sockets w0 = sockets w /\ vm w0 = vm w /\
            uploads w0 = uploads w /\ reads w0 = reads w /\
            w1 = fst (connectWebSocket rnd w0)) as (w0 & E0 & S0 & V0 & U0 & R0 & ->).
  { destruct He as [-> | ->]; cbn [step] in H.
    - destruct (timers w) as [|d rest]; [discriminate H|]. injection H as <-.
      exists (set_timers rest w). repeat split. exact E.
    - injection H as <-. exists w. repeat split. exact E. }
  destruct (connectWebSocket_sockets rnd w0 E0) as (id & _ & _ & _ & _ & S).
  destruct (connectWebSocket_new rnd w0 E0) as (W & _). cbv zeta in W.
  destruct (connectWebSocket_rest rnd w0 E0) as (_ & U & Rd & _).
  pose proof (connectWebSocket_frame currentFile rnd w0 ltac:(solve_blind)) as C.
  set (w1 := fst (connectWebSocket rnd w0)) in *. rewrite S0 in S, W.
  exists id. eexists. split; [exact (plain_socket_opens (sockets w) id now emsg w1 S)|].
  split; [reflexivity|]. split; [reflexivity|]. split; [reflexivity|].
  split.
  { unfold wsIsOpen. cbn [vm upd set_sockets sockets ws set_reconnectAttempts
      set_isConnected]. rewrite W, lookup_new. reflexivity. }
  split; [cbn [vm upd set_sockets currentFile set_reconnectAttempts set_isConnected];
          rewrite C, V0; reflexivity|].
  split; [cbn [uploads upd set_sockets]; rewrite U; exact U0|].
  cbn [reads upd set_sockets]. rewrite Rd. exact R0.
Qed.

Lemma reconnect_does_not_resume_upload_witness :
  currentFile (vm first_connection_lost) = Some log25 /\
  exists w1, step first_connection_lost (TimerFires "zzzzzzzzz") = Some w1 /\
  exists id w2,
    step w1 (SocketOpen 1 "10:00:07" "") = Some w2 /\
    sockets w2 = sockets first_connection_lost ++ [opened id false []] /\
    isConnected (vm w2) = true /\
    reconnectAttempts (vm w2) = 0 /\
    wsIsOpen w2 = true /\
    currentFile (vm w2) = currentFile (vm first_connection_lost) /\
    uploads w2 = uploads first_connection_lost /\
    reads w2 = reads first_connection_lost.
Proof.
  split; [reflexivity|]. eexists. split; [reflexivity|].
  exact (reconnect_does_not_resume_upload (TimerFires "zzzzzzzzz") "zzzzzzzzz" "10:00:07" ""
           first_connection_lost _ (or_introl eq_refl) eq_refl eq_refl).
Defined.

Lemma updateParsedData_live snapshot now f h w s :
  live f h w s ->
  updateParsedData snapshot now w =
    set_sockets (<[h := set_sent (sent s ++ [data "parsed_data" snapshot now]) s]> (sockets w))
      (upd (set_parsedData (Some snapshot)) w).
Proof.
  intros L. unfold updateParsedData, sendDataToBackend.
  change (wsIsOpen (upd (set_parsedData (Some snapshot)) w)) with (wsIsOpen w).
  assert (O : wsIsOpen w = true).
  { destruct L as (Hws & Hs & Hr & _). unfold wsIsOpen. rewrite Hws, Hs, Hr. reflexivity. }
  rewrite O. cbn [negb].
  rewrite (ws_send_live f h _ (upd (set_parsedData (Some snapshot)) w) s L). reflexivity.
Qed.

(** X14. A log loaded while the socket is already open.  No second
    socket is made; the telemetry snapshot is sent at once, and if
    [isConnected] is set the upload follows on the same socket, so that
    with every read succeeding the socket sends the snapshot, then the
    chunks in order, then the completion message.  If [isConnected] is
    not set the snapshot is all that is sent and no upload starts. *)
Theorem reload_sends_snapshot_then_file (readOk : Z -> bool)
    (snapshot rnd now emsg : string) (w : World) (h : nat) (s : WebSocket) (f : File) :
  ws (vm w) = Some h ->
  sockets w !! h = Some s ->
  readyState s = OPEN ->
  currentFile (vm w) = Some f ->
  0 <= size f ->
  (forall i, 0 <= i < Math_ceil_div (size f) MiB -> readOk i = true) ->
  let w1 := onFileLoaded snapshot rnd now emsg w in
  let tele := data "parsed_data" snapshot now in
  (isConnected (vm w) = false ->
     sockets w1 = <[h := set_sent (sent s ++ [tele]) s]> (sockets w) /\
     uploads w1 = uploads w /\ currentFile (vm w1) = Some f) /\
  (isConnected (vm w) = true ->
     let w2 := run_upload (upload_fuel f) readOk (length (uploads w)) now emsg w1 in
     sockets w2 = <[h := set_sent (sent s ++ tele :: upload_messages f) s]> (sockets w) /\
     uploads w2 = uploads w ++ [Finished] /\ currentFile (vm w2) = None).
Proof.
  intros Hws Hs Hr Hf Hsz Hok w1 tele. subst w1.
  assert (L : live f h w s) by (repeat split; assumption).
  unfold onFileLoaded. cbv zeta.
  rewrite (updateParsedData_live snapshot now f h (upd (set_hasFile true) w) s L).
  set (s' := set_sent (sent s ++ [data "parsed_data" snapshot now]) s).
  set (wt := set_sockets (<[h := s']> (sockets (upd (set_hasFile true) w)))
               (upd (set_parsedData (Some snapshot)) (upd (set_hasFile true) w))).
  assert (Ht : sockets wt !! h = Some s').
  { apply list_lookup_insert_eq. apply (lookup_lt_Some _ _ _ Hs). }
  assert (Lt : live f h wt s').
  { split; [exact Hws|]. split; [exact Ht|]. split; [exact Hr | exact Hf]. }
  assert (O : wsIsOpen wt = true).
  { unfold wsIsOpen. change (ws (vm wt)) with (ws (vm w)). rewrite Hws, Ht.
    change (readyState s') with (readyState s). rewrite Hr. reflexivity. }
  unfold connectWebSocket. rewrite O. unfold onFileLoaded_resume.
  change (isConnected (vm wt)) with (isConnected (vm w)).
  change (currentFile (vm wt)) with (currentFile (vm w)). rewrite Hf. cbn [isNull negb].
  rewrite andb_true_r. split; intros C; rewrite C.
  - repeat split. exact Hf.
  - cbv zeta.
    assert (R : run_upload (upload_fuel f) readOk (length (uploads w)) now emsg
                  (sendFileChunks now emsg wt) = sendFileChunks_run readOk now emsg wt).
    { unfold sendFileChunks_run. change (currentFile (vm wt)) with (currentFile (vm w)).
      rewrite Hf. reflexivity. }
    rewrite R.
    destruct (sendFileChunks_run_live readOk now emsg wt h s' f Lt Hsz Hok)
      as (V & S3 & U3 & _). cbv zeta in V, S3, U3.
    rewrite V, S3, U3. split; [|split; reflexivity].
    change (sockets wt) with (<[h := s']> (sockets w)). rewrite list_insert_insert_eq.
    f_equal. unfold s', set_sent, upload_messages. cbn [sent url readyState promise awaited].
    rewrite <- app_assoc. reflexivity.
Qed.

Lemma reload_sends_snapshot_then_file_witness :
  exists s, sockets ready_to_upload !! 0%nat = Some s /\
    let w1 := onFileLoaded "{}" "k3j9x0q2m" "10:00:02" "" ready_to_upload in
    let w2 := run_upload (upload_fuel log25) (fun _ => true) 0 "10:00:02" "" w1 in
    sockets w2 =
      <[0%nat := set_sent (sent s ++ data "parsed_data" "{}" "10:00:02"
                             :: upload_messages log25) s]> (sockets ready_to_upload) /\
    uploads w2 = uploads ready_to_upload ++ [Finished] /\ currentFile (vm w2) = None.
Proof.
  eexists. split; [reflexivity|].
  exact (proj2 (reload_sends_snapshot_then_file (fun _ => true) "{}" "k3j9x0q2m" "10:00:02" ""
                  ready_to_upload 0%nat _ log25 eq_refl eq_refl eq_refl eq_refl
                  ltac:(discriminate) ltac:(reflexivity)) eq_refl).
Defined.

(** ** Uploads that do not go through *)

Lemma deliver_nil s : deliver s [] = s.
Proof.
  destruct s as [u r se p a]. unfold deliver. cbn [readyState].
  destruct r; try reflexivity. unfold set_sent. cbn [sent url readyState promise awaited].
  rewrite app_nil_r. reflexivity.
Qed.

Lemma deliver_app s a b : deliver (deliver s a) b = deliver s (a ++ b).
Proof.
  destruct s as [u r se p a0]. unfold deliver. cbn [readyState].
  destruct r; try reflexivity. unfold set_sent. cbn [sent url readyState promise awaited].
  rewrite app_assoc. reflexivity.
Qed.

Lemma deliver_readyState s a : readyState (deliver s a) = readyState s.
Proof. unfold deliver. destruct (readyState s) eqn:R; exact R. Qed.

Lemma deliver_open s a : readyState s = OPEN -> deliver s a = set_sent (sent s ++ a) s.
Proof. intros R. unfold deliver. rewrite R. reflexivity. Qed.


Lemma ws_send_hold f h msg w s :
  hold f h w s ->
  ws_send msg w = Some (set_sockets (<[h := deliver s [msg]]> (sockets w)) w).
Proof.
  intros (Hws & Hs & Hr & _). unfold ws_send, socket_send, deliver. rewrite Hws, Hs.
  destruct (readyState s) eqn:R; [congruence | reflexivity | |];
    rewrite (list_insert_id _ _ _ Hs); destruct w; reflexivity.
Qed.

Section Outcome.
Variables (f : File) (h : nat) (now emsg : string) (readOk : Z -> bool) (pid : nat) (k : Z).

Let total := Math_ceil_div (size f) MiB.

(** The call [pid] run from the read of chunk [i] to its end, when the
    reads before chunk [k] succeed and that of chunk [k] fails. *)
Lemma run_ended :
  forall (n : nat) (i : Z) (w : World) (s : WebSocket),
    Z.of_nat n = k - i -> 0 <= i -> i < total -> k <= total -> 0 <= size f ->
    hold f h w s ->
    uploads w !! pid = Some (Reading total i (chunk_blob f i)) ->
    (forall j, i <= j < k -> readOk j = true) ->
    (k < total -> readOk k = false) ->
    forall fuel, 2 * (k - i) + (if k <? total then 1 else 0) <= Z.of_nat fuel ->
    ended f h w s pid i k now (run_upload fuel readOk pid now emsg w).
Proof.
  induction n as [|n IH]; intros i w s Hn Hi Hit Hk Hsz L Hu Hok Hbad fuel Hfuel;
    pose proof L as (Hws & Hs & Hr & Hf);
    pose proof (lookup_lt_Some _ _ _ Hs) as Hh;
    pose proof (lookup_lt_Some _ _ _ Hu) as Hp.
  - (* the read of chunk [i] fails *)
    assert (i = k) by lia. subst i.
    assert (Hlt : (k <? total) = true) by (apply Z.ltb_lt; exact Hit).
    rewrite Hlt in Hfuel. destruct fuel as [|fuel]; [lia|].
    rewrite (run_upload_reading _ _ _ _ _ w total k (chunk_blob f k)
               (park pid (sendFileChunks_catch now "undefined" w, Finished)) Hu)
      by (rewrite (Hbad Hit); unfold reader_onerror; rewrite Hu; reflexivity).
    rewrite run_upload_finished
      by (unfold park, sendFileChunks_catch, sendFileChunks_finally, push;
          cbn [uploads set_uploads fst snd upd]; apply list_lookup_insert_eq, Hp).
    unfold ended. cbv zeta. fold total. rewrite Hlt.
    replace (k - k) with 0 by lia. replace (Z.min k (total - 1) - k) with 0 by lia.
    rewrite !seqZ_nil by lia. cbn [map app]. rewrite deliver_nil, app_nil_r.
    rewrite (list_insert_id _ _ _ Hs).
    unfold park, sendFileChunks_catch, sendFileChunks_finally, push, upload_failed.
    cbn [fst snd vm sockets uploads reads timers scrolls set_uploads upd].
    repeat split.
  - (* chunk [i] is read and sent *)
    assert (Hik : i < k) by lia.
    assert (Hf2 : exists fuel', fuel = S (S fuel')).
    { destruct fuel as [|[|fuel']]; [destruct (k <? total); lia ..|]. eexists; reflexivity. }
    destruct Hf2 as [fuel' ->].
    set (s1 := deliver s [file_chunk i total (name f) (chunk_blob f i)]).
    set (w1 := set_uploads (<[pid := Waiting total i]> (uploads w))
                 (set_sockets (<[h := s1]> (sockets w)) w)).
    assert (L1 : hold f h w1 s1).
    { split; [exact Hws|]. split; [apply list_lookup_insert_eq, Hh|].
      split; [unfold s1; rewrite deliver_readyState; exact Hr | exact Hf]. }
    assert (Hu1 : uploads w1 !! pid = Some (Waiting total i))
      by (cbn [uploads w1 set_uploads]; apply list_lookup_insert_eq, Hp).
    rewrite (run_upload_reading _ _ _ _ _ w total i (chunk_blob f i) w1 Hu)
      by (rewrite Hok by lia; unfold reader_onload; rewrite Hu, Hf;
          rewrite (ws_send_hold f h _ w s L); reflexivity).
    rewrite (run_upload_waiting _ _ _ _ _ w1 total i _ Hu1
               (delay_elapsed_waiting now emsg pid total i w1 Hu1)).
    destruct (Z.eq_dec (i + 1) total) as [Elast|Nlast].
    + (* it was the last one: the completion message follows *)
      assert (k = total) by lia. subst k.
      assert (Hge : (total <? total) = false) by (apply Z.ltb_ge; lia).
      assert (E : sendFileChunks_loop total (i + 1) now emsg w1 =
                  (sendFileChunks_finally
                     (upd (set_currentFile None)
                        (set_sockets
                           (<[h := deliver s1 [file_complete (name f) total]]> (sockets w1))
                           w1)), Finished)).
      { unfold sendFileChunks_loop. cbv zeta. rewrite Elast, Hge.
        destruct L1 as (_ & _ & _ & Hf1). rewrite Hf1.
        rewrite (ws_send_hold f h _ w1 s1); [reflexivity|].
        split; [exact Hws|]. split; [apply list_lookup_insert_eq, Hh|].
        split; [unfold s1; rewrite deliver_readyState; exact Hr | exact Hf]. }
      rewrite E.
      rewrite run_upload_finished
        by (unfold park;
            cbn [uploads set_uploads fst snd sendFileChunks_finally upd set_sockets w1];
            apply list_lookup_insert_eq; rewrite length_insert; exact Hp).
      unfold ended. cbv zeta. fold total. rewrite Hge.
      replace (total - i) with 1 by lia.
      replace (Z.min total (total - 1) - i) with 0 by lia.
      rewrite seqZ_cons, !seqZ_nil by lia. unfold park.
      cbn [fst snd vm sockets uploads reads timers scrolls set_uploads set_sockets upd
           sendFileChunks_finally w1 map app].
      rewrite !list_insert_insert_eq, app_nil_r. unfold s1. rewrite deliver_app.
      repeat split.
    + (* more chunks follow: the next read starts *)
      assert (Hlt : i + 1 < total) by lia.
      assert (Hsz1 : (i + 1) * MiB < size f).
      { pose proof (Math_ceil_div_MiB (size f) Hsz) as (_ & B & _). fold total in B.
        change MiB with 1048576 in *. lia. }
      rewrite (loop_reads_file total (i + 1) now emsg w1 f Hf) by lia.
      set (w2 := park pid (set_reads (reads w1 ++ [chunk_blob f (i + 1)]) w1,
                           Reading total (i + 1) (chunk_blob f (i + 1)))).
      assert (L2 : hold f h w2 s1) by exact L1.
      assert (Hu2 : uploads w2 !! pid = Some (Reading total (i + 1) (chunk_blob f (i + 1))))
        by (unfold w2, park; cbn [uploads set_uploads set_reads fst snd w1];
            apply list_lookup_insert_eq; rewrite length_insert; exact Hp).
      assert (Hfuel' : 2 * (k - (i + 1)) + (if k <? total then 1 else 0) <= Z.of_nat fuel')
        by (destruct (k <? total); lia).
      destruct (IH (i + 1) w2 s1 ltac:(lia) ltac:(lia) Hlt Hk Hsz L2 Hu2
                  ltac:(intros j Hj; apply Hok; lia) Hbad fuel' Hfuel')
        as (S & U & R & V & T & C). cbv zeta in S. fold total in S, R, V.
      unfold ended. cbv zeta. fold total. rewrite S, U, R, V, T, C.
      rewrite (seqZ_cons i (k - i)) by lia.
      rewrite (seqZ_cons (i + 1) (Z.min k (total - 1) - i)) by lia.
      replace (Z.succ i) with (i + 1) by lia.
      replace (Z.pred (k - i)) with (k - (i + 1)) by lia.
      replace (Z.succ (i + 1)) with (i + 1 + 1) by lia.
      replace (Z.pred (Z.min k (total - 1) - i)) with (Z.min k (total - 1) - (i + 1)) by lia.
      unfold w2, park.
      cbn [fst snd vm sockets uploads reads timers scrolls set_uploads set_sockets set_reads
           w1 map].
      rewrite !list_insert_insert_eq. unfold s1. rewrite deliver_app.
      repeat split. rewrite <- app_assoc. reflexivity.
Qed.

End Outcome.

(** One whole call of [sendFileChunks] on a socket whose [send] does not
    throw, when [k] is the first chunk whose read fails. *)
Lemma sendFileChunks_run_ended (readOk : Z -> bool) (now emsg : string)
    (w : World) (h : nat) (s : WebSocket) (f : File) (k : Z) :
  hold f h w s -> 0 <= size f ->
  let total := Math_ceil_div (size f) MiB in
  0 <= k <= total ->
  (forall j, 0 <= j < k -> readOk j = true) ->
  (k < total -> readOk k = false) ->
  let w' := sendFileChunks_run readOk now emsg w in
  let c1 := set_isUploadingFile true (set_isChatEnabled false
              (set_isSendingFile true (vm w))) in
  sockets w' =
    <[h := deliver s (map (chunk_message f total) (seqZ 0 k)
                        ++ (if k <? total then [] else [file_complete (name f) total]))]>
      (sockets w) /\
  uploads w' = uploads w ++ [Finished] /\
  reads w' = reads w ++ map (chunk_blob f) (seqZ 0 (Z.min (k + 1) total)) /\
  vm w' = (if k <? total then upload_failed now "undefined" c1
           else set_isSendingFile false (set_currentFile None c1)) /\
  timers w' = timers w /\
  scrolls w' = scrolls w.
Proof.
  intros L Hsz total Hk Hok Hbad w' c1. subst w' c1.
  pose proof L as (Hws & Hs & Hr & Hf).
  pose proof (Math_ceil_div_MiB (size f) Hsz) as (T0 & T1 & T2). fold total in T0, T1, T2.
  unfold sendFileChunks_run, sendFileChunks. rewrite Hf. cbv zeta.
  change (Math_ceil_div (size f) (1024 * 1024)) with total.
  set (w1 := upd (set_isUploadingFile true)
               (upd (set_isChatEnabled false) (upd (set_isSendingFile true) w))).
  assert (L1 : hold f h w1 s) by exact L.
  destruct (Z.eq_dec total 0) as [E0|N0].
  - assert (k = 0) by lia. subst k.
    assert (Hge : (0 <? total) = false) by (apply Z.ltb_ge; lia).
    assert (E : sendFileChunks_loop total 0 now emsg w1 =
                (sendFileChunks_finally
                   (upd (set_currentFile None)
                      (set_sockets
                         (<[h := deliver s [file_complete (name f) total]]> (sockets w1))
                         w1)), Finished)).
    { unfold sendFileChunks_loop. cbv zeta. rewrite Hge.
      assert (Hf1 : currentFile (vm w1) = Some f) by exact Hf. rewrite Hf1.
      rewrite (ws_send_hold f h _ w1 s L1). reflexivity. }
    rewrite E. cbv iota beta.
    rewrite run_upload_finished
      by (cbn [uploads set_uploads]; rewrite lookup_app_r, Nat.sub_diag by reflexivity;
          reflexivity).
    rewrite Hge. replace (Z.min (0 + 1) total) with 0 by lia.
    rewrite !seqZ_nil by lia. cbn [map app]. rewrite app_nil_r. repeat split.
  - assert (Hpos : 0 * MiB < size f) by (change MiB with 1048576 in *; lia).
    rewrite (loop_reads_file total 0 now emsg w1 f Hf) by lia. cbv iota beta.
    set (w3 := set_uploads _ _).
    assert (L3 : hold f h w3 s) by exact L.
    assert (Hu3 : uploads w3 !! length (uploads w) = Some (Reading total 0 (chunk_blob f 0)))
      by (cbn [uploads w3 set_uploads set_reads w1 upd];
          rewrite lookup_app_r, Nat.sub_diag by reflexivity; reflexivity).
    assert (Hfuel : 2 * (k - 0) + (if k <? total then 1 else 0)
                    <= Z.of_nat (upload_fuel f)).
    { unfold upload_fuel. fold MiB. fold total.
      destruct (Z.ltb_spec k total); lia. }
    destruct (run_ended f h now emsg readOk (length (uploads w)) k
                (Z.to_nat k) 0 w3 s ltac:(lia) ltac:(lia) ltac:(fold total; lia)
                ltac:(fold total; lia) Hsz L3 Hu3 Hok Hbad (upload_fuel f) Hfuel)
      as (S & U & R & V & T & C). cbv zeta in S. fold total in S, R, V.
    rewrite S, U, R, V, T, C.
    cbn [vm sockets uploads reads timers scrolls w3 set_uploads set_reads w1 upd].
    replace (k - 0) with k by lia.
    rewrite insert_app_r_alt, Nat.sub_diag by reflexivity.
    rewrite (seqZ_cons 0 (Z.min (k + 1) total)) by lia.
    replace (Z.succ 0) with (0 + 1) by lia.
    replace (Z.pred (Z.min (k + 1) total)) with (Z.min k (total - 1) - 0) by lia.
    cbn [map]. rewrite <- app_assoc. repeat split.
Qed.

(** X15. A read that fails stops the upload.  When the reads of the
    chunks before [k] succeed and that of chunk [k] fails, the socket has
    sent the chunks 0 to [k - 1] and no completion message; the history
    gets the one entry 'Error sending file: undefined' (the rejection
    value of a failed read has no message); the chat is enabled again,
    [isUploadingFile] and [isSendingFile] are cleared, and the file stays
    in [currentFile]. *)
Theorem read_failure_stops_upload (readOk : Z -> bool) (now emsg : string)
    (w : World) (h : nat) (s : WebSocket) (f : File) (k : Z) :
  ws (vm w) = Some h ->
  sockets w !! h = Some s ->
  readyState s = OPEN ->
  currentFile (vm w) = Some f ->
  0 <= k < Math_ceil_div (size f) MiB ->
  (forall j, 0 <= j < k -> readOk j = true) ->
  readOk k = false ->
  let total := Math_ceil_div (size f) MiB in
  let w' := sendFileChunks_run readOk now emsg w in
  sockets w' = <[h := set_sent (sent s ++ map (chunk_message f total) (seqZ 0 k)) s]>
                 (sockets w) /\
  messages (vm w') = messages (vm w) ++ [upload_error now "undefined"] /\
  isChatEnabled (vm w') = true /\
  isUploadingFile (vm w') = false /\
  isSendingFile (vm w') = false /\
  currentFile (vm w') = Some f /\
  reads w' = reads w ++ map (chunk_blob f) (seqZ 0 (k + 1)) /\
  uploads w' = uploads w ++ [Finished].
Proof.
  intros Hws Hs Hr Hf Hk Hok Hbad total w'. subst w'.
  assert (Hsz : 0 <= size f).
  { destruct (Z.le_gt_cases 0 (size f)) as [H|H]; [exact H|]. exfalso.
    unfold Math_ceil_div in Hk. pose proof (Z.div_pos (- size f) MiB) as D.
    change MiB with 1048576 in *. lia. }
  assert (L : hold f h w s) by (repeat split; try assumption; rewrite Hr; discriminate).
  destruct (sendFileChunks_run_ended readOk now emsg w h s f k L Hsz
              ltac:(lia) Hok ltac:(intros _; exact Hbad)) as (S & U & R & V & _).
  cbv zeta in S, V. fold total in S, R, V. fold total in Hk.
  assert (Hlt : (k <? total) = true) by (apply Z.ltb_lt; lia).
  rewrite Hlt in S, V. rewrite app_nil_r, (deliver_open _ _ Hr) in S.
  replace (Z.min (k + 1) total) with (k + 1) in R by lia.
  rewrite S, U, R, V. unfold upload_failed.
  cbn [messages isChatEnabled isUploadingFile isSendingFile currentFile
       set_isSendingFile set_isUploadingFile set_isChatEnabled set_messages].
  repeat split. exact Hf.
Qed.

Lemma read_failure_stops_upload_witness :
  exists s, sockets ready_to_upload !! 0%nat = Some s /\
    let w' := sendFileChunks_run third_read_fails "10:00:02" "" ready_to_upload in
    sockets w' = <[0%nat := set_sent (sent s ++ map (chunk_message log25 3) (seqZ 0 2)) s]>
                   (sockets ready_to_upload) /\
    messages (vm w') = messages (vm ready_to_upload) ++ [upload_error "10:00:02" "undefined"] /\
    isChatEnabled (vm w') = true /\
    isUploadingFile (vm w') = false /\
    isSendingFile (vm w') = false /\
    currentFile (vm w') = Some log25 /\
    reads w' = reads ready_to_upload ++ map (chunk_blob log25) (seqZ 0 (2 + 1)) /\
    uploads w' = uploads ready_to_upload ++ [Finished].
Proof.
  eexists. split; [reflexivity|].
  refine (read_failure_stops_upload third_read_fails "10:00:02" "" ready_to_upload 0%nat _
            log25 2 eq_refl eq_refl eq_refl eq_refl _ _ eq_refl).
  - vm_compute. split; [discriminate | reflexivity].
  - intros j Hj. unfold third_read_fails. apply Z.ltb_lt. lia.
Defined.






(** ** What the handlers do to the connections and to the history *)

Ltac solve_grows :=
  first [eexists; reflexivity | exists []; symmetry; apply app_nil_r].

Ltac solve_calm := split; [reflexivity | split; [reflexivity | solve_grows]].

Lemma calm_refl w : calm w w.
Proof. solve_calm. Qed.

Lemma calm_trans w1 w2 w3 : calm w1 w2 -> calm w2 w3 -> calm w1 w3.
Proof.
  intros (A1 & B1 & l1 & C1) (A2 & B2 & l2 & C2).
  split; [congruence|]. split; [congruence|].
  exists (l1 ++ l2). rewrite C2, C1, app_assoc. reflexivity.
Qed.

Lemma wire_insert (l : list WebSocket) h s s' :
  l !! h = Some s -> wire_of s' = wire_of s -> wire_of <$> <[h := s']> l = wire_of <$> l.
Proof.
  intros H E. rewrite list_fmap_insert. apply list_insert_id.
  rewrite list_lookup_fmap, H, E. reflexivity.
Qed.

Lemma calm_urls w w' : calm w w' -> urls w' = urls w.
Proof.
  intros (A & _). unfold urls.
  change url with (fst ∘ wire_of). rewrite !list_fmap_compose. fold (wire w) (wire w').
  rewrite A. reflexivity.
Qed.

Lemma calm_catch now emsg w : calm w (sendFileChunks_catch now emsg w).
Proof. solve_calm. Qed.

Lemma ws_send_calm msg w w' : ws_send msg w = Some w' -> calm w w'.
Proof.
  unfold ws_send, socket_send.
  destruct (ws (vm w)) as [h|]; [|discriminate].
  destruct (sockets w !! h) as [s|] eqn:E; [|discriminate].
  destruct (readyState s); intros [= <-]; try apply calm_refl.
  split; [|split; [reflexivity | solve_grows]].
  unfold wire. cbn [sockets set_sockets]. apply (wire_insert _ _ _ _ E). reflexivity.
Qed.

Lemma loop_calm t i now emsg w : calm w (fst (sendFileChunks_loop t i now emsg w)).
Proof.
  unfold sendFileChunks_loop. cbv zeta.
  destruct (i <? t); destruct (currentFile (vm w)) as [f|]; cbn [fst];
    try apply calm_catch.
  - solve_calm.
  - destruct (ws_send _ w) as [w1|] eqn:E; cbn [fst]; [|apply calm_catch].
    apply (calm_trans _ w1); [apply (ws_send_calm _ _ _ E) | solve_calm].
Qed.

Lemma sendFileChunks_calm now emsg w : calm w (sendFileChunks now emsg w).
Proof.
  unfold sendFileChunks. destruct (currentFile (vm w)) as [f|]; [|apply calm_refl].
  cbv zeta.
  match goal with |- context [sendFileChunks_loop ?t ?i ?n ?e ?w1] =>
    pose proof (loop_calm t i n e w1) as L;
    destruct (sendFileChunks_loop t i n e w1) as [w2 st];
    apply (calm_trans _ w1); [solve_calm|] end.
  cbn [fst] in L. apply (calm_trans _ w2); [exact L | solve_calm].
Qed.

Lemma park_calm pid r w : calm w (fst r) -> calm w (park pid r).
Proof. intros L. apply (calm_trans _ (fst r)); [exact L | solve_calm]. Qed.

Lemma reader_onload_calm pid now emsg w w' : reader_onload pid now emsg w = Some w' -> calm w w'.
Proof.
  unfold reader_onload. destruct (uploads w !! pid) as [[t i chunk|t i|]|]; try discriminate.
  intros [= <-]. apply park_calm.
  destruct (currentFile (vm w)) as [f|]; [|apply calm_catch].
  destruct (ws_send _ w) as [w1|] eqn:E; cbn [fst];
    [apply (ws_send_calm _ _ _ E) | apply calm_catch].
Qed.

Lemma reader_onerror_calm pid now w w' : reader_onerror pid now w = Some w' -> calm w w'.
Proof.
  unfold reader_onerror. destruct (uploads w !! pid) as [[t i chunk|t i|]|]; try discriminate.
  intros [= <-]. apply park_calm, calm_catch.
Qed.

Lemma delay_elapsed_calm pid now emsg w w' : delay_elapsed pid now emsg w = Some w' -> calm w w'.
Proof.
  unfold delay_elapsed. destruct (uploads w !! pid) as [[t i chunk|t i|]|]; try discriminate.
  intros [= <-]. apply park_calm, loop_calm.
Qed.

Lemma onMessageReceived_calm m w : calm w (onMessageReceived m w).
Proof.
  unfold onMessageReceived. cbv zeta.
  repeat match goal with |- context [if ?b then _ else _] => destruct b end; solve_calm.
Qed.

Lemma onMessage_calm parsed w : calm w (onMessage parsed w).
Proof.
  unfold onMessage. destruct parsed as [m|]; [destruct (type m === "error")|]; solve_calm.
Qed.

Lemma sendMessage_calm now w : calm w (sendMessage now w).
Proof.
  unfold sendMessage. cbv zeta. destruct (_ || _); [apply calm_refl|].
  match goal with |- context [ws_send ?m ?w2] =>
    destruct (ws_send m w2) as [w3|] eqn:E;
    [apply (calm_trans _ w2); [solve_calm|];
     apply (calm_trans _ w3); [apply (ws_send_calm _ _ _ E) | solve_calm]
    | apply (calm_trans _ w2); solve_calm] end.
Qed.

Lemma sendDataToBackend_calm kind payload now w : calm w (sendDataToBackend kind payload now w).
Proof.
  unfold sendDataToBackend. destruct (negb _); [apply calm_refl|].
  destruct (ws_send _ w) as [w1|] eqn:E; [apply (ws_send_calm _ _ _ E) | apply calm_refl].
Qed.

Lemma updateParsedData_calm snapshot now w : calm w (updateParsedData snapshot now w).
Proof.
  unfold updateParsedData.
  apply (calm_trans _ (upd (set_parsedData (Some snapshot)) w));
    [solve_calm | apply sendDataToBackend_calm].
Qed.

Lemma onFileLoaded_resume_calm now emsg w : calm w (onFileLoaded_resume now emsg w).
Proof.
  unfold onFileLoaded_resume. destruct (_ && _); [apply sendFileChunks_calm | apply calm_refl].
Qed.

Lemma settle_calm h outcome k w :
  (forall w0, calm w0 (k w0)) -> calm w (settle h outcome k w).
Proof.
  intros K. unfold settle. destruct (sockets w !! h) as [s|] eqn:E; [|apply calm_refl].
  destruct (promise s); try apply calm_refl.
  match goal with |- calm w (if _ then k ?w1 else _) =>
    assert (C : calm w w1)
      by (split; [unfold wire; cbn [sockets set_sockets];
                  apply (wire_insert _ _ _ _ E); reflexivity
                 | split; [reflexivity | solve_grows]]);
    destruct (awaited s); [apply (calm_trans _ w1); [exact C | apply K] | exact C] end.
Qed.

Lemma ws_onerror_calm h now w : calm w (ws_onerror h now w).
Proof.
  unfold ws_onerror. cbv zeta.
  match goal with |- calm w (settle _ _ _ ?w1) =>
    apply (calm_trans _ w1); [solve_calm|] end.
  apply settle_calm. intros w0. unfold onFileLoaded_catch. solve_calm.
Qed.

Lemma ws_onopen_calm h now emsg w : calm w (ws_onopen h now emsg w).
Proof.
  unfold ws_onopen. cbv zeta.
  match goal with |- calm w (settle _ _ _ ?w1) =>
    apply (calm_trans _ w1); [solve_calm|] end.
  apply settle_calm. intros w0. apply onFileLoaded_resume_calm.
Qed.

(** The quiet events are calm. *)
Lemma quiet_step w e w' : quiet e = true -> step w e = Some w' -> calm w w'.
Proof.
  intros Q H. destruct e; try discriminate Q; cbn [step] in H.
  - injection H as <-. solve_calm.
  - injection H as <-. apply onMessageReceived_calm.
  - injection H as <-. apply sendFileChunks_calm.
  - injection H as <-. apply onMessage_calm.
  - injection H as <-. solve_calm.
  - injection H as <-. apply sendMessage_calm.
  - injection H as <-. solve_calm.
  - destruct (state_of h w) as [[]|]; try discriminate H; injection H as <-;
      (destruct parsed as [m|]; [apply onMessageReceived_calm | apply calm_refl]).
  - apply (reader_onload_calm _ _ _ _ _ H).
  - apply (reader_onerror_calm _ _ _ _ H).
  - apply (delay_elapsed_calm _ _ _ _ _ H).
Qed.

Lemma set_socket_state_urls h v w : urls (set_socket_state h v w) = urls w.
Proof.
  unfold set_socket_state, urls. destruct (sockets w !! h) as [s|] eqn:E; [|reflexivity].
  cbn [sockets set_sockets]. rewrite list_fmap_insert. apply list_insert_id.
  rewrite list_lookup_fmap, E. reflexivity.
Qed.

Lemma disconnectWebSocket_net w :
  urls (disconnectWebSocket w) = urls w /\
  (disconnectWebSocket w = w \/ isConnected (vm (disconnectWebSocket w)) = false).
Proof.
  unfold disconnectWebSocket.
  destruct (ws (vm w)) as [h|]; [|split; [reflexivity | left; reflexivity]].
  split; [|right; reflexivity].
  destruct (wsIsOpen w); [|reflexivity]. unfold socket_close, urls.
  destruct (sockets w !! h) as [s|] eqn:E; [|reflexivity].
  cbn [sockets set_sockets upd]. rewrite list_fmap_insert. apply list_insert_id.
  rewrite list_lookup_fmap, E. reflexivity.
Qed.

Lemma ws_onclose_net now w :
  sockets (ws_onclose now w) = sockets w /\
  (timers (ws_onclose now w) = timers w \/
   timers (ws_onclose now w) = timers w ++ [reconnectDelay (vm w)]) /\
  exists l, messages (vm (ws_onclose now w)) = messages (vm w) ++ l.
Proof.
  unfold ws_onclose. cbv zeta. destruct (_ <? _).
  - split; [reflexivity|]. split; [right; reflexivity | solve_grows].
  - split; [reflexivity|]. split; [left; reflexivity | solve_grows].
Qed.

(** The task in which a connection that failed is closed: [error], then
    [close]. *)
Lemma socket_fails_net h now w :
  let w' := ws_onclose now (ws_onerror h now (set_socket_state h CLOSED w)) in
  urls w' = urls w /\
  (timers w' = timers w \/ timers w' = timers w ++ [reconnectDelay (vm w)]) /\
  (exists l, messages (vm w') = messages (vm w) ++ l) /\
  isConnected (vm w') = false.
Proof.
  cbv zeta. set (w0 := set_socket_state h CLOSED w). set (we := ws_onerror h now w0).
  pose proof (ws_onerror_calm h now w0) as C. fold we in C.
  destruct (ws_onclose_net now we) as (S & T & l2 & M).
  destruct (ws_onclose_world now we) as (_ & _ & _ & _ & I).
  pose proof C as (_ & Te & l1 & Me).
  assert (D : reconnectDelay (vm we) = reconnectDelay (vm w)).
  { unfold we. rewrite (ws_onerror_frame reconnectDelay) by solve_blind.
    unfold w0. rewrite set_socket_state_vm. reflexivity. }
  split; [|split; [|split; [|exact I]]].
  - unfold urls at 1. rewrite S. fold (urls we). rewrite (calm_urls _ _ C).
    apply set_socket_state_urls.
  - rewrite D in T. unfold w0 in Te. rewrite set_socket_state_timers in Te.
    rewrite Te in T. exact T.
  - exists (l1 ++ l2). rewrite M, Me. unfold w0. rewrite set_socket_state_vm, app_assoc.
    reflexivity.
Qed.

(** A call of [connectWebSocket] changes nothing, or it adds one socket
    for the client id, which it generates if there is none. *)
Lemma connectWebSocket_cases rnd w :
  fst (connectWebSocket rnd w) = w \/
  exists id, id <> "" /\
    clientId (vm (fst (connectWebSocket rnd w))) = Some id /\
    (forall id0, clientId (vm w) = Some id0 -> id0 <> "" -> id = id0) /\
    (clientId (vm w) = None -> id = "client_" +:+ rnd) /\
    sockets (fst (connectWebSocket rnd w)) = sockets w ++ [new_socket id] /\
    timers (fst (connectWebSocket rnd w)) = timers w.
Proof.
  destruct (wsIsOpen w) eqn:E.
  - left. unfold connectWebSocket. rewrite E. reflexivity.
  - right. destruct (connectWebSocket_sockets rnd w E) as (id & N & C & K & K0 & S).
    destruct (connectWebSocket_new rnd w E) as (_ & _ & _ & T).
    exists id. repeat split; assumption.
Qed.

Lemma connectWebSocket_timers rnd w : timers (fst (connectWebSocket rnd w)) = timers w.
Proof.
  destruct (connectWebSocket_cases rnd w) as [E | (id & _ & _ & _ & _ & _ & T)];
    [rewrite E; reflexivity | exact T].
Qed.

Lemma connectWebSocket_wire rnd w :
  wire (fst (connectWebSocket rnd w)) = wire w \/
  exists p, wire (fst (connectWebSocket rnd w)) = wire w ++ [p].
Proof.
  destruct (connectWebSocket_cases rnd w) as [E | (id & _ & _ & _ & _ & S & _)].
  - left. rewrite E. reflexivity.
  - right. exists (wire_of (new_socket id)). unfold wire. rewrite S, fmap_app. reflexivity.
Qed.

(** [onFileLoaded] as a calm part, a call of [connectWebSocket], and a
    calm part. *)
Lemma onFileLoaded_split snapshot rnd now emsg w :
  exists w1, calm w w1 /\ clientId (vm w1) = clientId (vm w) /\
    calm (fst (connectWebSocket rnd w1)) (onFileLoaded snapshot rnd now emsg w) /\
    clientId (vm (onFileLoaded snapshot rnd now emsg w)) =
      clientId (vm (fst (connectWebSocket rnd w1))).
Proof.
  unfold onFileLoaded. cbv zeta.
  set (w1 := updateParsedData snapshot now (upd (set_hasFile true) w)).
  exists w1. split.
  { apply (calm_trans _ (upd (set_hasFile true) w)); [solve_calm|].
    apply updateParsedData_calm. }
  split.
  { unfold w1, updateParsedData. rewrite (sendDataToBackend_frame clientId). reflexivity. }
  destruct (connectWebSocket rnd w1) as [w2 [|h]]; cbn [fst].
  - split; [apply onFileLoaded_resume_calm|].
    apply (onFileLoaded_resume_frame clientId). solve_blind.
  - destruct (sockets w2 !! h) as [s|] eqn:E; [|split; [apply calm_refl | reflexivity]].
    split; [|reflexivity].
    split; [|split; [reflexivity | solve_grows]].
    unfold wire. cbn [sockets set_sockets]. apply (wire_insert _ _ _ _ E). reflexivity.
Qed.

(** *** The history *)

Lemma step_history w e w' :
  step w e = Some w' -> exists l, messages (vm w') = messages (vm w) ++ l.
Proof.
  intros H. destruct (quiet e) eqn:Q; [apply (quiet_step w e w' Q H)|].
  assert (K : messages (vm w') = messages (vm w) ->
              exists l, messages (vm w') = messages (vm w) ++ l)
    by (intros ->; solve_grows).
  destruct e; try discriminate Q.
  - cbn [step] in H. injection H as <-.
    destruct (onFileLoaded_split snapshot rnd now emsg w)
      as (w1 & (_ & _ & l1 & M1) & _ & (_ & _ & l2 & M2) & _).
    pose proof (connectWebSocket_frame messages rnd w1 ltac:(solve_blind)) as F.
    exists (l1 ++ l2). rewrite M2, F, M1, app_assoc. reflexivity.
  - apply K. refine (step_frame messages _ _ _ _ H). solve_blind.
  - apply K. refine (step_frame messages _ _ _ _ H). solve_blind.
  - cbn [step] in H. destruct (state_of h w) as [[]|]; try discriminate H.
    injection H as <-.
    destruct (ws_onopen_calm h now emsg (set_socket_state h OPEN w)) as (_ & _ & l & M).
    exists l. rewrite M, set_socket_state_vm. reflexivity.
  - cbn [step] in H. destruct (state_of h w) as [[]|]; try discriminate H;
      injection H as <-; apply (socket_fails_net h now w).
  - cbn [step] in H. destruct (state_of h w) as [[]|]; try discriminate H;
      injection H as <-;
      destruct (ws_onclose_net now (set_socket_state h CLOSED w)) as (_ & _ & l & M);
      exists l; rewrite M, set_socket_state_vm; reflexivity.
  - apply K. refine (step_frame messages _ _ _ _ H). solve_blind.
  - apply K. refine (step_frame messages _ _ _ _ H). solve_blind.
Qed.

(** X18. The chat history is append-only.  Whatever happens, every entry
    of the history stays where it is and as it is: no handler of the
    component removes, reorders or rewrites an entry, the history only
    gets longer at its end. *)
Theorem history_is_append_only (es : list Event) (w w' : World) :
  exec w es = Some w' -> exists l, messages (vm w') = messages (vm w) ++ l.
Proof.
  revert w. induction es as [|e es IH]; intros w H; cbn [exec] in H.
  - injection H as <-. solve_grows.
  - destruct (step w e) as [w1|] eqn:E; [|discriminate H].
    destruct (step_history w e w1 E) as (l1 & M1). destruct (IH w1 H) as (l2 & M2).
    exists (l1 ++ l2). rewrite M2, M1, app_assoc. reflexivity.
Qed.

Lemma history_is_append_only_witness :
  exists l, messages (vm (default created (exec gave_up after_giving_up))) =
            messages (vm gave_up) ++ l.
Proof.
  apply (history_is_append_only after_giving_up gave_up). vm_compute. reflexivity.
Defined.

(** *** The reconnect delay *)

Lemma step_timers w e w' :
  step w e = Some w' ->
  timers w' = timers w \/ timers w' = timers w ++ [reconnectDelay (vm w)] \/
  exists d, timers w = d :: timers w'.
Proof.
  intros H. destruct (quiet e) eqn:Q.
  { left. apply (quiet_step w e w' Q H). }
  destruct e; try discriminate Q; cbn [step] in H.
  - left. injection H as <-.
    destruct (onFileLoaded_split snapshot rnd now emsg w)
      as (w1 & (_ & T1 & _) & _ & (_ & T2 & _) & _).
    rewrite T2, connectWebSocket_timers. exact T1.
  - left. injection H as <-. apply connectWebSocket_timers.
  - left. injection H as <-. apply disconnectWebSocket_world.
  - left. destruct (state_of h w) as [[]|]; try discriminate H. injection H as <-.
    destruct (ws_onopen_calm h now emsg (set_socket_state h OPEN w)) as (_ & T & _).
    rewrite T. apply set_socket_state_timers.
  - destruct (state_of h w) as [[]|]; try discriminate H; injection H as <-;
      destruct (socket_fails_net h now w) as (_ & [T|T] & _); tauto.
  - destruct (state_of h w) as [[]|]; try discriminate H; injection H as <-;
      destruct (ws_onclose_net now (set_socket_state h CLOSED w)) as (_ & [T|T] & _);
      rewrite T, ?set_socket_state_vm, set_socket_state_timers; tauto.
  - right; right. destruct (timers w) as [|d rest]; [discriminate H|]. injection H as <-.
    exists d. unfold reconnect_timer. rewrite connectWebSocket_timers. reflexivity.
  - left. destruct (state_of h w) as [[]|]; try discriminate H. injection H as <-.
    apply set_socket_state_timers.
Qed.

Lemma fixed_delay_step w e w' : fixed_delay w -> step w e = Some w' -> fixed_delay w'.
Proof.
  intros [D F] H. split.
  - rewrite <- D. apply (step_frame reconnectDelay w e w'); [|exact H].
    destruct e; solve_blind.
  - destruct (step_timers w e w' H) as [T | [T | (d & T)]].
    + rewrite T. exact F.
    + rewrite T, D. apply Forall_app. split; [exact F | repeat constructor].
    + rewrite T in F. apply (Forall_inv_tail F).
Qed.

(** X19. The reconnect delay is fixed.  In every world the component can
    reach, [reconnectDelay] is the initial 5000 ms and every pending
    reconnect was scheduled with 5000 ms: the delay does not grow with
    the number of attempts. *)
Theorem reconnect_delay_is_fixed (w : World) :
  reachable w ->
  reconnectDelay (vm w) = 5000 /\ Forall (fun d => d = 5000) (timers w).
Proof.
  intros [es Hes].
  apply (exec_invariant fixed_delay fixed_delay_step es created w); [|exact Hes].
  split; [reflexivity | constructor].
Qed.

Lemma reconnect_delay_is_fixed_witness :
  let w := default created (exec created lost_twice) in
  reconnectAttempts (vm w) = 2 /\
  reconnectDelay (vm w) = 5000 /\ Forall (fun d => d = 5000) (timers w).
Proof.
  split; [reflexivity|].
  apply reconnect_delay_is_fixed. exists lost_twice. vm_compute. reflexivity.
Defined.

(** *** The address of the sockets *)

Lemma step_urls w e w' : may_connect e = false -> step w e = Some w' -> urls w' = urls w.
Proof.
  intros X H. destruct (quiet e) eqn:Q; [apply calm_urls, (quiet_step w e w' Q H)|].
  destruct e; try discriminate Q; try discriminate X; cbn [step] in H.
  - injection H as <-. apply disconnectWebSocket_net.
  - destruct (state_of h w) as [[]|]; try discriminate H. injection H as <-.
    rewrite (calm_urls _ _ (ws_onopen_calm h now emsg (set_socket_state h OPEN w))).
    apply set_socket_state_urls.
  - destruct (state_of h w) as [[]|]; try discriminate H; injection H as <-;
      apply (socket_fails_net h now w).
  - destruct (state_of h w) as [[]|]; try discriminate H; injection H as <-;
      destruct (ws_onclose_net now (set_socket_state h CLOSED w)) as (S & _);
      unfold urls at 1; rewrite S; apply set_socket_state_urls.
  - destruct (state_of h w) as [[]|]; try discriminate H. injection H as <-.
    apply set_socket_state_urls.
Qed.

Lemma step_clientId w e w' :
  may_connect e = false -> step w e = Some w' -> clientId (vm w') = clientId (vm w).
Proof.
  intros X H. destruct e; try discriminate X;
    (refine (step_frame clientId _ _ _ _ H); solve_blind).
Qed.

Lemma addressed_connect rnd w :
  addressed w ->
  addressed (fst (connectWebSocket rnd w)) /\
  forall id, clientId (vm w) = Some id ->
    clientId (vm (fst (connectWebSocket rnd w))) = Some id.
Proof.
  intros A.
  destruct (connectWebSocket_cases rnd w) as [E | (id & N & C & K & K0 & S & _)].
  - rewrite E. split; [exact A | tauto].
  - unfold addressed in *. unfold urls in *. rewrite C, S, fmap_app.
    destruct (clientId (vm w)) as [id0|].
    + destruct A as ((r & ->) & F).
      assert (E : id = "client_" +:+ r) by (apply K; [reflexivity | discriminate]).
      subst id. split.
      * split; [exists r; reflexivity|]. apply Forall_app. split; [exact F|].
        repeat constructor.
      * intros id1 [= <-]. reflexivity.
    + split; [|discriminate]. rewrite A, K0 by reflexivity.
      split; [exists rnd; reflexivity | repeat constructor].
Qed.

Lemma addressed_keep w w' :
  addressed w -> urls w' = urls w -> clientId (vm w') = clientId (vm w) -> addressed w'.
Proof. unfold addressed. intros A U C. rewrite U, C. exact A. Qed.

Lemma addressed_step w e w' :
  addressed w -> step w e = Some w' ->
  addressed w' /\ forall id, clientId (vm w) = Some id -> clientId (vm w') = Some id.
Proof.
  intros A H. destruct (may_connect e) eqn:X.
  - destruct e; try discriminate X; cbn [step] in H.
    + injection H as <-.
      destruct (onFileLoaded_split snapshot rnd now emsg w) as (w1 & C1 & I1 & C2 & I2).
      pose proof (addressed_keep w w1 A (calm_urls _ _ C1) I1) as A1.
      destruct (addressed_connect rnd w1 A1) as (A2 & K2).
      split; [apply (addressed_keep _ _ A2 (calm_urls _ _ C2) I2)|].
      intros id Hid. rewrite I2. apply K2. rewrite I1. exact Hid.
    + injection H as <-. apply addressed_connect, A.
    + destruct (timers w) as [|d rest]; [discriminate H|]. injection H as <-.
      apply (addressed_connect rnd (set_timers rest w)), A.
  - pose proof (step_clientId w e w' X H) as C. split.
    + apply (addressed_keep w w' A (step_urls w e w' X H) C).
    + intros id Hid. rewrite C. exact Hid.
Qed.

Lemma addressed_exec es :
  forall w w', addressed w -> exec w es = Some w' ->
  addressed w' /\ forall id, clientId (vm w) = Some id -> clientId (vm w') = Some id.
Proof.
  induction es as [|e es IH]; intros w w' A H; cbn [exec] in H.
  - injection H as <-. split; [exact A | tauto].
  - destruct (step w e) as [w1|] eqn:E; [|discriminate H].
    destruct (addressed_step w e w1 A E) as (A1 & K1).
    destruct (IH w1 w' A1 H) as (A2 & K2).
    split; [exact A2|]. intros id Hid. apply K2, K1, Hid.
Qed.

(** X20. One client id, one address.  In every world the component can
    reach there is no socket before a client id exists; the client id,
    once generated, is 'client_' followed by the random text and never
    changes afterwards; and every socket the component has made,
    reconnects included, was opened at ws://0.0.0.0:8000/ws/ followed by
    that id. *)
Theorem one_client_id_one_address (w : World) :
  reachable w ->
  (clientId (vm w) = None -> sockets w = []) /\
  forall id, clientId (vm w) = Some id ->
    (exists rnd, id = "client_" +:+ rnd) /\
    Forall (fun s => url s = endpoint id) (sockets w) /\
    forall es w', exec w es = Some w' -> clientId (vm w') = Some id.
Proof.
  intros [es0 Hes].
  assert (A0 : addressed created) by reflexivity.
  destruct (addressed_exec es0 created w A0 Hes) as (A & _).
  split.
  - intros C. unfold addressed in A. rewrite C in A. apply (fmap_nil_inv url). exact A.
  - intros id C. pose proof A as A'. unfold addressed in A'. rewrite C in A'.
    destruct A' as (R & F). split; [exact R|]. split.
    + apply Forall_fmap in F. exact F.
    + intros es w' H. apply (addressed_exec es w w' A H). exact C.
Qed.

Lemma one_client_id_one_address_witness :
  let w := default created (exec created lost_twice) in
  length (sockets w) = 2%nat /\
  (clientId (vm w) = None -> sockets w = []) /\
  forall id, clientId (vm w) = Some id ->
    (exists rnd, id = "client_" +:+ rnd) /\
    Forall (fun s => url s = endpoint id) (sockets w) /\
    forall es w', exec w es = Some w' -> clientId (vm w') = Some id.
Proof.
  split; [reflexivity|].
  apply one_client_id_one_address. exists lost_twice. vm_compute. reflexivity.
Defined.

(** *** The connection flag *)

Lemma up_kept w w' :
  (isConnected (vm w') = true -> isConnected (vm w) = true) ->
  (wire w' = wire w \/ exists p, wire w' = wire w ++ [p]) ->
  up_if_connected w -> up_if_connected w'.
Proof.
  unfold up_if_connected. intros C [W | (p & W)] K C'; rewrite W.
  - apply K, C, C'.
  - apply Exists_app. left. apply K, C, C'.
Qed.

Lemma up_socket_state h v w :
  is_Some (state_of h w) -> established v = true ->
  Exists (fun p => established p.2 = true) (wire w) ->
  Exists (fun p => established p.2 = true) (wire (set_socket_state h v w)).
Proof.
  intros [st St] V X. unfold state_of in St. unfold wire, set_socket_state in *.
  destruct (sockets w !! h) as [s|] eqn:E; [|discriminate St].
  cbn [sockets set_sockets]. apply Exists_exists in X as (p & Hp & Ho).
  apply list_elem_of_lookup in Hp as (i & Hi). apply Exists_exists.
  destruct (Nat.eq_dec h i) as [<-|N].
  - exists (wire_of (set_readyState v s)). split; [|exact V].
    apply (list_elem_of_lookup_2 _ h). rewrite list_lookup_fmap.
    rewrite list_lookup_insert_eq by apply (lookup_lt_Some _ _ _ E). reflexivity.
  - exists p. split; [|exact Ho]. apply (list_elem_of_lookup_2 _ i).
    rewrite list_lookup_fmap, list_lookup_insert_ne by exact N.
    rewrite <- list_lookup_fmap. exact Hi.
Qed.

Lemma up_if_connected_step w e w' :
  up_if_connected w -> step w e = Some w' -> up_if_connected w'.
Proof.
  intros K H.
  assert (Q : quiet e = true ->
              (isConnected (vm w') = true -> isConnected (vm w) = true) ->
              up_if_connected w').
  { intros Q C. apply (up_kept w w' C); [|exact K].
    left. apply (quiet_step w e w' Q H). }
  assert (F : blind isConnected (writes e) ->
              isConnected (vm w') = true -> isConnected (vm w) = true).
  { intros B C. rewrite <- (step_frame isConnected w e w' B H). exact C. }
  destruct e; try (apply Q; [reflexivity | apply F; solve_blind]); cbn [step] in H.
  - injection H as <-.
    destruct (onFileLoaded_split snapshot rnd now emsg w)
      as (w1 & (W1 & _) & _ & (W2 & _) & _).
    apply (up_kept w _ (F ltac:(solve_blind))); [|exact K].
    rewrite W2, <- W1. apply connectWebSocket_wire.
  - injection H as <-.
    apply (up_kept w _ (F ltac:(solve_blind))); [|exact K]. apply connectWebSocket_wire.
  - injection H as <-. destruct (disconnectWebSocket_net w) as (_ & [E | E]).
    + rewrite E. exact K.
    + intros C. rewrite E in C. discriminate C.
  - destruct (state_of h w) as [[]|] eqn:St; try discriminate H. injection H as <-.
    intros _. destruct (ws_onopen_calm h now emsg (set_socket_state h OPEN w)) as (W & _).
    rewrite W. unfold state_of in St. unfold wire, set_socket_state.
    destruct (sockets w !! h) as [s|] eqn:E; [|discriminate St].
    cbn [sockets set_sockets]. apply Exists_exists.
    exists (wire_of (set_readyState OPEN s)). split; [|reflexivity].
    apply (list_elem_of_lookup_2 _ h). rewrite list_lookup_fmap.
    rewrite list_lookup_insert_eq by apply (lookup_lt_Some _ _ _ E). reflexivity.
  - destruct (state_of h w) as [[]|]; try discriminate H; injection H as <-;
      intros C; destruct (socket_fails_net h now w) as (_ & _ & _ & E);
      rewrite E in C; discriminate C.
  - destruct (state_of h w) as [[]|]; try discriminate H; injection H as <-;
      intros C;
      destruct (ws_onclose_world now (set_socket_state h CLOSED w)) as (_ & _ & _ & _ & E);
      rewrite E in C; discriminate C.
  - destruct (timers w) as [|d rest] eqn:T; [discriminate H|]. injection H as <-.
    unfold reconnect_timer.
    apply (up_kept (set_timers rest w)); [| apply connectWebSocket_wire | exact K].
    intros C.
    rewrite (connectWebSocket_frame isConnected rnd (set_timers rest w)) in C
      by solve_blind.
    exact C.
  - destruct (state_of h w) as [[]|] eqn:St; try discriminate H. injection H as <-.
    intros C. rewrite set_socket_state_vm in C.
    apply up_socket_state; [rewrite St; eexists; reflexivity | reflexivity | exact (K C)].
Qed.

(** [isConnected] does not tell that a socket is open: once the server
    has started the closing handshake the socket is closing, and
    [isConnected] stays true until the close handler runs. *)
Lemma connected_while_closing :
  exists w, exec created server_closing = Some w /\
    isConnected (vm w) = true /\
    Forall (fun s => readyState s <> OPEN) (sockets w) /\
    wsIsOpen w = false.
Proof.
  eexists. split; [vm_compute; reflexivity|].
  split; [reflexivity|]. split; [|reflexivity]. repeat constructor. discriminate.
Qed.

(** X21. [isConnected] is never set unless a connection is up.  In every
    world the component can reach with [isConnected] true, at least one
    of its sockets has opened and has not closed yet: its ready state is
    [OPEN] or [CLOSING].  (The socket need not be the one the handle
    names, it need not be open any more, and the converse does not
    hold.) *)
Theorem connected_means_socket_open_or_closing (w : World) :
  reachable w ->
  isConnected (vm w) = true ->
  exists h s, sockets w !! h = Some s /\ (readyState s = OPEN \/ readyState s = CLOSING).
Proof.
  intros [es Hes] C.
  assert (K : up_if_connected w).
  { apply (exec_invariant up_if_connected up_if_connected_step es created w);
      [|exact Hes]. intros C0. discriminate C0. }
  pose proof (K C) as E. apply Exists_exists in E as (p & Hp & Ho).
  unfold wire in Hp. apply list_elem_of_fmap in Hp as (s & -> & Hs).
  apply list_elem_of_lookup in Hs as (h & Hs). exists h, s. split; [exact Hs|].
  cbn [wire_of snd] in Ho. destruct (readyState s); try discriminate Ho; tauto.
Qed.

Lemma connected_means_socket_open_or_closing_witness :
  let w := default created (exec created server_closing) in
  exists h s, sockets w !! h = Some s /\ (readyState s = OPEN \/ readyState s = CLOSING).
Proof.
  apply connected_means_socket_open_or_closing; [|reflexivity].
  exists server_closing. vm_compute. reflexivity.
Defined.

(** ** The chunks *)

Lemma tiles_from (f : File) :
  0 <= size f ->
  forall (n : nat) (i : Z),
    Z.of_nat n = Math_ceil_div (size f) MiB - i -> 0 <= i ->
    tiles f (map (chunk_blob f) (seqZ i (Math_ceil_div (size f) MiB - i)))
      (Z.min (i * MiB) (size f)) (size f).
Proof.
  intros Hsz. pose proof (Math_ceil_div_MiB (size f) Hsz) as (T0 & T1 & T2).
  set (total := Math_ceil_div (size f) MiB) in *.
  induction n as [|n IH]; intros i Hn Hi.
  - replace (total - i) with 0 by lia. rewrite seqZ_nil by lia. cbn [map tiles].
    assert (i = total) by lia. subst i. lia.
  - rewrite seqZ_cons by lia. cbn [map tiles chunk_blob blob_file blob_start blob_end].
    assert (Hlt : i * MiB < size f) by (change MiB with 1048576 in *; lia).
    split; [reflexivity|]. split; [lia|]. split; [change MiB with 1048576 in *; lia|].
    replace (Z.pred (total - i)) with (total - Z.succ i) by lia.
    replace (Z.min ((i + 1) * MiB) (size f)) with (Z.min (Z.succ i * MiB) (size f))
      by (f_equal; lia).
    apply IH; lia.
Qed.

(** X22. The chunks cover the file exactly once.  The blobs a complete
    upload reads, which are the blobs its chunk messages carry, are cut
    from the file, none is empty, none is longer than one MiB, and laid
    end to end in the order sent they cover the file from its first byte
    to its last with no gap and no overlap. *)
Theorem upload_reads_tile_the_file (readOk : Z -> bool) (now emsg : string)
    (w : World) (h : nat) (s : WebSocket) (f : File) :
  ws (vm w) = Some h ->
  sockets w !! h = Some s ->
  readyState s = OPEN ->
  currentFile (vm w) = Some f ->
  0 <= size f ->
  (forall i, 0 <= i < Math_ceil_div (size f) MiB -> readOk i = true) ->
  let total := Math_ceil_div (size f) MiB in
  let bs := map (chunk_blob f) (seqZ 0 total) in
  reads (sendFileChunks_run readOk now emsg w) = reads w ++ bs /\
  tiles f bs 0 (size f) /\
  Z.of_nat (length bs) = total.
Proof.
  intros Hws Hs Hr Hf Hsz Hok total bs. subst bs.
  destruct (sendFileChunks_run_live readOk now emsg w h s f) as (_ & _ & _ & R & _);
    [repeat split; assumption | exact Hsz | exact Hok |].
  pose proof (Math_ceil_div_MiB (size f) Hsz) as (T0 & _). fold total in T0.
  split; [exact R|]. split.
  - pose proof (tiles_from f Hsz (Z.to_nat total) 0 ltac:(fold total; lia) ltac:(lia)) as T.
    fold total in T. replace (total - 0) with total in T by lia.
    replace (Z.min (0 * MiB) (size f)) with 0 in T by lia. exact T.
  - rewrite length_map, length_seqZ. lia.
Qed.

Lemma upload_reads_tile_the_file_witness :
  let bs := map (chunk_blob log25) (seqZ 0 (Math_ceil_div (size log25) MiB)) in
  reads upload_done = reads ready_to_upload ++ bs /\
  tiles log25 bs 0 (size log25) /\
  Z.of_nat (length bs) = Math_ceil_div (size log25) MiB.
Proof.
  exact (upload_reads_tile_the_file (fun _ => true) "10:00:02" "" ready_to_upload 0%nat _
           log25 eq_refl eq_refl eq_refl eq_refl ltac:(discriminate) ltac:(reflexivity)).
Defined.

(** X23. A file announced during an upload is mixed into it.  The number
    of chunks is computed once, at the start of the call, but every chunk
    is cut from [currentFile] as it is when the chunk is due.  If another
    file is announced while the call waits after chunk [i], chunk
    [i + 1] is cut from the new file and sent under the new file's name
    with the old number of chunks. *)
Theorem file_replaced_during_upload (f' : File) (now emsg : string)
    (w : World) (h pid : nat) (s : WebSocket) (t i : Z) :
  ws (vm w) = Some h ->
  sockets w !! h = Some s ->
  readyState s = OPEN ->
  uploads w !! pid = Some (Waiting t i) ->
  i + 1 < t ->
  let b := slice f' ((i + 1) * (1024 * 1024))
             (Z.min ((i + 1) * (1024 * 1024) + 1024 * 1024) (size f')) in
  exists w',
    exec w [FileReady f'; DelayElapsed pid now emsg; ReaderLoad pid now emsg] = Some w' /\
    sockets w' = <[h := set_sent (sent s ++ [file_chunk (i + 1) t (name f') b]) s]>
                   (sockets w) /\
    reads w' = reads w ++ [b] /\
    uploads w' = <[pid := Waiting t (i + 1)]> (uploads w) /\
    currentFile (vm w') = Some f'.
Proof.
  intros Hws Hs Hr Hu Hlt b.
  pose proof (lookup_lt_Some _ _ _ Hu) as Hp.
  set (w0 := setCurrentFile f' w).
  assert (L0 : live f' h w0 s) by (repeat split; assumption).
  assert (E1 : delay_elapsed pid now emsg w0 =
               Some (park pid (set_reads (reads w0 ++ [b]) w0, Reading t (i + 1) b))).
  { unfold delay_elapsed. change (uploads w0) with (uploads w). rewrite Hu.
    unfold sendFileChunks_loop. cbv zeta.
    apply Z.ltb_lt in Hlt. rewrite Hlt. reflexivity. }
  set (w1 := park pid (set_reads (reads w0 ++ [b]) w0, Reading t (i + 1) b)) in *.
  assert (Hu1 : uploads w1 !! pid = Some (Reading t (i + 1) b))
    by (unfold w1, park; cbn [uploads set_uploads set_reads fst snd];
        apply list_lookup_insert_eq, Hp).
  assert (L1 : live f' h w1 s) by exact L0.
  eexists. split.
  { cbn [exec step]. fold w0. rewrite E1.
    rewrite (reader_onload_live f' h now emsg pid t (i + 1) b w1 s L1 Hu1). reflexivity. }
  unfold w1, park. cbn [sockets reads uploads vm set_uploads set_sockets set_reads fst snd].
  rewrite list_insert_insert_eq. repeat split.
Qed.

Lemma file_replaced_during_upload_witness :
  exists s, sockets first_delay !! 0%nat = Some s /\
  let b := slice other_log ((0 + 1) * (1024 * 1024))
             (Z.min ((0 + 1) * (1024 * 1024) + 1024 * 1024) (size other_log)) in
  exists w',
    exec first_delay [FileReady other_log; DelayElapsed 0 "10:00:03" "";
                      ReaderLoad 0 "10:00:03" ""] = Some w' /\
    sockets w' = <[0%nat := set_sent (sent s ++ [file_chunk (0 + 1) 3 (name other_log) b]) s]>
                   (sockets first_delay) /\
    reads w' = reads first_delay ++ [b] /\
    uploads w' = <[0%nat := Waiting 3 (0 + 1)]> (uploads first_delay) /\
    currentFile (vm w') = Some other_log.
Proof.
  eexists. split; [reflexivity|].
  exact (file_replaced_during_upload other_log "10:00:03" "" first_delay 0%nat 0%nat _ 3 0
           eq_refl eq_refl eq_refl eq_refl eq_refl).
Defined.
